(** * Chat Store of the MoviePilot chat plugins

    A shallow embedding of the two plugin classes
    [plugins.v2/chat_center/__init__.py] (class [ChatCenter]) and
    [plugins.v2/chatroom_enhanced/__init__.py] (class [ChatroomEnhanced]):
    the bounded message log, the heartbeat presence map with lazy expiry,
    and the JSON file the message log is saved to and loaded from.

    Conventions of the embedding.
    - A Python [str] is a Rocq [string], read as the UTF-8 bytes of the text;
      the text of the backing file is a [list ascii] (its bytes). Byte
      sequences that are not UTF-8, and texts that have no UTF-8 encoding
      (lone surrogates), are outside the model.
    - A request field is an [option string]: [None] when the request leaves
      it out. Fields of other JSON types are outside the model.
    - A message is a record of its five fields; the message list is a list of
      such records. A backing file that holds a JSON document of another
      shape, which the code would bind to [_messages] as it is, leads to a
      state outside the model.
    - [time.time()] is a Python float. A clock reading is held as the
      rational ([Q]) that the float denotes, and the two float operations of
      the code, the subtraction of two readings and the product of a reading
      with 1000, are the exact operation followed by the rounding of IEEE 754
      binary64 ([Float.round], to nearest, ties to even). Readings are
      finite, and so small that their product with 1000 is finite ([int] of
      an infinite float would raise).
    - The presence dict is a finite map; the order in which Python lists its
      keys (insertion order) is not modelled.
    - The clock, and the outcome of opening and writing the backing file, are
      inputs of the operations that consult them. One API call is one step:
      the host is taken to serialize the calls.
    - [logger] calls append to a log kept in the state.
    - A value of the configuration dict is modelled by what [bool] and [int]
      answer on it, the two builtins that [init_plugin] applies; directories
      are not part of the file system of the model, so whether
      [os.makedirs] succeeds is an input of [init_plugin]. *)

From Stdlib Require Import ZArith QArith Qround Lqa List Ascii String.
From Stdlib Require Import DecimalString DecimalFacts DecimalPos DecimalZ.
From stdpp Require Import gmap strings list fin_maps.

Local Open Scope Z_scope.

(** ** Data model *)

(** A chat message: the dict built in [send_message]. *)
Record message := Message {
  msg_id : Z;
  msg_username : string;
  msg_content : string;
  msg_time : string;
  msg_type : string
}.

Definition text := list ascii.

(** ** Python helpers *)

(** [not s] for an optional string argument: [None] and the empty string are falsy. *)
Definition py_not (s : option string) : bool :=
  match s with
  | None => true
  | Some EmptyString => true
  | Some (String _ _) => false
  end.

(** The slice [l[start:]]: a negative [start] counts from the end and is
    clipped at the front; a non-negative one counts from the front. *)
Definition py_slice_from {A} (start : Z) (l : list A) : list A :=
  if start <? 0
  then drop (Z.to_nat (Z.max 0 (Z.of_nat (length l) + start))) l
  else drop (Z.to_nat start) l.

(** [int(x)] of a float: truncation toward zero. *)
Definition py_int_of_float (x : Q) : Z := Z.quot (Qnum x) (Zpos (Qden x)).

(** ** Python floats: IEEE 754 binary64

    A finite float is the rational it denotes. Every binary64 number is a
    multiple of [2^-1074], the smallest subnormal; rounding is done on
    numbers counted in that unit, where the spacing of the binary64 numbers
    around [n] units is [quantum n]: 1 up to [2^53] units (the subnormals
    and the first binade of the normal numbers), and doubling with every
    binade above. A result that rounds to [2^1024] or beyond overflows; the
    two infinities are held as [2^1024] and [- 2^1024], which are no
    binary64 numbers. *)

Module Float.

(** The integer nearest to [a / d], the even one of the two when [a / d] is
    halfway between them ([0 <= a], [0 < d]). *)
Definition rne_div (a d : Z) : Z :=
  let q := a / d in
  let r := a mod d in
  if 2 * r <? d then q
  else if d <? 2 * r then q + 1
  else if Z.even q then q else q + 1.

Definition quantum (n : Z) : Z := 2 ^ Z.max 0 (Z.log2 n - 52).

(** The binary64 number nearest to [a / d] units, in units. *)
Definition round_units (a d : Z) : Z :=
  let s := quantum (a / d) in rne_div a (d * s) * s.

Definition infinity_units : Z := 2 ^ 2098.

Definition unit_den : positive := 2 ^ 1074.

(** The binary64 number nearest to [x]. *)
Definition round (x : Q) : Q :=
  let m := Z.min (round_units (Z.abs (Qnum x) * Zpos unit_den) (Zpos (Qden x)))
                 infinity_units in
  (Z.sgn (Qnum x) * m) # unit_den.

(** [x - y] and [x * y] of two floats. *)
Definition sub (x y : Q) : Q := round (x - y).

Definition mul (x y : Q) : Q := round (x * y).

(** [x > z] of a float and an [int]: Python compares the two numbers
    exactly; an infinity is beyond every [int]. *)
Definition gt_int (x : Q) (z : Z) : bool :=
  if Qle_bool (inject_Z (2 ^ 1024)) x then true
  else if Qle_bool x (inject_Z (- 2 ^ 1024)) then false
  else negb (Qle_bool x (inject_Z z)).

End Float.

(** ** JSON text of a message list: [json.dump(..., ensure_ascii=False, indent=2)] *)

Module Json.

Local Open Scope char_scope.

Definition hex_digit (n : N) : ascii :=
  match n with
  | 0%N => "0" | 1%N => "1" | 2%N => "2" | 3%N => "3" | 4%N => "4"
  | 5%N => "5" | 6%N => "6" | 7%N => "7" | 8%N => "8" | 9%N => "9"
  | 10%N => "a" | 11%N => "b" | 12%N => "c" | 13%N => "d" | 14%N => "e"
  | _ => "f"
  end.

(** [ESCAPE_DCT] of [json.encoder] as used with [ensure_ascii=False]: the
    quote, the backslash and the control characters below 0x20 are escaped,
    everything else is written as it is. *)
Definition escape_char (c : ascii) : text :=
  if Ascii.eqb c "034" then ["\"; "034"]
  else if Ascii.eqb c "\" then ["\"; "\"]
  else if Ascii.eqb c "008" then ["\"; "b"]
  else if Ascii.eqb c "012" then ["\"; "f"]
  else if Ascii.eqb c "010" then ["\"; "n"]
  else if Ascii.eqb c "013" then ["\"; "r"]
  else if Ascii.eqb c "009" then ["\"; "t"]
  else if (N_of_ascii c <? 32)%N
       then ["\"; "u"; "0"; "0"; hex_digit (N_of_ascii c / 16); hex_digit (N_of_ascii c mod 16)]
       else [c].

Fixpoint escape (s : string) : text :=
  match s with
  | EmptyString => []
  | String c s' => escape_char c ++ escape s'
  end.

Definition dump_string (s : string) : text := "034" :: escape s ++ ["034"].

(** [int.__repr__]: decimal digits, a leading minus sign when negative. *)
Definition dump_int (z : Z) : text :=
  list_ascii_of_string (NilZero.string_of_int (Z.to_int z)).

(** A newline followed by the indentation of nesting level [n / 2]. *)
Definition newline_indent (n : nat) : text := "010" :: repeat " " n.

Definition dump_member (key : string) (value : text) : text :=
  dump_string key ++ [":"; " "] ++ value.

Definition dump_message (m : message) : text :=
  "{" :: newline_indent 4 ++ dump_member "id" (dump_int (msg_id m))
  ++ "," :: newline_indent 4 ++ dump_member "username" (dump_string (msg_username m))
  ++ "," :: newline_indent 4 ++ dump_member "content" (dump_string (msg_content m))
  ++ "," :: newline_indent 4 ++ dump_member "time" (dump_string (msg_time m))
  ++ "," :: newline_indent 4 ++ dump_member "type" (dump_string (msg_type m))
  ++ newline_indent 2 ++ ["}"].

Fixpoint dump_items (ms : list message) : text :=
  match ms with
  | [] => []
  | [m] => dump_message m
  | m :: ms' => dump_message m ++ "," :: newline_indent 2 ++ dump_items ms'
  end.

Definition dump (ms : list message) : text :=
  match ms with
  | [] => ["["; "]"]
  | _ => "[" :: newline_indent 2 ++ dump_items ms ++ newline_indent 0 ++ ["]"]
  end.

(** ** Reading the text back: [json.load]

    The reader follows the decoder of Python's [json] module (whitespace
    between tokens, string escapes, integers) on documents that are an array
    of message objects, in any layout and key order, and gives the list of
    messages. [None] stands for two cases that [well_formed] tells apart: a
    text that is not a JSON document, on which [json.load] raises; and a
    JSON document of another shape, which [json.load] returns as it is and
    which has no counterpart in the data model (neither has the order of the
    keys of a message object). The text is taken to be UTF-8, and Python's
    limit on the number of digits of an integer literal is not modelled. *)

Definition is_ws (c : ascii) : bool :=
  Ascii.eqb c " " || Ascii.eqb c "009" || Ascii.eqb c "010" || Ascii.eqb c "013".

Fixpoint skip_ws (s : text) : text :=
  match s with
  | c :: s' => if is_ws c then skip_ws s' else s
  | [] => []
  end.

Definition hex_value (c : ascii) : option N :=
  let n := N_of_ascii c in
  if (48 <=? n)%N && (n <=? 57)%N then Some (n - 48)%N
  else if (97 <=? n)%N && (n <=? 102)%N then Some (n - 87)%N
  else if (65 <=? n)%N && (n <=? 70)%N then Some (n - 55)%N
  else None.

Definition parse_hex4 (s : text) : option (N * text) :=
  match s with
  | a :: b :: c :: d :: r =>
      match hex_value a, hex_value b, hex_value c, hex_value d with
      | Some x, Some y, Some z, Some w => Some ((((x * 16 + y) * 16 + z) * 16 + w)%N, r)
      | _, _, _, _ => None
      end
  | _ => None
  end.

(** The UTF-8 bytes of a code point; a lone surrogate is not text. *)
Definition utf8_encode (cp : N) : option text :=
  if (cp <? 128)%N then Some [ascii_of_N cp]
  else if (cp <? 2048)%N then
    Some [ascii_of_N (192 + cp / 64); ascii_of_N (128 + cp mod 64)]
  else if (55296 <=? cp)%N && (cp <=? 57343)%N then None
  else if (cp <? 65536)%N then
    Some [ascii_of_N (224 + cp / 4096); ascii_of_N (128 + (cp / 64) mod 64);
          ascii_of_N (128 + cp mod 64)]
  else
    Some [ascii_of_N (240 + cp / 262144); ascii_of_N (128 + (cp / 4096) mod 64);
          ascii_of_N (128 + (cp / 64) mod 64); ascii_of_N (128 + cp mod 64)].

(** [BACKSLASH] of [json.decoder]. *)
Definition unescape (e : ascii) : option ascii :=
  if Ascii.eqb e "034" then Some "034"
  else if Ascii.eqb e "\" then Some "\"
  else if Ascii.eqb e "/" then Some "/"
  else if Ascii.eqb e "b" then Some "008"
  else if Ascii.eqb e "f" then Some "012"
  else if Ascii.eqb e "n" then Some "010"
  else if Ascii.eqb e "r" then Some "013"
  else if Ascii.eqb e "t" then Some "009"
  else None.

(** The code point of a [\uXXXX] escape whose four digits gave [hi]: a high
    surrogate takes the low surrogate escaped right after it. *)
Definition code_point (hi : N) (s : text) : option (N * text) :=
  if (55296 <=? hi)%N && (hi <=? 56319)%N then
    match s with
    | "\" :: "u" :: s' =>
        match parse_hex4 s' with
        | Some (lo, s'') =>
            if (56320 <=? lo)%N && (lo <=? 57343)%N
            then Some ((65536 + (hi - 55296) * 1024 + (lo - 56320))%N, s'')
            else None
        | None => None
        end
    | _ => None
    end
  else Some (hi, s).

Definition prepend (cs : text) (s : string) : string :=
  foldr String s cs.

(** [scanstring] (strict): the characters after the opening quote, up to and
    including the closing one. *)
Fixpoint parse_chars (fuel : nat) (s : text) : option (string * text) :=
  match fuel with
  | O => None
  | S fuel' =>
    match s with
    | [] => None
    | c :: r =>
      if Ascii.eqb c "034" then Some (EmptyString, r)
      else if Ascii.eqb c "\" then
        match r with
        | [] => None
        | e :: r' =>
          if Ascii.eqb e "u" then
            match parse_hex4 r' with
            | Some (hi, r'') =>
              match code_point hi r'' with
              | Some (cp, r3) =>
                match utf8_encode cp, parse_chars fuel' r3 with
                | Some bytes, Some (str, rest) => Some (prepend bytes str, rest)
                | _, _ => None
                end
              | None => None
              end
            | None => None
            end
          else
            match unescape e, parse_chars fuel' r' with
            | Some c', Some (str, rest) => Some (String c' str, rest)
            | _, _ => None
            end
        end
      else if (N_of_ascii c <? 32)%N then None
      else
        match parse_chars fuel' r with
        | Some (str, rest) => Some (String c str, rest)
        | None => None
        end
    end
  end.

Definition digit_of (c : ascii) : option (Decimal.uint -> Decimal.uint) :=
  match c with
  | "0" => Some Decimal.D0 | "1" => Some Decimal.D1 | "2" => Some Decimal.D2
  | "3" => Some Decimal.D3 | "4" => Some Decimal.D4 | "5" => Some Decimal.D5
  | "6" => Some Decimal.D6 | "7" => Some Decimal.D7 | "8" => Some Decimal.D8
  | "9" => Some Decimal.D9
  | _ => None
  end.

Fixpoint parse_digits (s : text) : Decimal.uint * text :=
  match s with
  | c :: r =>
      match digit_of c with
      | Some d => let '(u, r') := parse_digits r in (d u, r')
      | None => (Decimal.Nil, s)
      end
  | [] => (Decimal.Nil, [])
  end.

(** What may follow the digits of an integer: a fraction or an exponent
    would make the number a float. *)
Definition float_continues (s : text) : bool :=
  match s with
  | c :: _ => Ascii.eqb c "." || Ascii.eqb c "e" || Ascii.eqb c "E"
  | [] => false
  end.

(** An optional sign is handled by [parse_int]; the digits are a single
    zero, or start with a non-zero digit. *)
Definition parse_nat (s : text) : option (Decimal.uint * text) :=
  let '(u, r) := parse_digits s in
  if float_continues r then None
  else
    match u with
    | Decimal.Nil => None
    | Decimal.D0 Decimal.Nil => Some (u, r)
    | Decimal.D0 _ => None
    | _ => Some (u, r)
    end.

Definition parse_int (s : text) : option (Z * text) :=
  match s with
  | "-" :: s' =>
      match parse_nat s' with
      | Some (u, r) => Some (Z.of_int (Decimal.Neg u), r)
      | None => None
      end
  | _ =>
      match parse_nat s with
      | Some (u, r) => Some (Z.of_int (Decimal.Pos u), r)
      | None => None
      end
  end.

(** The values of a message's fields. *)
Inductive scalar := JInt (z : Z) | JStr (s : string).

Definition parse_scalar (s : text) : option (scalar * text) :=
  match s with
  | "034" :: r =>
      match parse_chars (length r) r with
      | Some (str, rest) => Some (JStr str, rest)
      | None => None
      end
  | _ =>
      match parse_int s with
      | Some (z, rest) => Some (JInt z, rest)
      | None => None
      end
  end.

(** The members of an object, from the first property name on. *)
Fixpoint parse_members (fuel : nat) (s : text) : option (list (string * scalar) * text) :=
  match fuel with
  | O => None
  | S fuel' =>
    match s with
    | "034" :: r =>
      match parse_chars (length r) r with
      | Some (key, r1) =>
        match skip_ws r1 with
        | ":" :: r2 =>
          match parse_scalar (skip_ws r2) with
          | Some (v, r3) =>
            match skip_ws r3 with
            | "}" :: r4 => Some ([(key, v)], r4)
            | "," :: r4 =>
              match parse_members fuel' (skip_ws r4) with
              | Some (ms, r5) => Some ((key, v) :: ms, r5)
              | None => None
              end
            | _ => None
            end
          | None => None
          end
        | _ => None
        end
      | None => None
      end
    | _ => None
    end
  end.

Definition parse_object (s : text) : option (list (string * scalar) * text) :=
  match s with
  | "{" :: r =>
      match skip_ws r with
      | "}" :: r' => Some ([], r')
      | r' => parse_members (length r') r'
      end
  | _ => None
  end.

(** The value of [key] in the dict built from the members: a later
    duplicate overrides an earlier one. *)
Definition member (key : string) (ms : list (string * scalar)) : option scalar :=
  match find (fun kv => String.eqb (fst kv) key) (rev ms) with
  | Some kv => Some (snd kv)
  | None => None
  end.

Definition message_keys : list string :=
  ["id"; "username"; "content"; "time"; "type"]%string.

(** The message a dict stands for, when it has the five fields of a message
    and nothing else. *)
Definition message_of_members (ms : list (string * scalar)) : option message :=
  if forallb (fun kv => existsb (String.eqb (fst kv)) message_keys) ms then
    match member "id" ms, member "username" ms, member "content" ms,
          member "time" ms, member "type" ms with
    | Some (JInt i), Some (JStr u), Some (JStr c), Some (JStr t), Some (JStr ty) =>
        Some (Message i u c t ty)
    | _, _, _, _, _ => None
    end
  else None.

(** The items of an array, from the first one on. *)
Fixpoint parse_items (fuel : nat) (s : text) : option (list message * text) :=
  match fuel with
  | O => None
  | S fuel' =>
    match parse_object s with
    | Some (ms, r) =>
      match message_of_members ms with
      | Some m =>
        match skip_ws r with
        | "]" :: r' => Some ([m], r')
        | "," :: r' =>
          match parse_items fuel' (skip_ws r') with
          | Some (l, r'') => Some (m :: l, r'')
          | None => None
          end
        | _ => None
        end
      | None => None
      end
    | None => None
    end
  end.

Definition at_end (s : text) : bool :=
  match skip_ws s with [] => true | _ => false end.

Definition load (t : text) : option (list message) :=
  match skip_ws t with
  | "[" :: r =>
      match skip_ws r with
      | "]" :: r' => if at_end r' then Some [] else None
      | r' =>
          match parse_items (length r') r' with
          | Some (l, r'') => if at_end r'' then Some l else None
          | None => None
          end
      end
  | _ => None
  end.

(** ** Whether a text is a JSON document

    [json.load] raises on a text that is not a JSON document, and returns
    the value of one that is, whatever its shape. [well_formed] follows the
    scanner of the decoder, with the constants [NaN], [Infinity] and
    [-Infinity] that it accepts, without building the value. *)

Definition is_digit (c : ascii) : bool :=
  match digit_of c with
  | Some _ => true
  | None => false
  end.

Fixpoint skip_digits (s : text) : text :=
  match s with
  | c :: r => if is_digit c then skip_digits r else s
  | [] => []
  end.

(** [scanstring] (strict) without the value: a [\uXXXX] escape needs four
    hexadecimal digits, whatever code unit they give. *)
Fixpoint skip_chars (fuel : nat) (s : text) : option text :=
  match fuel with
  | O => None
  | S fuel' =>
    match s with
    | [] => None
    | c :: r =>
      if Ascii.eqb c "034" then Some r
      else if Ascii.eqb c "\" then
        match r with
        | [] => None
        | e :: r' =>
          if Ascii.eqb e "u" then
            match parse_hex4 r' with
            | Some (_, r'') => skip_chars fuel' r''
            | None => None
            end
          else
            match unescape e with
            | Some _ => skip_chars fuel' r'
            | None => None
            end
        end
      else if (N_of_ascii c <? 32)%N then None
      else skip_chars fuel' r
    end
  end.

(** The integer part of a number: a single zero, or digits that start with
    a non-zero one. *)
Definition skip_integer (s : text) : option text :=
  match s with
  | c :: r =>
      if Ascii.eqb c "0" then Some r
      else if is_digit c then Some (skip_digits r)
      else None
  | [] => None
  end.

(** A fraction is a point followed by digits, an exponent is [e] or [E], an
    optional sign, and digits; without a digit neither is part of the
    number. *)
Definition skip_fraction (s : text) : text :=
  match s with
  | "." :: c :: r => if is_digit c then skip_digits r else s
  | _ => s
  end.

Definition skip_exponent (s : text) : text :=
  match s with
  | e :: r =>
      if Ascii.eqb e "e" || Ascii.eqb e "E" then
        match r with
        | c :: r' =>
            if is_digit c then skip_digits r'
            else if Ascii.eqb c "+" || Ascii.eqb c "-" then
              match r' with
              | c' :: r'' => if is_digit c' then skip_digits r'' else s
              | [] => s
              end
            else s
        | [] => s
        end
      else s
  | [] => s
  end.

Definition skip_number (s : text) : option text :=
  match skip_integer (match s with "-" :: r => r | _ => s end) with
  | Some r => Some (skip_exponent (skip_fraction r))
  | None => None
  end.

Fixpoint strip_prefix (p s : text) : option text :=
  match p, s with
  | [], _ => Some s
  | a :: p', b :: s' => if Ascii.eqb a b then strip_prefix p' s' else None
  | _ :: _, [] => None
  end.

(** The constants of the scanner. *)
Definition constants : list text :=
  List.map list_ascii_of_string
    ["null"; "true"; "false"; "NaN"; "Infinity"; "-Infinity"]%string.

Fixpoint skip_constant (cs : list text) (s : text) : option text :=
  match cs with
  | c :: cs' =>
      match strip_prefix c s with
      | Some r => Some r
      | None => skip_constant cs' s
      end
  | [] => None
  end.

(** The elements of an array, from the first one on, up to and including
    the closing bracket; [skip] reads one value. *)
Fixpoint skip_elements (skip : text -> option text) (fuel : nat) (s : text)
    : option text :=
  match fuel with
  | O => None
  | S fuel' =>
    match skip s with
    | Some r =>
      match skip_ws r with
      | "]" :: r' => Some r'
      | "," :: r' => skip_elements skip fuel' (skip_ws r')
      | _ => None
      end
    | None => None
    end
  end.

(** The members of an object, from the first property name on, up to and
    including the closing brace. *)
Fixpoint skip_members (skip : text -> option text) (fuel : nat) (s : text)
    : option text :=
  match fuel with
  | O => None
  | S fuel' =>
    match s with
    | "034" :: r =>
      match skip_chars (length r) r with
      | Some r1 =>
        match skip_ws r1 with
        | ":" :: r2 =>
          match skip (skip_ws r2) with
          | Some r3 =>
            match skip_ws r3 with
            | "}" :: r4 => Some r4
            | "," :: r4 => skip_members skip fuel' (skip_ws r4)
            | _ => None
            end
          | None => None
          end
        | _ => None
        end
      | None => None
      end
    | _ => None
    end
  end.

(** One value: a string, an object, an array, a constant or a number. The
    fuel bounds the depth of nesting. *)
Fixpoint skip_value (fuel : nat) (s : text) : option text :=
  match fuel with
  | O => None
  | S fuel' =>
    match s with
    | [] => None
    | c :: r =>
      if Ascii.eqb c "034" then skip_chars (length r) r
      else if Ascii.eqb c "{" then
        match skip_ws r with
        | "}" :: r' => Some r'
        | r' => skip_members (skip_value fuel') (length r') r'
        end
      else if Ascii.eqb c "[" then
        match skip_ws r with
        | "]" :: r' => Some r'
        | r' => skip_elements (skip_value fuel') (length r') r'
        end
      else
        match skip_constant constants s with
        | Some r' => Some r'
        | None => skip_number s
        end
    end
  end.

(** The text is one JSON value between optional whitespace. *)
Definition well_formed (t : text) : bool :=
  match skip_value (S (length t)) (skip_ws t) with
  | Some r => at_end r
  | None => false
  end.

(** ** Notions used to relate [dump] and [load] *)

(** The digits of a positive number do not start with a zero. *)
Definition canonical (u : Decimal.uint) : Prop :=
  match u with
  | Decimal.Nil => False
  | Decimal.D0 Decimal.Nil => True
  | Decimal.D0 _ => False
  | _ => True
  end.

(** The text of a field value. *)
Definition dump_scalar (v : scalar) : text :=
  match v with
  | JInt z => dump_int z
  | JStr s => dump_string s
  end.

(** In the text of a message a value is followed by a comma or by a
    newline. *)
Definition separator (c : ascii) : Prop := c = "," \/ c = "010".

(** The text of the members of an object at nesting level 2, up to and
    including the closing brace. *)
Fixpoint dump_members (ms : list (string * scalar)) : text :=
  match ms with
  | [] => []
  | [(k, v)] => dump_member k (dump_scalar v) ++ newline_indent 2 ++ ["}"]
  | (k, v) :: ms' =>
      dump_member k (dump_scalar v) ++ "," :: newline_indent 4 ++ dump_members ms'
  end.

(** The members of the dict of a message, in the order of insertion. *)
Definition members_of (m : message) : list (string * scalar) :=
  [("id"%string, JInt (msg_id m)); ("username"%string, JStr (msg_username m));
   ("content"%string, JStr (msg_content m)); ("time"%string, JStr (msg_time m));
   ("type"%string, JStr (msg_type m))].

End Json.

(** ** The plugin's state and its environment *)

(** A [logger] call: its level and the f-string of the call site, as written
    in the source (the interpolated values are not modelled). *)
Inductive log_entry :=
| LogInfo (template : string)
| LogError (template : string).

(** The attributes of a plugin instance, together with the two parts of the
    world it acts on: the file system (path to content; an absent path is a
    file that does not exist) and the log. [_chat_data_path],
    [_max_messages] and [_online_timeout] are set by [init_plugin] from the
    host's configuration. *)
Record state := State {
  _chat_data_path : string;
  _messages : list message;
  _online_users : gmap string Q;
  _max_messages : Z;
  _online_timeout : Z;
  files : gmap string text;
  log : list log_entry
}.

Definition set_messages (ms : list message) (st : state) : state :=
  State (_chat_data_path st) ms (_online_users st) (_max_messages st)
        (_online_timeout st) (files st) (log st).

Definition set_online_users (us : gmap string Q) (st : state) : state :=
  State (_chat_data_path st) (_messages st) us (_max_messages st)
        (_online_timeout st) (files st) (log st).

Definition set_files (fs : gmap string text) (st : state) : state :=
  State (_chat_data_path st) (_messages st) (_online_users st) (_max_messages st)
        (_online_timeout st) fs (log st).

Definition logger (entry : log_entry) (st : state) : state :=
  State (_chat_data_path st) (_messages st) (_online_users st) (_max_messages st)
        (_online_timeout st) (files st) (log st ++ [entry]).

(** What [with open(path, 'w') as f: json.dump(...)] does to the file: the
    text is written; or [open] or [json.dump] raises; or the body of the
    [with] statement is completed and closing the file, which flushes what
    was buffered, raises. After a failure the file is left as [remains]
    (untouched, truncated, partly written, or still absent). *)
Inductive write_outcome :=
| Written
| WriteFailed (remains : option text)
| CloseFailed (remains : option text).

(** What the environment answers during one API call: the first and the
    second reading of [time.time()], the string
    [datetime.now().strftime("%Y-%m-%d %H:%M:%S")], and the outcome of
    writing the backing file. *)
Record env := Env {
  time_first : Q;
  time_second : Q;
  strftime : string;
  write : write_outcome
}.

(** The data of a response envelope. *)
Inductive payload :=
| Messages (ms : list message)
| Created (m : message)
| Usernames (us : list string).

(** The response envelope [{"code": ..., "message": ..., "data": ...}];
    [data = None] when the key is absent. *)
Record response := Response {
  code : Z;
  message_text : string;
  data : option payload
}.

(** The API operations with their request fields; a field that the request
    leaves out is [None]. *)
Inductive request :=
| ListMessages
| PostMessage (username content type : option string)
| ListOnlineUsers
| Heartbeat (username : option string)
| ClearMessages.

(** The string of a present argument. *)
Definition str_of (s : option string) : string := default EmptyString s.

(** [now - last_active > timeout]: the difference of the two floats is a
    float, which is compared with the [int]. *)
Definition expired (now last_active : Q) (timeout : Z) : bool :=
  Float.gt_int (Float.sub now last_active) timeout.

(** The file at [path] after a write with the given outcome. *)
Definition write_file (path : string) (t : text) (w : write_outcome)
    (fs : gmap string text) : gmap string text :=
  match w with
  | Written => <[path := t]> fs
  | WriteFailed (Some t') | CloseFailed (Some t') => <[path := t']> fs
  | WriteFailed None | CloseFailed None => delete path fs
  end.

(** ** Host configuration and start-up *)

(** A value of the configuration dict that the host passes to [init_plugin],
    by what the two builtins applied to it answer: [bool(v)] and [int(v)]
    ([None] when [int] raises). *)
Record config_value := ConfigValue {
  truth : bool;
  int_value : option Z
}.

(** A Python [int]: falsy when zero, and its own [int]. *)
Definition of_int (z : Z) : config_value :=
  ConfigValue (negb (z =? 0)) (Some z).

(** The decimal text of an integer, as a text field of the form delivers
    it: a non-empty [str]. [int] converts it unless it has more digits than
    the limit of the interpreter, [sys.get_int_max_str_digits()]: 4300 by
    default, 0 when there is no limit (as before Python 3.11). *)
Definition of_decimal_text (max_str_digits : Z) (z : Z) : config_value :=
  ConfigValue true
    (if (max_str_digits <=? 0) || (Z.abs z <? 10 ^ max_str_digits)
     then Some z else None).

(** [None]: falsy; [int(None)] raises. *)
Definition py_none : config_value := ConfigValue false None.

(** [if config:] for the optional dict: [None] and the empty dict are
    falsy. *)
Definition config_truthy (config : option (gmap string config_value)) : bool :=
  match config with
  | Some d => negb (size d =? 0)%nat
  | None => false
  end.

(** [config.get(key)] on a dict: [None] when the key is missing. *)
Definition config_get (key : string) (d : gmap string config_value) : config_value :=
  default py_none (d !! key).

(** What the host provides at start-up: [settings.CONFIG_PATH], and whether
    [os.makedirs(..., exist_ok=True)] of the data directory succeeds. *)
Record host := Host {
  CONFIG_PATH : string;
  makedirs : bool
}.

(** How a call ends: it returns, or an exception leaves it; the state is the
    one reached. *)
Inductive outcome :=
| Returned (st : state)
| Raised (st : state).

Definition state_of (o : outcome) : state :=
  match o with
  | Returned st => st
  | Raised st => st
  end.

Definition set_chat_data_path (path : string) (st : state) : state :=
  State path (_messages st) (_online_users st) (_max_messages st)
        (_online_timeout st) (files st) (log st).

Definition set_max_messages (max : Z) (st : state) : state :=
  State (_chat_data_path st) (_messages st) (_online_users st) max
        (_online_timeout st) (files st) (log st).

Definition set_online_timeout (timeout : Z) (st : state) : state :=
  State (_chat_data_path st) (_messages st) (_online_users st) (_max_messages st)
        timeout (files st) (log st).

Definition starts_with_sep (s : string) : bool :=
  match s with
  | String c _ => Ascii.eqb c "/"
  | EmptyString => false
  end.

Fixpoint ends_with_sep (s : string) : bool :=
  match s with
  | EmptyString => false
  | String c EmptyString => Ascii.eqb c "/"
  | String _ s' => ends_with_sep s'
  end.

(** [os.path.join(a, b)] of [posixpath]. *)
Definition os_path_join (a b : string) : string :=
  if starts_with_sep b then b
  else if (match a with EmptyString => true | _ => false end) || ends_with_sep a
       then a +:+ b
       else a +:+ "/" +:+ b.

(** The elements of the configuration form: a dict with a ['component'] and,
    when present, ['props'] and ['content']. *)
Inductive prop_value :=
| PropInt (z : Z)
| PropStr (s : string).

#[local] Unset Elimination Schemes.
Inductive element :=
| Element (component : string) (props : option (list (string * prop_value)))
          (content : option (list element)).
#[local] Set Elimination Schemes.

(** The form that [get_form] returns, the same literal in both classes. *)
Definition config_form : list element :=
  [Element "VForm" None (Some
    [Element "VRow" None (Some
      [Element "VCol" (Some [("cols", PropInt 12); ("md", PropInt 6)]) (Some
         [Element "VTextField"
            (Some [("model", PropStr "max_messages");
                   ("label", PropStr "最大消息数量");
                   ("placeholder", PropStr "保留的最大聊天消息数量，默认100")])
            None]);
       Element "VCol" (Some [("cols", PropInt 12); ("md", PropInt 6)]) (Some
         [Element "VTextField"
            (Some [("model", PropStr "online_timeout");
                   ("label", PropStr "在线超时时间(秒)");
                   ("placeholder", PropStr "用户在线状态超时时间，默认300秒")])
            None])])])]%string.

(** The config keys that the fields of a form are bound to: the values of
    their ['model'] props. *)
Fixpoint models (e : element) : list string :=
  match e with
  | Element _ props content =>
      match props with
      | Some ps =>
          flat_map (fun kv => match kv with
                              | ("model"%string, PropStr key) => [key]
                              | _ => []
                              end) ps
      | None => []
      end
      ++ match content with
         | Some es => flat_map models es
         | None => []
         end
  end.

(** ** Class [ChatCenter] ([plugins.v2/chat_center/__init__.py]) *)

Module ChatCenter.

(** The file name that [init_plugin] joins to the host's configuration
    directory to make [_chat_data_path]. *)
Definition data_file_name : string := "chat_center_data.json".

(** [json.load] raises on a text that is not a JSON document; the handler
    logs the error and starts from the empty list. [Json.load] is [None]
    also on a JSON document that is not a list of messages, which the code
    binds to [_messages] as it is: a state that the model does not have.
    The properties of loading are stated for texts that are a list of
    messages or no JSON document; [Json.well_formed] tells. *)
Definition _load_messages (st : state) : state :=
  match files st !! _chat_data_path st with
  | Some t =>
      match Json.load t with
      | Some ms => set_messages ms st
      | None => set_messages [] (logger (LogError "加载聊天记录失败: {str(e)}") st)
      end
  | None => set_messages [] st
  end.

Definition _save_messages (w : write_outcome) (st : state) : state :=
  let st' := set_files (write_file (_chat_data_path st) (Json.dump (_messages st)) w (files st)) st in
  match w with
  | Written => st'
  | WriteFailed _ | CloseFailed _ => logger (LogError "保存聊天记录失败: {str(e)}") st'
  end.

Definition _update_user_online (now : Q) (username : option string) (st : state) : state :=
  if py_not username then st
  else set_online_users (<[str_of username := now]> (_online_users st)) st.

(** The first loop collects the expired usernames, the second pops them. *)
Definition _clean_offline_users (now : Q) (st : state) : state :=
  let offline_users :=
    List.map fst
      (List.filter (fun kv => expired now (snd kv) (_online_timeout st))
                   (map_to_list (_online_users st))) in
  set_online_users
    (foldl (fun users username => delete username users) (_online_users st) offline_users)
    st.

Definition get_messages (st : state) : state * response :=
  (st, Response 0 "操作成功" (Some (Messages (_messages st)))).

Definition send_message (e : env) (username content type : option string)
    (st : state) : state * response :=
  if py_not username || py_not content then
    (st, Response 1 "用户名和消息内容不能为空！" None)
  else
    let st1 := _update_user_online (time_first e) username st in
    let current_time := strftime e in
    let new_message :=
      Message (py_int_of_float (Float.mul (time_second e) 1000)) (str_of username)
              (str_of content) current_time (default "text"%string type) in
    let st2 := set_messages (_messages st1 ++ [new_message]) st1 in
    let st3 :=
      if Z.of_nat (length (_messages st2)) >? _max_messages st2
      then set_messages (py_slice_from (- _max_messages st2) (_messages st2)) st2
      else st2 in
    let st4 := _save_messages (write e) st3 in
    (st4, Response 0 "发送成功" (Some (Created new_message))).

Definition get_online_users (e : env) (st : state) : state * response :=
  let st1 := _clean_offline_users (time_first e) st in
  let online_users := List.map fst (map_to_list (_online_users st1)) in
  (st1, Response 0 "操作成功" (Some (Usernames online_users))).

Definition user_heartbeat (e : env) (username : option string) (st : state)
    : state * response :=
  if py_not username then
    (st, Response 1 "用户名不能为空！" None)
  else
    let st1 := _update_user_online (time_first e) username st in
    (st1, Response 0 "操作成功" None).

Definition clear_messages (e : env) (st : state) : state * response :=
  let st1 := set_messages [] st in
  let st2 := _save_messages (write e) st1 in
  (st2, Response 0 "清空成功" None).

(** The endpoints registered by [get_api]. *)
Definition handle (e : env) (r : request) (st : state) : state * response :=
  match r with
  | ListMessages => get_messages st
  | PostMessage username content type => send_message e username content type st
  | ListOnlineUsers => get_online_users e st
  | Heartbeat username => user_heartbeat e username st
  | ClearMessages => clear_messages e st
  end.

(** [os.makedirs] raising leaves [init_plugin] with the exception: nothing
    in the method catches it. *)
Definition init_plugin (h : host) (config : option (gmap string config_value))
    (st : state) : outcome :=
  let st1 := set_chat_data_path (os_path_join (CONFIG_PATH h) data_file_name) st in
  if makedirs h then
    let st2 :=
      match config with
      | Some d =>
          if config_truthy config then
            let st_max :=
              if truth (config_get "max_messages" d) then
                match int_value (config_get "max_messages" d) with
                | Some z => set_max_messages z st1
                | None => logger (LogError "加载配置失败: {str(e)}") st1
                end
              else st1 in
            if truth (config_get "online_timeout" d) then
              match int_value (config_get "online_timeout" d) with
              | Some z => set_online_timeout z st_max
              | None => logger (LogError "加载配置失败: {str(e)}") st_max
              end
            else st_max
          else st1
      | None => st1
      end in
    let st3 := _load_messages st2 in
    Returned (logger (LogInfo "聊天中心插件初始化完成") st3)
  else Raised st1.

(** The form and the data it is filled with: the two bounds as they are. *)
Definition get_form (st : state) : list element * gmap string config_value :=
  (config_form,
   {[ "max_messages"%string := of_int (_max_messages st);
      "online_timeout"%string := of_int (_online_timeout st) ]}).

End ChatCenter.

(** ** Class [ChatroomEnhanced] ([plugins.v2/chatroom_enhanced/__init__.py]) *)

Module ChatroomEnhanced.

Definition data_file_name : string := "chatroom_enhanced_data.json".

(** The outer [try] of the source guards statements that raise nothing in
    this model; its handler is not reached. The success is logged with
    [len(self._messages)] inside the inner [try]: on a JSON document
    without a length ([null], a number, [true] or [false]) this raises and
    the handler resets the list, which is what [None] of [Json.load] gives
    here; on a string, an object or a list of other values the code keeps
    the value, a state that the model does not have. *)
Definition _load_messages (st : state) : state :=
  match files st !! _chat_data_path st with
  | Some t =>
      match Json.load t with
      | Some ms =>
          logger (LogInfo "ChatroomEnhanced 成功加载聊天记录，共 {len(self._messages)} 条消息")
                 (set_messages ms st)
      | None =>
          set_messages []
            (logger (LogError "{traceback.format_exc()}")
               (logger (LogError "ChatroomEnhanced 加载聊天记录失败: {str(e)}") st))
      end
  | None =>
      set_messages []
        (logger (LogInfo "ChatroomEnhanced 聊天记录文件不存在，初始化空列表") st)
  end.

(** The success is logged inside the [with] statement, after [json.dump]
    and before the file is closed: a failure of the close comes after it. *)
Definition _save_messages (w : write_outcome) (st : state) : state :=
  let st' := set_files (write_file (_chat_data_path st) (Json.dump (_messages st)) w (files st)) st in
  let saved := LogInfo "ChatroomEnhanced 保存聊天记录成功，共 {len(self._messages)} 条消息" in
  let failed st :=
    logger (LogError "{traceback.format_exc()}")
      (logger (LogError "ChatroomEnhanced 保存聊天记录失败: {str(e)}") st) in
  match w with
  | Written => logger saved st'
  | WriteFailed _ => failed st'
  | CloseFailed _ => failed (logger saved st')
  end.

Definition _update_user_online (now : Q) (username : option string) (st : state) : state :=
  if py_not username then st
  else set_online_users (<[str_of username := now]> (_online_users st)) st.

Definition _clean_offline_users (now : Q) (st : state) : state :=
  let offline_users :=
    List.map fst
      (List.filter (fun kv => expired now (snd kv) (_online_timeout st))
                   (map_to_list (_online_users st))) in
  set_online_users
    (foldl (fun users username => delete username users) (_online_users st) offline_users)
    st.

Definition get_messages (st : state) : state * response :=
  (st, Response 0 "操作成功" (Some (Messages (_messages st)))).

Definition send_message (e : env) (username content type : option string)
    (st : state) : state * response :=
  if py_not username || py_not content then
    (st, Response 1 "用户名和消息内容不能为空！" None)
  else
    let st1 := _update_user_online (time_first e) username st in
    let current_time := strftime e in
    let new_message :=
      Message (py_int_of_float (Float.mul (time_second e) 1000)) (str_of username)
              (str_of content) current_time (default "text"%string type) in
    let st2 := set_messages (_messages st1 ++ [new_message]) st1 in
    let st3 :=
      if Z.of_nat (length (_messages st2)) >? _max_messages st2
      then set_messages (py_slice_from (- _max_messages st2) (_messages st2)) st2
      else st2 in
    let st4 := _save_messages (write e) st3 in
    (st4, Response 0 "发送成功" (Some (Created new_message))).

Definition get_online_users (e : env) (st : state) : state * response :=
  let st1 := _clean_offline_users (time_first e) st in
  let online_users := List.map fst (map_to_list (_online_users st1)) in
  (st1, Response 0 "操作成功" (Some (Usernames online_users))).

Definition user_heartbeat (e : env) (username : option string) (st : state)
    : state * response :=
  if py_not username then
    (st, Response 1 "用户名不能为空！" None)
  else
    let st1 := _update_user_online (time_first e) username st in
    (st1, Response 0 "操作成功" None).

Definition clear_messages (e : env) (st : state) : state * response :=
  let st1 := set_messages [] st in
  let st2 := _save_messages (write e) st1 in
  (st2, Response 0 "清空成功" None).

Definition handle (e : env) (r : request) (st : state) : state * response :=
  match r with
  | ListMessages => get_messages st
  | PostMessage username content type => send_message e username content type st
  | ListOnlineUsers => get_online_users e st
  | Heartbeat username => user_heartbeat e username st
  | ClearMessages => clear_messages e st
  end.

(** The whole body is inside a [try]: an exception of [os.makedirs] is
    logged, and the configuration and the messages are then not read. *)
Definition init_plugin (h : host) (config : option (gmap string config_value))
    (st : state) : outcome :=
  let st0 := logger (LogInfo "ChatroomEnhanced 插件开始初始化，配置: {config}") st in
  let st1 := set_chat_data_path (os_path_join (CONFIG_PATH h) data_file_name) st0 in
  let st1 := logger (LogInfo "ChatroomEnhanced 数据路径: {self._chat_data_path}") st1 in
  if makedirs h then
    let st2 :=
      match config with
      | Some d =>
          if config_truthy config then
            let st_cfg := logger (LogInfo "ChatroomEnhanced 配置项: {config}") st1 in
            let st_max :=
              if truth (config_get "max_messages" d) then
                match int_value (config_get "max_messages" d) with
                | Some z =>
                    logger (LogInfo "ChatroomEnhanced 最大消息数量设置为: {self._max_messages}")
                           (set_max_messages z st_cfg)
                | None =>
                    logger (LogError "ChatroomEnhanced 加载max_messages配置失败: {str(e)}")
                           st_cfg
                end
              else st_cfg in
            if truth (config_get "online_timeout" d) then
              match int_value (config_get "online_timeout" d) with
              | Some z =>
                  logger (LogInfo "ChatroomEnhanced 在线超时时间设置为: {self._online_timeout}")
                         (set_online_timeout z st_max)
              | None =>
                  logger (LogError "ChatroomEnhanced 加载online_timeout配置失败: {str(e)}")
                         st_max
              end
            else st_max
          else st1
      | None => st1
      end in
    let st3 := _load_messages st2 in
    Returned
      (logger (LogInfo "ChatroomEnhanced 插件初始化完成，已加载 {len(self._messages)} 条消息")
              st3)
  else
    Returned
      (logger (LogError "{traceback.format_exc()}")
         (logger (LogError "ChatroomEnhanced 插件初始化失败: {str(e)}") st1)).

Definition get_form (st : state)
    : state * (list element * gmap string config_value) :=
  (logger (LogInfo "ChatroomEnhanced 获取配置表单") st,
   (config_form,
    {[ "max_messages"%string := of_int (_max_messages st);
       "online_timeout"%string := of_int (_online_timeout st) ]})).

End ChatroomEnhanced.

(** ** Sample inputs *)

Definition example_env : env :=
  Env 1700000000 1700000000 "2024-01-01 00:00:00" Written.

Definition example_state : state :=
  State "/config/chat_center_data.json" [] ∅ 100 300 ∅ [].

(** A state whose backing file holds the one message of the list, and an
    environment in which opening the file for writing fails and leaves it as
    it is. *)
Definition example_message : message :=
  Message 1700000000000 "alice" "hi" "2024-01-01 00:00:00" "text".

Definition stale_state : state :=
  State "/config/chat_center_data.json" [example_message] ∅ 100 300
        {["/config/chat_center_data.json"%string := Json.dump [example_message]]} [].

Definition failing_env : env :=
  Env 1700000000 1700000000 "2024-01-01 00:00:00"
      (WriteFailed (Some (Json.dump [example_message]))).

(** A state whose list holds one message that no file holds yet. *)
Definition unsaved_state : state :=
  State "/config/chat_center_data.json" [example_message] ∅ 100 300 ∅ [].


(** An instance of [ChatroomEnhanced] that holds the same chat as
    [stale_state], with the same text in its backing file. *)
Definition enhanced_saved_state : state :=
  State "/config/chatroom_enhanced_data.json" [example_message] ∅ 100 300
        {["/config/chatroom_enhanced_data.json"%string := Json.dump [example_message]]} [].

(** An environment whose clock reads [t] during the call. *)
Definition env_at (t : Q) : env := Env t t "2024-01-01 00:00:00" Written.

(** A config that sets [online_timeout] to -1. *)
Definition negative_timeout_config : gmap string config_value :=
  {[ "online_timeout"%string := of_int (-1) ]}.

(** An environment in which the file cannot be closed after the write, and
    is left empty. *)
Definition full_disk_env : env :=
  Env 1700000000 1700000000 "2024-01-01 00:00:00" (CloseFailed (Some [])).

(** ** Notions used to state the properties *)

(** A text that the data model accounts for: it reads as a list of
    messages, or it is no JSON document. *)
Definition list_or_malformed (t : text) : Prop :=
  is_Some (Json.load t) \/ Json.well_formed t = false.

(** The dict that [send_message] builds for an accepted request. *)
Definition new_message (e : env) (username content : string) (type : option string)
    : message :=
  Message (py_int_of_float (Float.mul (time_second e) 1000)) username content (strftime e)
          (default "text"%string type).

(** The bound applied after the append:
    [if len(l) > max: l = l[-max:]]. *)
Definition truncated (max : Z) (l : list message) : list message :=
  if Z.of_nat (length l) >? max then py_slice_from (- max) l else l.

(** The last [n] elements of a list, in their order. *)
Definition lastn {A} (n : nat) (l : list A) : list A := drop (length l - n) l.

(** The two tags the specification names for the [type] field. *)
Definition valid_type (s : string) : Prop :=
  s = "text"%string \/ s = "system"%string.

(** The usernames in the data of a response. *)
Definition usernames_of (r : response) : list string :=
  match data r with
  | Some (Usernames us) => us
  | _ => []
  end.

(** A call of [send_message]: what the environment answers during the
    call, and the request fields. *)
Record call := Call {
  call_env : env;
  call_username : option string;
  call_content : option string;
  call_type : option string
}.

(** [send_message] called for each element of [calls] in turn: the state and
    the response after each call. *)
Fixpoint run (calls : list call) (st : state) : list (state * response) :=
  match calls with
  | [] => []
  | c :: calls' =>
      let sr := ChatCenter.send_message (call_env c) (call_username c)
                                        (call_content c) (call_type c) st in
      sr :: run calls' (fst sr)
  end.

(** The state after the last call of a trace that started in [st]. *)
Definition final (st : state) (trace : list (state * response)) : state :=
  match last trace with
  | Some sr => fst sr
  | None => st
  end.

(** The messages the calls of a trace answered with, in the order of the
    calls. *)
Definition created (trace : list (state * response)) : list message :=
  omap (fun sr => match data (snd sr) with
                  | Some (Created m) => Some m
                  | _ => None
                  end) trace.

(** Every call of the trace answered code 0. *)
Definition successful (trace : list (state * response)) : Prop :=
  Forall (fun sr => code (snd sr) = 0) trace.

(** Three accepted calls with contents "a", "b" and "c". *)
Definition abc_calls : list call :=
  [Call example_env (Some "alice"%string) (Some "a"%string) None;
   Call example_env (Some "alice"%string) (Some "b"%string) None;
   Call example_env (Some "alice"%string) (Some "c"%string) None].

Definition state_with_max (max : Z) : state :=
  State "/config/chat_center_data.json" [] ∅ max 300 ∅ [].

(** Two instances, one of each class, hold the same chat: message list,
    presence map and configured bounds agree. The path of the backing file,
    the files and the log are left out. *)
Definition same_chat (st1 st2 : state) : Prop :=
  _messages st1 = _messages st2 /\
  _online_users st1 = _online_users st2 /\
  _max_messages st1 = _max_messages st2 /\
  _online_timeout st1 = _online_timeout st2.

Definition backing_file (st : state) : option text :=
  files st !! _chat_data_path st.

(** A string between quotes. *)
Definition quoted (s : string) : string :=
  String "034"%char (s +:+ String "034"%char EmptyString).

(** An instance of [ChatroomEnhanced] that holds the same chat as
    [example_state]. *)
Definition enhanced_state : state :=
  State "/config/chatroom_enhanced_data.json" [] ∅ 100 300 ∅ [].

(** The requests that reach [_save_messages]: an accepted [PostMessage]
    and [ClearMessages]. *)
Definition saves (r : request) : bool :=
  match r with
  | PostMessage username content _ => negb (py_not username || py_not content)
  | ClearMessages => true
  | _ => false
  end.

(** The bound that [init_plugin] leaves for a key of the config, given the
    bound before. *)
Definition configured (key : string) (config : option (gmap string config_value))
    (old : Z) : Z :=
  match config with
  | Some d =>
      if config_truthy config && truth (config_get key d)
      then default old (int_value (config_get key d))
      else old
  | None => old
  end.

(** A host whose data directory can be created, and one where it cannot. *)
Definition example_host : host := Host "/config" true.

Definition read_only_host : host := Host "/config" false.

(** A state in which "alice" was last active at the time of [example_env],
    and an environment whose clock is an hour later. *)
Definition online_state : state :=
  State "/config/chat_center_data.json" [] {["alice"%string := 1700000000%Q]}
        100 300 ∅ [].

Definition later_env : env :=
  Env 1700003600 1700003600 "2024-01-01 01:00:00" Written.

(** A state whose list has reached its bound of two messages. *)
Definition full_state : state :=
  State "/config/chat_center_data.json"
        [Message 1 "alice" "a" "2024-01-01 00:00:00" "text";
         Message 2 "alice" "b" "2024-01-01 00:00:01" "text"]
        ∅ 2 300 ∅ [].



Definition garbage_state : state :=
  State "/config/chat_center_data.json" [] ∅ 100 300
        {["/config/chat_center_data.json"%string
          := Json.dump [example_message] ++ ["x"%char]]} [].

(** A config whose [max_messages] is a text that [int] rejects and whose
    [online_timeout] is the text of 60. *)
Definition bad_config : gmap string config_value :=
  {[ "max_messages"%string := ConfigValue true None;
     "online_timeout"%string := of_decimal_text 4300 60 ]}.

(** * Properties *)

(** ** Rounding of floats *)

Module FloatFacts.
Import Float.

Lemma rne_div_cases (a d : Z) :
  0 < d ->
  exists q r, a = d * q + r /\ 0 <= r < d /\
    ((rne_div a d = q /\ (2 * r < d \/ (2 * r = d /\ Z.even q = true))) \/
     (rne_div a d = q + 1 /\ (d < 2 * r \/ (2 * r = d /\ Z.even q = false)))).
Proof.
  intros Hd. exists (a / d), (a mod d).
  split; [apply Z.div_mod; lia|].
  split; [apply Z.mod_pos_bound; lia|].
  unfold rne_div.
  destruct (Z.ltb_spec (2 * (a mod d)) d); [left; auto|].
  destruct (Z.ltb_spec d (2 * (a mod d))); [right; auto|].
  destruct (Z.even (a / d)) eqn:E; [left|right]; split; auto; right; split; auto; lia.
Qed.

Lemma rne_div_ge (n a d : Z) : 0 < d -> n * d <= a -> n <= rne_div a d.
Proof.
  intros Hd Hn. destruct (rne_div_cases a d Hd) as (q & r & Ha & Hr & H).
  assert (n <= q) by nia.
  destruct H as [[-> _]|[-> _]]; lia.
Qed.

Lemma rne_div_le (n a d : Z) : 0 < d -> a <= n * d -> rne_div a d <= n.
Proof.
  intros Hd Hn. destruct (rne_div_cases a d Hd) as (q & r & Ha & Hr & H).
  assert (q <= n) by nia.
  destruct H as [[-> _]|[-> H]]; [lia|].
  assert (q <> n) by nia. lia.
Qed.

Lemma rne_div_exact (n d : Z) : 0 < d -> rne_div (n * d) d = n.
Proof.
  intros Hd. apply Z.le_antisymm; [apply rne_div_le | apply rne_div_ge]; lia.
Qed.

(** Rounding to the nearest integer is monotone. *)
Lemma rne_div_mono (a1 d1 a2 d2 : Z) :
  0 < d1 -> 0 < d2 -> a1 * d2 <= a2 * d1 -> rne_div a1 d1 <= rne_div a2 d2.
Proof.
  intros Hd1 Hd2 Hle.
  destruct (rne_div_cases a1 d1 Hd1) as (q1 & r1 & Ha1 & Hr1 & H1).
  destruct (rne_div_cases a2 d2 Hd2) as (q2 & r2 & Ha2 & Hr2 & H2).
  assert (Hq : q1 <= q2).
  { assert (q1 * (d1 * d2) < (q2 + 1) * (d1 * d2)) by nia. nia. }
  destruct (Z.eq_dec q1 q2) as [->|Hne].
  - assert (Hr : r1 * d2 <= r2 * d1) by nia.
    destruct H1 as [[-> _]|[-> H1]]; destruct H2 as [[-> H2]|[-> _]]; try lia.
    exfalso. destruct H1 as [H1|[H1 E1]]; destruct H2 as [H2|[H2 E2]];
      try nia; try congruence.
  - destruct H1 as [[-> _]|[-> _]]; destruct H2 as [[-> _]|[-> _]]; lia.
Qed.

Lemma quantum_pos (n : Z) : 0 < quantum n.
Proof. unfold quantum. apply Z.pow_pos_nonneg; lia. Qed.

Lemma div_le_cross (a1 d1 a2 d2 : Z) :
  0 < d1 -> 0 < d2 -> a1 * d2 <= a2 * d1 -> a1 / d1 <= a2 / d2.
Proof.
  intros Hd1 Hd2 Hle.
  pose proof (Z.div_mod a1 d1 ltac:(lia)). pose proof (Z.mod_pos_bound a1 d1 Hd1).
  pose proof (Z.div_mod a2 d2 ltac:(lia)). pose proof (Z.mod_pos_bound a2 d2 Hd2).
  assert ((a1 / d1) * (d1 * d2) < (a2 / d2 + 1) * (d1 * d2)) by nia. nia.
Qed.

(** Rounding to binary64 is monotone: within a binade because rounding to
    the nearest multiple of the quantum is, across binades because a
    rounded number stays within the closure of its binade. *)
Lemma round_units_mono (a1 d1 a2 d2 : Z) :
  0 <= a1 -> 0 < d1 -> 0 < d2 -> a1 * d2 <= a2 * d1 ->
  round_units a1 d1 <= round_units a2 d2.
Proof.
  intros Ha1 Hd1 Hd2 Hle. unfold round_units.
  pose proof (div_le_cross a1 d1 a2 d2 Hd1 Hd2 Hle) as Hn.
  assert (Hn1 : 0 <= a1 / d1) by (apply Z.div_pos; lia).
  set (n1 := a1 / d1) in *. set (n2 := a2 / d2) in *.
  unfold quantum.
  set (s1 := Z.max 0 (Z.log2 n1 - 52)). set (s2 := Z.max 0 (Z.log2 n2 - 52)).
  assert (Hs : s1 <= s2).
  { pose proof (Z.log2_le_mono n1 n2 Hn). lia. }
  assert (Hs1 : 0 <= s1) by lia.
  assert (Hp1 : 0 < 2 ^ s1) by (apply Z.pow_pos_nonneg; lia).
  assert (Hp2 : 0 < 2 ^ s2) by (apply Z.pow_pos_nonneg; lia).
  destruct (Z.eq_dec s1 s2) as [Heq|Hne].
  - rewrite <- Heq. apply Z.mul_le_mono_nonneg_r; [lia|].
    apply rne_div_mono; nia.
  - assert (Hlt : s1 + 1 <= s2) by lia.
    assert (Hlog2 : Z.log2 n2 = s2 + 52) by lia.
    assert (Hn2pos : 0 < n2).
    { destruct (Z.le_gt_cases n2 0) as [H0|H0]; [|done].
      rewrite (Z.log2_nonpos n2 H0) in Hlog2. lia. }
    assert (Hlow : 2 ^ (s2 + 52) <= n2).
    { rewrite <- Hlog2. apply Z.log2_spec. lia. }
    assert (Hup : n1 + 1 <= 2 ^ (s1 + 53)).
    { destruct (Z.le_gt_cases n1 0) as [H0|H0].
      - assert (n1 = 0) by lia.
        assert (2 ^ 0 < 2 ^ (s1 + 53)) by (apply Z.pow_lt_mono_r; lia).
        simpl in *. lia.
      - pose proof (Z.log2_spec n1 H0) as [_ Hu].
        assert (2 ^ Z.succ (Z.log2 n1) <= 2 ^ (s1 + 53))
          by (apply Z.pow_le_mono_r; lia).
        lia. }
    assert (Hr1 : rne_div a1 (d1 * 2 ^ s1) <= 2 ^ 53).
    { apply rne_div_le; [nia|].
      pose proof (Z.div_mod a1 d1 ltac:(lia)) as Hdm.
      pose proof (Z.mod_pos_bound a1 d1 Hd1).
      fold n1 in Hdm.
      assert (a1 < (n1 + 1) * d1) by nia.
      rewrite Z.pow_add_r in Hup by lia. nia. }
    assert (Hr2 : 2 ^ 52 <= rne_div a2 (d2 * 2 ^ s2)).
    { apply rne_div_ge; [nia|].
      pose proof (Z.div_mod a2 d2 ltac:(lia)) as Hdm.
      pose proof (Z.mod_pos_bound a2 d2 Hd2).
      fold n2 in Hdm.
      rewrite Z.pow_add_r in Hlow by lia. nia. }
    assert (H2s : 2 * 2 ^ s1 <= 2 ^ s2).
    { replace (2 * 2 ^ s1) with (2 ^ (s1 + 1)) by (rewrite Z.pow_add_r; lia).
      apply Z.pow_le_mono_r; lia. }
    change (2 ^ 53) with (2 ^ 52 * 2) in Hr1.
    assert (0 < 2 ^ 52) by reflexivity.
    nia.
Qed.

Lemma round_units_nonneg (a d : Z) : 0 <= a -> 0 < d -> 0 <= round_units a d.
Proof.
  intros Ha Hd. unfold round_units.
  pose proof (quantum_pos (a / d)).
  apply Z.mul_nonneg_nonneg; [|lia].
  apply rne_div_ge; [nia|lia].
Qed.

Lemma round_mono (x y : Q) : (x <= y)%Q -> (round x <= round y)%Q.
Proof.
  destruct x as [nx dx], y as [ny dy]. unfold Qle, round. simpl.
  intros Hle.
  set (u := Zpos unit_den).
  assert (Hu : 0 < u) by reflexivity.
  set (mx := Z.min (round_units (Z.abs nx * u) (Zpos dx)) infinity_units).
  set (my := Z.min (round_units (Z.abs ny * u) (Zpos dy)) infinity_units).
  assert (Hinf : 0 <= infinity_units) by (unfold infinity_units; apply Z.pow_nonneg; lia).
  assert (Hmx : 0 <= mx).
  { unfold mx. apply Z.min_glb; [|done]. apply round_units_nonneg; nia. }
  assert (Hmy : 0 <= my).
  { unfold my. apply Z.min_glb; [|done]. apply round_units_nonneg; nia. }
  apply Z.mul_le_mono_nonneg_r; [lia|].
  destruct (Z.lt_trichotomy nx 0) as [Hx|[Hx|Hx]];
    destruct (Z.lt_trichotomy ny 0) as [Hy|[Hy|Hy]];
    try (rewrite ?(Z.sgn_neg nx), ?(Z.sgn_pos nx), ?(Z.sgn_neg ny), ?(Z.sgn_pos ny) by lia;
         subst; simpl Z.sgn; nia).
  - rewrite (Z.sgn_neg nx), (Z.sgn_neg ny) by lia.
    assert (my <= mx); [|lia].
    unfold mx, my. apply Z.min_le_compat_r.
    apply round_units_mono; try lia. nia.
  - rewrite (Z.sgn_pos nx), (Z.sgn_pos ny) by lia.
    assert (mx <= my); [|lia].
    unfold mx, my. apply Z.min_le_compat_r.
    apply round_units_mono; try lia. nia.
Qed.

(** An integer of at most 53 bits is a binary64 number. *)
Lemma round_integer (z : Z) :
  Z.abs z <= 2 ^ 53 -> (round (inject_Z z) == inject_Z z)%Q.
Proof.
  intros Hz. unfold round, Qeq. cbn [Qnum Qden inject_Z].
  set (u := Zpos unit_den).
  assert (Hu : u = 2 ^ 1074) by reflexivity.
  destruct (Z.eq_dec z 0) as [->|Hz0]; [reflexivity|].
  assert (Ha : 0 < Z.abs z) by lia.
  assert (Hr : round_units (Z.abs z * u) 1 = Z.abs z * u).
  { unfold round_units. rewrite Z.div_1_r, Z.mul_1_l.
    unfold quantum. set (s := Z.max 0 (Z.log2 (Z.abs z * u) - 52)).
    assert (Hlog : Z.log2 (Z.abs z * u) = Z.log2 (Z.abs z) + 1074).
    { rewrite Hu. rewrite <- Z.shiftl_mul_pow2 by lia.
      apply Z.log2_shiftl; lia. }
    assert (Hl53 : Z.log2 (Z.abs z) <= 53).
    { change 53 with (Z.log2 (2 ^ 53)). by apply Z.log2_le_mono. }
    assert (Hl0 : 0 <= Z.log2 (Z.abs z)) by apply Z.log2_nonneg.
    assert (Hs : 0 <= s <= 1075) by lia.
    destruct (Z.eq_dec s 1075) as [Hs1|Hs1].
    - assert (Hl : Z.log2 (Z.abs z) = 53) by lia.
      assert (Hz53 : Z.abs z = 2 ^ 53).
      { apply Z.le_antisymm; [done|]. rewrite <- Hl. apply Z.log2_spec. lia. }
      rewrite Hz53, Hu, Hs1. reflexivity.
    - assert (Hsplit : u = 2 ^ (1074 - s) * 2 ^ s).
      { rewrite Hu, <- Z.pow_add_r by lia. f_equal. lia. }
      rewrite Hsplit at 1. rewrite Z.mul_assoc.
      rewrite rne_div_exact by (apply Z.pow_pos_nonneg; lia).
      rewrite <- Z.mul_assoc, <- Hsplit. reflexivity. }
  rewrite Hr.
  assert (Hmin : Z.min (Z.abs z * u) infinity_units = Z.abs z * u).
  { apply Z.min_l. unfold infinity_units. rewrite Hu.
    change (2 ^ 2098) with (2 ^ 1024 * 2 ^ 1074).
    apply Z.mul_le_mono_nonneg_r; [lia|].
    etransitivity; [exact Hz|]. apply Z.pow_le_mono_r; lia. }
  rewrite Hmin. fold u.
  rewrite Z.mul_assoc, <- Z.abs_sgn. simpl. lia.
Qed.

Lemma round_zero (d : positive) : Qnum (round (0 # d)) = 0.
Proof. reflexivity. Qed.

Lemma gt_int_mono (x y : Q) (z : Z) :
  (x <= y)%Q -> gt_int x z = true -> gt_int y z = true.
Proof.
  unfold gt_int. intros Hle.
  destruct (Qle_bool (inject_Z (2 ^ 1024)) x) eqn:E1.
  - intros _. apply Qle_bool_iff in E1.
    assert (E2 : Qle_bool (inject_Z (2 ^ 1024)) y = true)
      by (apply Qle_bool_iff; eapply Qle_trans; eassumption).
    by rewrite E2.
  - destruct (Qle_bool x (inject_Z (- 2 ^ 1024))) eqn:E2; [done|].
    intros H. apply negb_true_iff in H.
    destruct (Qle_bool (inject_Z (2 ^ 1024)) y) eqn:E3; [done|].
    destruct (Qle_bool y (inject_Z (- 2 ^ 1024))) eqn:E4.
    + apply Qle_bool_iff in E4.
      assert (Qle_bool x (inject_Z (- 2 ^ 1024)) = true)
        by (apply Qle_bool_iff; eapply Qle_trans; eassumption).
      congruence.
    + apply negb_true_iff. destruct (Qle_bool y (inject_Z z)) eqn:E5; [|done].
      apply Qle_bool_iff in E5.
      assert (Qle_bool x (inject_Z z) = true)
        by (apply Qle_bool_iff; eapply Qle_trans; eassumption).
      congruence.
Qed.

(** A float that is at most an integer is not greater than it, and one that
    is at least the next integer is, as long as it is no infinity. *)
Lemma gt_int_le (x : Q) (z : Z) :
  (x <= inject_Z z)%Q -> z < 2 ^ 1024 -> gt_int x z = false.
Proof.
  intros Hx Hz. unfold gt_int.
  destruct (Qle_bool (inject_Z (2 ^ 1024)) x) eqn:E1.
  - apply Qle_bool_iff in E1.
    assert (H : (inject_Z (2 ^ 1024) <= inject_Z z)%Q) by (eapply Qle_trans; eassumption).
    rewrite <- Zle_Qle in H. lia.
  - destruct (Qle_bool x (inject_Z (- 2 ^ 1024))); [done|].
    apply negb_false_iff. by apply Qle_bool_iff.
Qed.

Lemma gt_int_ge (x : Q) (z : Z) :
  (inject_Z (z + 1) <= x)%Q -> - 2 ^ 1024 <= z -> gt_int x z = true.
Proof.
  intros Hx Hz. unfold gt_int.
  destruct (Qle_bool (inject_Z (2 ^ 1024)) x) eqn:E1; [done|].
  destruct (Qle_bool x (inject_Z (- 2 ^ 1024))) eqn:E2.
  - apply Qle_bool_iff in E2.
    assert (H : (inject_Z (z + 1) <= inject_Z (- 2 ^ 1024))%Q)
      by (eapply Qle_trans; eassumption).
    rewrite <- Zle_Qle in H. lia.
  - apply negb_true_iff. destruct (Qle_bool x (inject_Z z)) eqn:E3; [|done].
    apply Qle_bool_iff in E3.
    assert (H : (inject_Z (z + 1) <= inject_Z z)%Q) by (eapply Qle_trans; eassumption).
    rewrite <- Zle_Qle in H. lia.
Qed.

End FloatFacts.

(** ** Texts that are no JSON document *)

Module WellFormedFacts.
Import Json.
Local Open Scope char_scope.

Lemma length_skip_ws (s : text) : (length (skip_ws s) <= length s)%nat.
Proof.
  induction s as [|c s IH]; simpl; [done|].
  destruct (is_ws c); simpl; lia.
Qed.

Lemma parse_hex4_length (s : text) (n : N) (r : text) :
  parse_hex4 s = Some (n, r) -> length s = (4 + length r)%nat.
Proof.
  destruct s as [|a [|b [|c [|d s]]]]; simpl; try done.
  destruct (hex_value a), (hex_value b), (hex_value c), (hex_value d); try done.
  by intros [= _ <-].
Qed.

(** What the reader of strings accepts, the scanner accepts, and it leaves
    the same rest. *)
Lemma parse_chars_skip (fuel : nat) (s : text) (str : string) (r : text) :
  parse_chars fuel s = Some (str, r) ->
  (length r < length s)%nat /\
  forall n, (length s <= n)%nat -> skip_chars n s = Some r.
Proof.
  revert s str r. induction fuel as [|fuel IH]; intros s str r; [done|].
  destruct s as [|c s]; [done|]. cbn [parse_chars].
  destruct (Ascii.eqb c "034") eqn:Eq.
  { intros [= _ <-]. split; [simpl; lia|].
    intros [|n] Hn; [simpl in Hn; lia|]. cbn [skip_chars]. by rewrite Eq. }
  destruct (Ascii.eqb c "\") eqn:Eb.
  - destruct s as [|e s]; [done|].
    destruct (Ascii.eqb e "u") eqn:Eu.
    + destruct (parse_hex4 s) as [[hi s2]|] eqn:Eh; [|done].
      pose proof (parse_hex4_length _ _ _ Eh) as Hl.
      unfold code_point.
      destruct ((55296 <=? hi)%N && (hi <=? 56319)%N).
      * destruct s2 as [|b1 s2]; [done|].
        destruct b1 as [[] [] [] [] [] [] [] []]; try done.
        destruct s2 as [|b2 s3]; [done|].
        destruct b2 as [[] [] [] [] [] [] [] []]; try done.
        destruct (parse_hex4 s3) as [[lo s4]|] eqn:Eh2; [|done].
        pose proof (parse_hex4_length _ _ _ Eh2) as Hl2.
        destruct ((56320 <=? lo)%N && (lo <=? 57343)%N); [|done].
        destruct (utf8_encode _); [|done].
        destruct (parse_chars fuel s4) as [[str' rest]|] eqn:Ep; [|done].
        intros [= _ <-]. destruct (IH _ _ _ Ep) as [Hlen Hskip].
        split; [simpl in *; lia|].
        intros [|[|n]] Hn; [simpl in Hn; lia | simpl in Hn; lia |].
        cbn [skip_chars]. rewrite Eq, Eb, Eu, Eh. cbn [skip_chars Ascii.eqb Bool.eqb].
        cbn. rewrite Eh2. apply Hskip. simpl in *. lia.
      * destruct (utf8_encode hi); [|done].
        destruct (parse_chars fuel s2) as [[str' rest]|] eqn:Ep; [|done].
        intros [= _ <-]. destruct (IH _ _ _ Ep) as [Hlen Hskip].
        split; [simpl in *; lia|].
        intros [|n] Hn; [simpl in Hn; lia|].
        cbn [skip_chars]. rewrite Eq, Eb, Eu, Eh. apply Hskip. simpl in *. lia.
    + destruct (unescape e) eqn:Ee; [|done].
      destruct (parse_chars fuel s) as [[str' rest]|] eqn:Ep; [|done].
      intros [= _ <-]. destruct (IH _ _ _ Ep) as [Hlen Hskip].
      split; [simpl in *; lia|].
      intros [|n] Hn; [simpl in Hn; lia|].
      cbn [skip_chars]. rewrite Eq, Eb, Eu, Ee. apply Hskip. simpl in *. lia.
  - destruct (N_of_ascii c <? 32)%N eqn:Ec; [done|].
    destruct (parse_chars fuel s) as [[str' rest]|] eqn:Ep; [|done].
    intros [= _ <-]. destruct (IH _ _ _ Ep) as [Hlen Hskip].
    split; [simpl in *; lia|].
    intros [|n] Hn; [simpl in Hn; lia|].
    cbn [skip_chars]. rewrite Eq, Eb, Ec. apply Hskip. simpl in *. lia.
Qed.

Lemma parse_digits_skip (s : text) :
  skip_digits s = snd (parse_digits s) /\
  (length (snd (parse_digits s)) <= length s)%nat.
Proof.
  induction s as [|c s [IH1 IH2]]; [done|]. cbn [parse_digits skip_digits].
  unfold is_digit. destruct (digit_of c) as [d|]; [|done].
  destruct (parse_digits s) as [u r]. simpl in *. split; [done | lia].
Qed.

Lemma float_continues_skip (r : text) :
  float_continues r = false -> skip_exponent (skip_fraction r) = r.
Proof.
  destruct r as [|c r]; [done|]. cbn [float_continues].
  intros H. apply orb_false_iff in H as [H He2].
  apply orb_false_iff in H as [Hp He1].
  assert (Hf : skip_fraction (c :: r) = c :: r).
  { unfold skip_fraction. apply Ascii.eqb_neq in Hp.
    destruct c as [[] [] [] [] [] [] [] []]; try done. }
  rewrite Hf. unfold skip_exponent. by rewrite He1, He2.
Qed.

Lemma parse_nat_skip (s : text) (u : Decimal.uint) (r : text) :
  parse_nat s = Some (u, r) ->
  skip_integer s = Some r /\ skip_exponent (skip_fraction r) = r /\
  (length r < length s)%nat /\
  exists c s', s = c :: s' /\ is_digit c = true.
Proof.
  unfold parse_nat. destruct (parse_digits s) as [u' r'] eqn:Ed.
  destruct (float_continues r') eqn:Ef; [done|].
  intros H.
  assert (Hur : u' = u /\ r' = r /\ canonical u).
  { destruct u' as [|d| | | | | | | | |]; try done;
      try (injection H as <- <-; done).
    destruct d; try done. by injection H as <- <-. }
  destruct Hur as (-> & -> & Hc). clear H.
  split; [|split; [by apply float_continues_skip|]].
  - destruct s as [|c s]; [simpl in Ed; injection Ed as <- <-; done|].
    cbn [parse_digits] in Ed. unfold skip_integer, is_digit.
    destruct (digit_of c) as [d|] eqn:Edc;
      [|injection Ed as <- <-; done].
    destruct (parse_digits s) as [u0 r0] eqn:Ed0.
    injection Ed as <- <-.
    pose proof (parse_digits_skip s) as [Hs _]. rewrite Ed0 in Hs. simpl in Hs.
    destruct (Ascii.eqb c "0") eqn:E0.
    + apply Ascii.eqb_eq in E0. subst c. injection Edc as <-.
      simpl in Hc. destruct u0; try done.
      destruct s as [|c' s]; [simpl in Ed0; by injection Ed0 as <-|].
      cbn [parse_digits] in Ed0. destruct (digit_of c') as [d'|] eqn:Ec'.
      * exfalso. destruct (parse_digits s) as [u1 r1].
        destruct c' as [[] [] [] [] [] [] [] []]; simpl in Ec';
          try discriminate Ec'; injection Ec' as <-; discriminate Ed0.
      * by injection Ed0 as <-.
    + by rewrite Hs.
  - destruct s as [|c s]; [simpl in Ed; injection Ed as <- <-; done|].
    cbn [parse_digits] in Ed.
    destruct (digit_of c) as [d|] eqn:Edc;
      [|injection Ed as <- <-; done].
    pose proof (parse_digits_skip s) as [_ Hl].
    destruct (parse_digits s) as [u0 r0]. injection Ed as <- <-.
    split; [simpl in *; lia|]. exists c, s. split; [done|].
    unfold is_digit. by rewrite Edc.
Qed.

Lemma skip_constant_digit (c : ascii) (s : text) :
  is_digit c = true -> skip_constant constants (c :: s) = None.
Proof.
  destruct c as [[] [] [] [] [] [] [] []]; try done.
Qed.

Lemma skip_constant_minus_digit (c : ascii) (s : text) :
  is_digit c = true -> skip_constant constants ("-" :: c :: s) = None.
Proof.
  destruct c as [[] [] [] [] [] [] [] []]; try done.
Qed.

Lemma is_digit_not_special (c : ascii) :
  is_digit c = true ->
  Ascii.eqb c "034" = false /\ Ascii.eqb c "{" = false /\ Ascii.eqb c "[" = false /\
  Ascii.eqb c "-" = false.
Proof.
  destruct c as [[] [] [] [] [] [] [] []]; try done.
Qed.

Lemma skip_number_unsigned (c : ascii) (s : text) :
  Ascii.eqb c "-" = false ->
  skip_number (c :: s)
  = match skip_integer (c :: s) with
    | Some r => Some (skip_exponent (skip_fraction r))
    | None => None
    end.
Proof.
  destruct c as [[] [] [] [] [] [] [] []]; done.
Qed.

(** An integer that the reader accepts is a number of the scanner, and no
    constant. *)
Lemma parse_int_skip (s : text) (z : Z) (r : text) (fuel : nat) :
  parse_int s = Some (z, r) ->
  skip_value (S fuel) s = Some r /\ (length r < length s)%nat.
Proof.
  unfold parse_int. intros H.
  destruct s as [|c s]; [done|].
  destruct (Ascii.eqb c "-") eqn:Em.
  - apply Ascii.eqb_eq in Em. subst c.
    destruct (parse_nat s) as [[u r']|] eqn:En; [|done].
    injection H as _ <-.
    destruct (parse_nat_skip _ _ _ En) as (Hi & Hf & Hl & c & s' & -> & Hd).
    split; [|simpl in *; lia].
    cbn [skip_value Ascii.eqb Bool.eqb].
    rewrite (skip_constant_minus_digit c s' Hd).
    unfold skip_number. by rewrite Hi, Hf.
  - assert (Hn : match parse_nat (c :: s) with
                 | Some (u, r) => Some (Z.of_int (Decimal.Pos u), r)
                 | None => None
                 end = Some (z, r)).
    { destruct c as [[] [] [] [] [] [] [] []]; try done. }
    clear H. destruct (parse_nat (c :: s)) as [[u r']|] eqn:En; [|done].
    injection Hn as _ <-.
    destruct (parse_nat_skip _ _ _ En) as (Hi & Hf & Hl & c' & s' & [= <- <-] & Hd).
    split; [|done].
    destruct (is_digit_not_special c Hd) as (E1 & E2 & E3 & E4).
    cbn [skip_value]. rewrite E1, E2, E3, (skip_constant_digit c s Hd).
    rewrite (skip_number_unsigned c s E4). by rewrite Hi, Hf.
Qed.

Lemma parse_scalar_skip (s : text) (v : scalar) (r : text) (fuel : nat) :
  parse_scalar s = Some (v, r) ->
  skip_value (S fuel) s = Some r /\ (length r < length s)%nat.
Proof.
  unfold parse_scalar. intros H.
  destruct s as [|c s]; [done|].
  destruct (Ascii.eqb c "034") eqn:Eq.
  - apply Ascii.eqb_eq in Eq. subst c.
    destruct (parse_chars (length s) s) as [[str rest]|] eqn:Ep; [|done].
    injection H as _ <-. destruct (parse_chars_skip _ _ _ _ Ep) as [Hl Hs].
    split; [|simpl; lia]. cbn [skip_value Ascii.eqb Bool.eqb]. by apply Hs.
  - assert (Hi : match parse_int (c :: s) with
                 | Some (z, rest) => Some (JInt z, rest)
                 | None => None
                 end = Some (v, r)).
    { destruct c as [[] [] [] [] [] [] [] []]; try done. }
    clear H. destruct (parse_int (c :: s)) as [[z rest]|] eqn:Ei; [|done].
    injection Hi as _ <-. by apply (parse_int_skip _ z).
Qed.

Lemma parse_members_skip (fuel : nat) (s : text) (ms : list (string * scalar))
    (r : text) (f : nat) :
  parse_members fuel s = Some (ms, r) ->
  (length r < length s)%nat /\
  forall n, (length s <= n)%nat -> skip_members (skip_value (S f)) n s = Some r.
Proof.
  revert s ms r. induction fuel as [|fuel IH]; intros s ms r; [done|].
  cbn [parse_members]. intros H.
  destruct s as [|c s]; [done|].
  destruct (Ascii.eqb c "034") eqn:Eq;
    [apply Ascii.eqb_eq in Eq; subst c
    |destruct c as [[] [] [] [] [] [] [] []]; done].
  destruct (parse_chars (length s) s) as [[key r1]|] eqn:Ek; [|done].
  destruct (parse_chars_skip _ _ _ _ Ek) as [Hl1 Hs1].
  pose proof (length_skip_ws r1) as Hw1.
  destruct (skip_ws r1) as [|c2 r2] eqn:E1; [done|].
  destruct (Ascii.eqb c2 ":") eqn:Ec;
    [apply Ascii.eqb_eq in Ec; subst c2
    |destruct c2 as [[] [] [] [] [] [] [] []]; done].
  destruct (parse_scalar (skip_ws r2)) as [[v r3]|] eqn:Ev; [|done].
  destruct (parse_scalar_skip _ _ _ f Ev) as [Hs3 Hl3].
  pose proof (length_skip_ws r2) as Hw2. pose proof (length_skip_ws r3) as Hw3.
  destruct (skip_ws r3) as [|c4 r4] eqn:E3; [done|].
  assert (Hstep : forall n, (length ("034" :: s) <= S n)%nat ->
    skip_members (skip_value (S f)) (S n) ("034" :: s)
    = match c4 :: r4 with
      | "}" :: r4 => Some r4
      | "," :: r4 => skip_members (skip_value (S f)) n (skip_ws r4)
      | _ => None
      end).
  { intros n Hn. cbn [skip_members]. rewrite Hs1 by done. rewrite E1.
    rewrite Hs3, E3. reflexivity. }
  destruct (Ascii.eqb c4 "}") eqn:Eb.
  { apply Ascii.eqb_eq in Eb. subst c4. injection H as _ <-.
    split; [simpl in *; lia|].
    intros [|n] Hn; [simpl in Hn; lia|]. by rewrite Hstep. }
  destruct (Ascii.eqb c4 ",") eqn:Em;
    [apply Ascii.eqb_eq in Em; subst c4
    |destruct c4 as [[] [] [] [] [] [] [] []]; done].
  destruct (parse_members fuel (skip_ws r4)) as [[ms' r5]|] eqn:Er; [|done].
  injection H as _ <-. destruct (IH _ _ _ Er) as [Hl5 Hs5].
  pose proof (length_skip_ws r4) as Hw4.
  split; [simpl in *; lia|].
  intros [|n] Hn; [simpl in Hn; lia|]. rewrite Hstep by done.
  apply Hs5. simpl in *. lia.
Qed.

Lemma parse_object_skip (s : text) (ms : list (string * scalar)) (r : text)
    (f : nat) :
  parse_object s = Some (ms, r) ->
  skip_value (S (S f)) s = Some r /\ (length r < length s)%nat.
Proof.
  unfold parse_object. intros H.
  destruct s as [|c s]; [done|].
  destruct (Ascii.eqb c "{") eqn:Eo;
    [apply Ascii.eqb_eq in Eo; subst c
    |destruct c as [[] [] [] [] [] [] [] []]; done].
  pose proof (length_skip_ws s) as Hw.
  change (skip_value (S (S f)) ("{" :: s))
    with (match skip_ws s with
          | "}" :: r' => Some r'
          | r' => skip_members (skip_value (S f)) (length r') r'
          end).
  destruct (skip_ws s) as [|c1 r1] eqn:E1.
  - simpl in H. done.
  - destruct (Ascii.eqb c1 "}") eqn:Eb.
    + apply Ascii.eqb_eq in Eb. subst c1. injection H as _ <-.
      split; [done | simpl in *; lia].
    + assert (Hp : parse_members (length (c1 :: r1)) (c1 :: r1) = Some (ms, r))
        by (destruct c1 as [[] [] [] [] [] [] [] []]; done).
      destruct (parse_members_skip _ _ _ _ f Hp) as [Hl Hs].
      split; [|simpl in *; lia].
      transitivity (skip_members (skip_value (S f)) (length (c1 :: r1)) (c1 :: r1));
        [destruct c1 as [[] [] [] [] [] [] [] []]; done|].
      by apply Hs.
Qed.

Lemma parse_items_skip (fuel : nat) (s : text) (l : list message) (r : text)
    (f : nat) :
  parse_items fuel s = Some (l, r) ->
  (length r < length s)%nat /\
  forall n, (length s <= n)%nat ->
            skip_elements (skip_value (S (S f))) n s = Some r.
Proof.
  revert s l r. induction fuel as [|fuel IH]; intros s l r; [done|].
  cbn [parse_items]. intros H.
  destruct (parse_object s) as [[ms r1]|] eqn:Eo; [|done].
  destruct (parse_object_skip _ _ _ f Eo) as [Hs1 Hl1].
  destruct (message_of_members ms) as [m|]; [|done].
  pose proof (length_skip_ws r1) as Hw1.
  destruct (skip_ws r1) as [|c2 r2] eqn:E1; [done|].
  destruct (Ascii.eqb c2 "]") eqn:Eb.
  { apply Ascii.eqb_eq in Eb. subst c2. injection H as _ <-.
    split; [simpl in *; lia|].
    intros [|n] Hn; [destruct s; simpl in *; lia|].
    cbn [skip_elements]. by rewrite Hs1, E1. }
  destruct (Ascii.eqb c2 ",") eqn:Em;
    [apply Ascii.eqb_eq in Em; subst c2
    |destruct c2 as [[] [] [] [] [] [] [] []]; done].
  destruct (parse_items fuel (skip_ws r2)) as [[l' r3]|] eqn:Er; [|done].
  injection H as _ <-. destruct (IH _ _ _ Er) as [Hl3 Hs3].
  pose proof (length_skip_ws r2) as Hw2.
  split; [simpl in *; lia|].
  intros [|n] Hn; [destruct s; simpl in *; lia|].
  cbn [skip_elements]. rewrite Hs1, E1. apply Hs3. simpl in *. lia.
Qed.

(** A text that loads as a list of messages is a JSON document. *)
Lemma load_well_formed (t : text) (ms : list message) :
  load t = Some ms -> well_formed t = true.
Proof.
  unfold load, well_formed. intros H.
  pose proof (length_skip_ws t) as Hw.
  destruct (skip_ws t) as [|c r] eqn:Et; [done|].
  destruct (Ascii.eqb c "[") eqn:Eo;
    [apply Ascii.eqb_eq in Eo; subst c
    |destruct c as [[] [] [] [] [] [] [] []]; done].
  pose proof (length_skip_ws r) as Hw1.
  destruct (length t) as [|f] eqn:El; [simpl in Hw; lia|].
  change (skip_value (S (S f)) ("[" :: r))
    with (match skip_ws r with
          | "]" :: r' => Some r'
          | r' => skip_elements (skip_value (S f)) (length r') r'
          end).
  destruct (skip_ws r) as [|c1 r1] eqn:E1; [done|].
  destruct (Ascii.eqb c1 "]") eqn:Eb.
  - apply Ascii.eqb_eq in Eb. subst c1. by destruct (at_end r1).
  - assert (Hp : match parse_items (length (c1 :: r1)) (c1 :: r1) with
                 | Some (l, r'') => if at_end r'' then Some l else None
                 | None => None
                 end = Some ms)
      by (destruct c1 as [[] [] [] [] [] [] [] []]; done).
    destruct (parse_items (length (c1 :: r1)) (c1 :: r1)) as [[l r2]|] eqn:Ei; [|done].
    destruct f as [|f]; [simpl in *; lia|].
    destruct (parse_items_skip _ _ _ _ f Ei) as [Hl Hs].
    transitivity (match skip_elements (skip_value (S (S f))) (length (c1 :: r1)) (c1 :: r1) with
                  | Some r => at_end r
                  | None => false
                  end);
      [destruct c1 as [[] [] [] [] [] [] [] []]; done|].
    rewrite Hs by done. by destruct (at_end r2).
Qed.

(** A text that is not a JSON document does not load. *)
Lemma malformed_load (t : text) : well_formed t = false -> load t = None.
Proof.
  intros H. destruct (load t) as [ms|] eqn:E; [|done].
  apply load_well_formed in E. congruence.
Qed.

End WellFormedFacts.

(** ** Validation of [send_message] *)

Lemma py_not_true (s : option string) :
  py_not s = true <-> s = None \/ s = Some EmptyString.
Proof.
  destruct s as [[|c s]|]; simpl; split; intros H; try done; auto.
  - destruct H as [H|H]; discriminate H.
Qed.

Lemma py_not_false (s : option string) :
  py_not s = false <-> exists u, s = Some u /\ u <> EmptyString.
Proof.
  destruct s as [[|c s]|]; simpl; split; intros H; try done.
  - destruct H as (u & [= <-] & Hu). done.
  - exists (String c s). done.
  - destruct H as (u & Hu & _). discriminate Hu.
Qed.

(** C2. [send_message] called with an empty (or missing) username or an
    empty (or missing) content answers with the validation failure, code 1
    with a message and no data, and returns the state it was given: message
    list, presence map, backing file and log are those before the call. *)
Theorem send_message_rejects_empty (e : env) (username content type : option string)
    (st : state) :
  username = None \/ username = Some EmptyString \/
  content = None \/ content = Some EmptyString ->
  let st' := fst (ChatCenter.send_message e username content type st) in
  let r := snd (ChatCenter.send_message e username content type st) in
  code r = 1 /\ message_text r = "用户名和消息内容不能为空！"%string /\ data r = None /\
  _messages st' = _messages st /\
  _online_users st' = _online_users st /\
  files st' = files st /\
  st' = st.
Proof.
  intros H. unfold ChatCenter.send_message.
  assert (Hn : py_not username || py_not content = true).
  { apply orb_true_iff.
    destruct H as [H|[H|[H|H]]]; subst; simpl; auto;
      right; reflexivity. }
  rewrite Hn. simpl. repeat split; reflexivity.
Qed.

Lemma send_message_rejects_empty_witness :
  (Some EmptyString = None \/ Some EmptyString = Some EmptyString \/
   Some "hi"%string = None \/ Some "hi"%string = Some EmptyString) /\
  fst (ChatCenter.send_message example_env (Some EmptyString) (Some "hi"%string) None
         example_state) = example_state.
Proof.
  split.
  - right; left; reflexivity.
  - apply (send_message_rejects_empty example_env (Some EmptyString)
             (Some "hi"%string) None example_state).
    right; left; reflexivity.
Defined.

(** ** Heartbeat *)

(** C8. [user_heartbeat] with an empty (or missing) username answers code 1
    and returns the state unchanged. With a non-empty username it answers
    code 0, sets that username's presence timestamp to the clock reading,
    leaves every other presence entry, the message list, the files (no
    persistence write) and the log as they were. *)
Theorem user_heartbeat_spec (e : env) (username : option string) (st : state) :
  let st' := fst (ChatCenter.user_heartbeat e username st) in
  let r := snd (ChatCenter.user_heartbeat e username st) in
  (username = None \/ username = Some EmptyString ->
     code r = 1 /\ data r = None /\ st' = st) /\
  (forall u, username = Some u -> u <> EmptyString ->
     code r = 0 /\
     _online_users st' !! u = Some (time_first e) /\
     (forall v, v <> u -> _online_users st' !! v = _online_users st !! v) /\
     _messages st' = _messages st /\
     files st' = files st /\
     log st' = log st).
Proof.
  unfold ChatCenter.user_heartbeat. split.
  - intros H. apply py_not_true in H. rewrite H. simpl. auto.
  - intros u -> Hu.
    assert (Hn : py_not (Some u) = false) by (apply py_not_false; eauto).
    unfold ChatCenter._update_user_online. rewrite Hn. simpl.
    repeat split.
    + apply lookup_insert_eq.
    + intros v Hv. apply lookup_insert_ne. congruence.
Qed.

Lemma user_heartbeat_spec_witness :
  (Some "alice"%string = Some "alice"%string) /\ ("alice"%string <> EmptyString) /\
  _online_users (fst (ChatCenter.user_heartbeat example_env (Some "alice"%string)
                        example_state)) !! "alice"%string
  = Some (time_first example_env).
Proof.
  split; [reflexivity | split; [discriminate |]].
  apply (proj2 (user_heartbeat_spec example_env (Some "alice"%string) example_state)
               "alice"%string eq_refl).
  discriminate.
Defined.

(** ** What an accepted [send_message] does *)

Lemma last_drop_lt {A} (n : nat) (l : list A) :
  (n < length l)%nat -> last (drop n l) = last l.
Proof.
  intros H. rewrite <- (take_drop n l) at 2.
  rewrite last_app. destruct (last (drop n l)) eqn:E; [done|].
  apply last_None in E. apply (f_equal length) in E.
  rewrite length_drop in E. simpl in E. lia.
Qed.

Lemma truncated_lastn (max : Z) (l : list message) :
  1 <= max -> truncated max l = lastn (Z.to_nat max) l.
Proof.
  intros Hmax. unfold truncated, lastn, py_slice_from.
  destruct (Z.gtb_spec (Z.of_nat (length l)) max) as [Hgt|Hle].
  - replace (- max <? 0) with true by (symmetry; apply Z.ltb_lt; lia).
    f_equal. lia.
  - replace (length l - Z.to_nat max)%nat with 0%nat by lia. done.
Qed.

Lemma truncated_last (max : Z) (l : list message) (m : message) :
  0 <= max -> last (truncated max (l ++ [m])) = Some m.
Proof.
  intros Hmax. unfold truncated.
  destruct (Z.gtb_spec (Z.of_nat (length (l ++ [m]))) max) as [Hgt|Hle];
    [|apply last_snoc].
  unfold py_slice_from. destruct (Z.ltb_spec (- max) 0) as [Hneg|Hpos].
  - rewrite last_drop_lt; [apply last_snoc|]. lia.
  - replace max with 0 by lia. simpl. apply last_snoc.
Qed.

Lemma Forall_truncated (P : message -> Prop) (max : Z) (l : list message) :
  Forall P l -> Forall P (truncated max l).
Proof.
  intros H. unfold truncated, py_slice_from.
  repeat case_match; auto using Forall_drop.
Qed.

Lemma send_message_accepted (e : env) (u c : string) (type : option string) (st : state) :
  u <> EmptyString -> c <> EmptyString ->
  ChatCenter.send_message e (Some u) (Some c) type st =
  (ChatCenter._save_messages (write e)
     (set_messages
        (truncated (_max_messages st) (_messages st ++ [new_message e u c type]))
        (set_online_users (<[u := time_first e]> (_online_users st)) st)),
   Response 0 "发送成功" (Some (Created (new_message e u c type)))).
Proof.
  intros Hu Hc. unfold ChatCenter.send_message, ChatCenter._update_user_online.
  destruct u as [|a u]; [done|]. destruct c as [|b c]; [done|].
  simpl. unfold truncated, new_message. simpl.
  destruct (_ >? _); reflexivity.
Qed.

Lemma _save_messages_memory (w : write_outcome) (st : state) :
  _messages (ChatCenter._save_messages w st) = _messages st /\
  _online_users (ChatCenter._save_messages w st) = _online_users st /\
  _max_messages (ChatCenter._save_messages w st) = _max_messages st /\
  _online_timeout (ChatCenter._save_messages w st) = _online_timeout st /\
  _chat_data_path (ChatCenter._save_messages w st) = _chat_data_path st.
Proof. destruct w; simpl; auto. Qed.

(** C10. [send_message] does not trim its arguments: for every non-empty
    username and content, strings of whitespace included, it answers code 0
    with the created message, which carries exactly those two strings; the
    message is appended to the list (and is its last element after the bound
    is applied, for a bound of at least 0), and the presence entry of that
    very username is set to the clock reading. *)
Theorem send_message_no_trimming (e : env) (u c : string) (type : option string)
    (st : state) :
  u <> EmptyString -> c <> EmptyString ->
  let st' := fst (ChatCenter.send_message e (Some u) (Some c) type st) in
  let r := snd (ChatCenter.send_message e (Some u) (Some c) type st) in
  exists m,
    msg_username m = u /\ msg_content m = c /\
    r = Response 0 "发送成功" (Some (Created m)) /\
    _messages st' = truncated (_max_messages st) (_messages st ++ [m]) /\
    (0 <= _max_messages st -> last (_messages st') = Some m) /\
    _online_users st' = <[u := time_first e]> (_online_users st).
Proof.
  intros Hu Hc. rewrite send_message_accepted by done. simpl.
  exists (new_message e u c type).
  destruct (_save_messages_memory (write e)
    (set_messages
        (truncated (_max_messages st) (_messages st ++ [new_message e u c type]))
        (set_online_users (<[u := time_first e]> (_online_users st)) st)))
    as (-> & -> & _).
  simpl. repeat split.
  intros Hmax. by apply truncated_last.
Qed.

Lemma send_message_no_trimming_witness :
  (" "%string <> EmptyString) /\ ("   "%string <> EmptyString) /\
  exists m,
    msg_username m = " "%string /\ msg_content m = "   "%string /\
    snd (ChatCenter.send_message example_env (Some " "%string) (Some "   "%string) None
           example_state)
    = Response 0 "发送成功" (Some (Created m)) /\
    _online_users (fst (ChatCenter.send_message example_env (Some " "%string)
                          (Some "   "%string) None example_state))
    = <[" "%string := time_first example_env]> (_online_users example_state).
Proof.
  split; [discriminate | split; [discriminate |]].
  destruct (send_message_no_trimming example_env " " "   " None example_state)
    as (m & H1 & H2 & H3 & _ & _ & H6); [discriminate | discriminate |].
  exists m. auto.
Defined.

(** ** The [type] field *)

(** C9, as stated, fails: [send_message] stores the [type] argument without
    checking it. A request with type "image" is accepted and the stored
    message has a type that is neither "text" nor "system". *)
Lemma send_message_type_unchecked :
  exists m,
    m ∈ _messages (fst (ChatCenter.send_message example_env (Some "alice"%string)
                          (Some "hi"%string) (Some "image"%string) example_state)) /\
    ~ valid_type (msg_type m).
Proof.
  exists (new_message example_env "alice" "hi" (Some "image"%string)). split.
  - vm_compute. apply list_elem_of_here.
  - intros [H|H]; discriminate H.
Qed.

(** C9, amended. The message created by an accepted [send_message] has the
    [type] argument as given, and "text" when the argument is left out; no
    check against the two tags is made. So the messages of the list all
    have type "text" or "system" after the call when they had before it and
    the argument, if given, is one of the two. *)
Theorem send_message_type (e : env) (u c : string) (type : option string) (st : state) :
  u <> EmptyString -> c <> EmptyString ->
  let st' := fst (ChatCenter.send_message e (Some u) (Some c) type st) in
  let r := snd (ChatCenter.send_message e (Some u) (Some c) type st) in
  exists m,
    data r = Some (Created m) /\
    (forall t, type = Some t -> msg_type m = t) /\
    (type = None -> msg_type m = "text"%string) /\
    (Forall (fun m' => valid_type (msg_type m')) (_messages st) ->
     valid_type (msg_type m) ->
     Forall (fun m' => valid_type (msg_type m')) (_messages st')).
Proof.
  intros Hu Hc. rewrite send_message_accepted by done. simpl.
  exists (new_message e u c type).
  rewrite (proj1 (_save_messages_memory _ _)). simpl.
  repeat split.
  - by intros t ->.
  - by intros ->.
  - intros Hall Hm. apply Forall_truncated, Forall_app. split; [done|].
    by apply Forall_singleton.
Qed.

Lemma send_message_type_witness :
  ("alice"%string <> EmptyString) /\ ("hi"%string <> EmptyString) /\
  exists m,
    data (snd (ChatCenter.send_message example_env (Some "alice"%string)
                 (Some "hi"%string) None example_state)) = Some (Created m) /\
    msg_type m = "text"%string.
Proof.
  split; [discriminate | split; [discriminate |]].
  destruct (send_message_type example_env "alice" "hi" None example_state)
    as (m & H1 & _ & H3 & _); [discriminate | discriminate |].
  exists m. split; [exact H1 | exact (H3 eq_refl)].
Defined.

(** ** Persistence failures *)



(** ** Clearing the log *)

(** C7, as stated, fails: the save inside [clear_messages] can fail, and the
    failure is swallowed. When opening the file for writing fails, the file
    keeps the old messages, and a reload brings them back although the call
    answered code 0. *)
Lemma clear_messages_not_persisted :
  code (snd (ChatCenter.clear_messages failing_env stale_state)) = 0 /\
  _messages (ChatCenter._load_messages
               (fst (ChatCenter.clear_messages failing_env stale_state)))
  = [example_message].
Proof. split; vm_compute; reflexivity. Qed.

(** C7, amended. For every state [clear_messages] answers code 0, the
    message list is empty afterwards (so [get_messages] returns an empty
    sequence), and the presence map is unchanged; when the write of the
    backing file succeeds, the file holds the empty list and a reload from
    it yields an empty list as well. *)
Theorem clear_messages_spec (e : env) (st : state) :
  let st' := fst (ChatCenter.clear_messages e st) in
  let r := snd (ChatCenter.clear_messages e st) in
  code r = 0 /\
  _messages st' = [] /\
  data (snd (ChatCenter.get_messages st')) = Some (Messages []) /\
  _online_users st' = _online_users st /\
  (write e = Written ->
     files st' !! _chat_data_path st' = Some (Json.dump []) /\
     _messages (ChatCenter._load_messages st') = []).
Proof.
  unfold ChatCenter.clear_messages. simpl.
  destruct (_save_messages_memory (write e) (set_messages [] st))
    as (Hm & Hu & _ & _ & Hp).
  unfold ChatCenter.get_messages. simpl. rewrite Hm, Hu. simpl.
  do 4 (split; [reflexivity|]). intros Hw. rewrite Hw. split.
  - simpl. apply lookup_insert_eq.
  - unfold ChatCenter._load_messages. simpl.
    rewrite lookup_insert_eq. reflexivity.
Qed.

Lemma clear_messages_spec_witness :
  write example_env = Written /\
  _messages (ChatCenter._load_messages
               (fst (ChatCenter.clear_messages example_env stale_state))) = [].
Proof.
  split; [reflexivity|].
  apply (proj2 (proj2 (proj2 (proj2
           (clear_messages_spec example_env stale_state)))) eq_refl).
Defined.

(** ** Presence *)

(** The test grows with the clock: rounding is monotone. *)
Lemma expired_mono (now1 now2 last_active : Q) (timeout : Z) :
  (now1 <= now2)%Q ->
  expired now1 last_active timeout = true -> expired now2 last_active timeout = true.
Proof.
  unfold expired, Float.sub. intros Hle.
  apply FloatFacts.gt_int_mono, FloatFacts.round_mono.
  unfold Qminus. by apply Qplus_le_l.
Qed.

(** The difference of a reading with itself is zero. *)
Lemma expired_same (t : Q) (timeout : Z) :
  expired t t timeout = negb (0 <=? timeout).
Proof.
  unfold expired, Float.sub.
  assert (H0 : Qnum (t - t) = 0) by (destruct t as [n d]; simpl; ring).
  assert (Hr : Qnum (Float.round (t - t)) = 0).
  { unfold Float.round. rewrite H0. reflexivity. }
  unfold Float.gt_int, Qle_bool. rewrite Hr. cbn [Qnum Qden inject_Z].
  generalize (Qden (Float.round (t - t))). intros p.
  change (0 * 1) with 0.
  assert (Hpow : 0 < 2 ^ 1024) by reflexivity.
  destruct (Z.leb_spec (2 ^ 1024 * Z.pos p) 0); [nia|].
  destruct (Z.leb_spec 0 (- 2 ^ 1024 * Z.pos p)); [nia|].
  f_equal.
  destruct (Z.leb_spec 0 timeout), (Z.leb_spec 0 (timeout * Z.pos p)); try done; nia.
Qed.

(** Where the exact difference of the readings decides the test. *)
Lemma expired_exact (now last_active : Q) (timeout : Z) :
  Z.abs timeout < 2 ^ 53 ->
  ((now - last_active <= inject_Z timeout)%Q ->
   expired now last_active timeout = false) /\
  ((inject_Z (timeout + 1) <= now - last_active)%Q ->
   expired now last_active timeout = true).
Proof.
  intros Ht. unfold expired, Float.sub.
  assert (H53 : 2 ^ 53 < 2 ^ 1024) by reflexivity.
  split; intros Hd.
  - apply FloatFacts.gt_int_le; [|lia].
    rewrite <- (FloatFacts.round_integer timeout) by lia.
    by apply FloatFacts.round_mono.
  - apply FloatFacts.gt_int_ge; [|lia].
    rewrite <- (FloatFacts.round_integer (timeout + 1)) by lia.
    by apply FloatFacts.round_mono.
Qed.

Lemma pop_all_lookup (ks : list string) (users : gmap string Q) (u : string) :
  foldl (fun users username => delete username users) users ks !! u
  = if decide (u ∈ ks) then None else users !! u.
Proof.
  revert users. induction ks as [|k ks IH]; intros users; simpl.
  - done.
  - rewrite IH. destruct (decide (u ∈ k :: ks)) as [Hin|Hnin].
    + apply elem_of_cons in Hin as [->|Hin].
      * destruct (decide (k ∈ ks)); [done | apply lookup_delete_eq].
      * by rewrite decide_True.
    + apply not_elem_of_cons in Hnin as [Hne Hnin].
      rewrite decide_False by done. apply lookup_delete_ne. congruence.
Qed.

Lemma offline_users_elem (now : Q) (timeout : Z) (users : gmap string Q) (u : string) :
  u ∈ List.map fst
        (List.filter (fun kv => expired now (snd kv) timeout) (map_to_list users))
  <-> exists la, users !! u = Some la /\ expired now la timeout = true.
Proof.
  rewrite list_elem_of_In, in_map_iff. split.
  - intros ([k la] & Hk & Hin). simpl in Hk. subst k.
    apply filter_In in Hin as [Hin Hexp]. simpl in Hexp.
    apply list_elem_of_In, elem_of_map_to_list in Hin. eauto.
  - intros (la & Hl & Hexp). exists (u, la). split; [done|].
    apply filter_In. split; [|done].
    by apply list_elem_of_In, elem_of_map_to_list.
Qed.

Lemma _clean_offline_users_lookup (now : Q) (st : state) (u : string) :
  _online_users (ChatCenter._clean_offline_users now st) !! u
  = match _online_users st !! u with
    | Some la => if expired now la (_online_timeout st) then None else Some la
    | None => None
    end.
Proof.
  unfold ChatCenter._clean_offline_users. simpl. rewrite pop_all_lookup.
  case_decide as Hin.
  - apply offline_users_elem in Hin as (la & -> & ->). done.
  - destruct (_online_users st !! u) as [la|] eqn:E; [|done].
    destruct (expired now la (_online_timeout st)) eqn:Hexp; [|done].
    exfalso. apply Hin, offline_users_elem. eauto.
Qed.

Lemma keys_elem (users : gmap string Q) (u : string) :
  u ∈ List.map fst (map_to_list users) <-> is_Some (users !! u).
Proof.
  rewrite list_elem_of_In, in_map_iff. split.
  - intros ([k la] & Hk & Hin). simpl in Hk. subst k.
    apply list_elem_of_In, elem_of_map_to_list in Hin. eauto.
  - intros [la Hl]. exists (u, la). split; [done|].
    by apply list_elem_of_In, elem_of_map_to_list.
Qed.

Lemma online_iff (e : env) (st : state) (u : string) :
  u ∈ usernames_of (snd (ChatCenter.get_online_users e st)) <->
  exists la, _online_users st !! u = Some la /\
             expired (time_first e) la (_online_timeout st) = false.
Proof.
  unfold ChatCenter.get_online_users, usernames_of.
  cbn [snd data]. rewrite keys_elem, _clean_offline_users_lookup.
  destruct (_online_users st !! u) as [la|] eqn:E.
  - destruct (expired (time_first e) la (_online_timeout st)) eqn:Hexp.
    + split; [intros [? ?]; done|]. intros (la' & [= <-] & Hle). congruence.
    + split; [|eauto]. intros _. by exists la.
  - split; [intros [? ?]; done|]. intros (la' & ? & _). done.
Qed.

Lemma online_after_heartbeat (e e0 : env) (st : state) (u : string) :
  u <> EmptyString ->
  u ∈ usernames_of (snd (ChatCenter.get_online_users e
                           (fst (ChatCenter.user_heartbeat e0 (Some u) st)))) <->
  expired (time_first e) (time_first e0) (_online_timeout st) = false.
Proof.
  intros Hu. rewrite online_iff.
  unfold ChatCenter.user_heartbeat, ChatCenter._update_user_online.
  assert (Hn : py_not (Some u) = false) by (apply py_not_false; eauto).
  rewrite Hn. simpl. rewrite lookup_insert_eq. split.
  - by intros (la & [= <-] & Hle).
  - eauto.
Qed.

(** C3, as stated, fails, in two ways. [online_timeout] can be configured
    to any integer, and with -1 a heartbeat followed immediately by the
    listing, at the same clock reading, does not include the user: the age 0
    exceeds -1, so the entry that the heartbeat has just written is removed.
    And the age is a float difference: after a heartbeat at the float 0.1,
    the listing at the float 300.1 under the default timeout of 300 still
    includes the user, although more than 300 seconds lie between the two
    readings, because the difference rounds to 300. *)
Lemma listing_not_as_claimed :
  (let st := state_of (ChatCenter.init_plugin example_host (Some negative_timeout_config)
                                              example_state) in
   let st1 := fst (ChatCenter.user_heartbeat example_env (Some "alice"%string) st) in
   _online_timeout st = -1 /\
   code (snd (ChatCenter.user_heartbeat example_env (Some "alice"%string) st)) = 0 /\
   "alice"%string ∉ usernames_of (snd (ChatCenter.get_online_users example_env st1))) /\
  (let e0 := env_at (Float.round (1 # 10)) in
   let e1 := env_at (Float.round (3001 # 10)) in
   let st1 := fst (ChatCenter.user_heartbeat e0 (Some "alice"%string) example_state) in
   (inject_Z (_online_timeout example_state) < time_first e1 - time_first e0)%Q /\
   "alice"%string ∈ usernames_of (snd (ChatCenter.get_online_users e1 st1))).
Proof.
  cbv zeta. split.
  - split; [vm_compute; reflexivity|]. split; [vm_compute; reflexivity|].
    rewrite online_after_heartbeat by discriminate.
    vm_compute. discriminate.
  - split; [vm_compute; reflexivity|].
    rewrite online_after_heartbeat by discriminate.
    vm_compute. reflexivity.
Qed.

(** C3, amended. [get_online_users] first removes from the presence map
    every entry whose age exceeds [online_timeout], keeps the others as they
    are, and answers with exactly the usernames of the remaining entries,
    each once; the age is the float difference [now - last_active] as the
    code computes it. Hence a username is in the answer iff it has an entry
    whose age, so computed, is at most [online_timeout]. After a heartbeat
    of [u] at time [t0], the list asked at time [now] contains [u] iff the
    float difference [now - t0] is at most [online_timeout]: right after
    the heartbeat, at the same clock reading, it does iff [online_timeout]
    is not negative; and for a timeout below [2^53] in absolute value it
    does when the exact difference of the readings is at most
    [online_timeout], and does not when that difference is at least
    [online_timeout + 1] (in between, the rounding of the difference
    decides). *)
Theorem get_online_users_spec (e : env) (st : state) :
  let now := time_first e in
  let st' := fst (ChatCenter.get_online_users e st) in
  let r := snd (ChatCenter.get_online_users e st) in
  (forall u,
     _online_users st' !! u
     = match _online_users st !! u with
       | Some la =>
           if Float.gt_int (Float.sub now la) (_online_timeout st) then None
           else Some la
       | None => None
       end) /\
  (exists us,
     r = Response 0 "操作成功" (Some (Usernames us)) /\
     NoDup us /\
     (forall u, u ∈ us <-> is_Some (_online_users st' !! u)) /\
     (forall u, u ∈ us <->
        exists la, _online_users st !! u = Some la /\
                   Float.gt_int (Float.sub now la) (_online_timeout st) = false)) /\
  (forall e0 u, u <> EmptyString ->
     let st1 := fst (ChatCenter.user_heartbeat e0 (Some u) st) in
     let listed := u ∈ usernames_of (snd (ChatCenter.get_online_users e st1)) in
     (listed <->
      Float.gt_int (Float.sub now (time_first e0)) (_online_timeout st) = false) /\
     (Z.abs (_online_timeout st) < 2 ^ 53 ->
      ((now - time_first e0 <= inject_Z (_online_timeout st))%Q -> listed) /\
      ((inject_Z (_online_timeout st + 1) <= now - time_first e0)%Q -> ~ listed))) /\
  (forall u, u <> EmptyString ->
     let st1 := fst (ChatCenter.user_heartbeat e (Some u) st) in
     u ∈ usernames_of (snd (ChatCenter.get_online_users e st1)) <->
     0 <= _online_timeout st).
Proof.
  cbv zeta. split; [|split; [|split]].
  - intros u. apply _clean_offline_users_lookup.
  - eexists. split; [reflexivity|]. split; [|split].
    + apply NoDup_fst_map_to_list.
    + intros u. apply keys_elem.
    + intros u. apply (online_iff e st u).
  - intros e0 u Hu. split; [by apply online_after_heartbeat|].
    intros Ht. destruct (expired_exact (time_first e) (time_first e0) _ Ht) as [Hle Hge].
    split.
    + intros Hd. apply online_after_heartbeat; auto.
    + intros Hd Hin. apply online_after_heartbeat in Hin; [|done].
      rewrite (Hge Hd) in Hin. discriminate.
  - intros u Hu. rewrite online_after_heartbeat, expired_same by done.
    rewrite negb_false_iff. apply Z.leb_le.
Qed.

Lemma get_online_users_spec_witness :
  ("alice"%string <> EmptyString) /\
  0 <= _online_timeout example_state /\
  "alice"%string ∈
    usernames_of (snd (ChatCenter.get_online_users example_env
       (fst (ChatCenter.user_heartbeat example_env (Some "alice"%string) example_state)))).
Proof.
  assert (H : 0 <= _online_timeout example_state) by (simpl; lia).
  split; [discriminate | split; [exact H |]].
  apply (proj2 (proj2 (proj2 (proj2 (get_online_users_spec example_env example_state)))
                  "alice"%string ltac:(discriminate)) H).
Defined.

(** Near the bound the rounding decides: a user last active at the float
    0.1 is still listed at the float 300.1 under a timeout of 300, because
    the float difference is 300, although the exact difference of the two
    floats is larger. *)
Example rounding_keeps_user :
  let t0 := Float.round (1 # 10) in
  let now := Float.round (3001 # 10) in
  (inject_Z 300 < now - t0)%Q /\ expired now t0 300 = false.
Proof. vm_compute. split; reflexivity. Qed.

(** ** The bound of the message log *)

Lemma length_lastn {A} (n : nat) (l : list A) : (length (lastn n l) <= n)%nat.
Proof. unfold lastn. rewrite length_drop. lia. Qed.

Lemma lastn_app_lastn {A} (n : nat) (l k : list A) :
  lastn n (lastn n l ++ k) = lastn n (l ++ k).
Proof.
  unfold lastn. rewrite !length_app, length_drop, !drop_app, drop_drop, length_drop.
  replace (length l - n + (length l - (length l - n) + length k - n))%nat
    with (length l + length k - n)%nat by lia.
  replace (length l - (length l - n) + length k - n - (length l - (length l - n)))%nat
    with (length l + length k - n - length l)%nat by lia.
  done.
Qed.

Lemma lastn_app_ge {A} (n : nat) (l k : list A) :
  (n <= length k)%nat -> lastn n (l ++ k) = lastn n k.
Proof.
  intros H. unfold lastn. rewrite length_app, drop_app.
  rewrite drop_ge by lia. simpl.
  replace (length l + length k - n - length l)%nat with (length k - n)%nat by lia.
  done.
Qed.

Lemma send_message_code_0 (e : env) (username content type : option string) (st : state) :
  code (snd (ChatCenter.send_message e username content type st)) = 0 ->
  exists u c, username = Some u /\ content = Some c /\
              u <> EmptyString /\ c <> EmptyString.
Proof.
  unfold ChatCenter.send_message.
  destruct (py_not username) eqn:Hu; [simpl; discriminate|].
  destruct (py_not content) eqn:Hc; [simpl; discriminate|].
  intros _. apply py_not_false in Hu as (u & -> & Hu).
  apply py_not_false in Hc as (c & -> & Hc). eauto 10.
Qed.

Lemma final_cons (st : state) (sr : state * response) (trace : list (state * response)) :
  final st (sr :: trace) = final (fst sr) trace.
Proof.
  unfold final. destruct trace as [|sr' trace]; [done|].
  rewrite last_cons_cons. destruct (last (sr' :: trace)) eqn:E; [done|].
  by apply last_None in E.
Qed.

Lemma created_cons (sr : state * response) (trace : list (state * response))
    (m : message) :
  data (snd sr) = Some (Created m) -> created (sr :: trace) = m :: created trace.
Proof. intros H. unfold created. simpl. by rewrite H. Qed.

(** One accepted call from a state whose list is the last [max] elements of
    [l]: the list becomes the last [max] elements of [l] with the new
    message appended. *)
Lemma send_message_lastn (e : env) (username content type : option string)
    (st : state) (l : list message) :
  1 <= _max_messages st ->
  code (snd (ChatCenter.send_message e username content type st)) = 0 ->
  exists m,
    data (snd (ChatCenter.send_message e username content type st)) = Some (Created m) /\
    _max_messages (fst (ChatCenter.send_message e username content type st))
    = _max_messages st /\
    (_messages (fst (ChatCenter.send_message e username content type st))
     = lastn (Z.to_nat (_max_messages st)) (_messages st ++ [m])) /\
    (_messages st = lastn (Z.to_nat (_max_messages st)) l ->
     _messages (fst (ChatCenter.send_message e username content type st))
     = lastn (Z.to_nat (_max_messages st)) (l ++ [m])).
Proof.
  intros Hmax Hok.
  apply send_message_code_0 in Hok as (u & c & -> & -> & Hu & Hc).
  rewrite send_message_accepted by done. cbn [fst snd data].
  exists (new_message e u c type).
  destruct (_save_messages_memory (write e)
    (set_messages
        (truncated (_max_messages st) (_messages st ++ [new_message e u c type]))
        (set_online_users (<[u := time_first e]> (_online_users st)) st)))
    as (-> & _ & -> & _). cbn [_messages _max_messages set_messages set_online_users].
  rewrite truncated_lastn by done.
  repeat split. intros ->. apply lastn_app_lastn.
Qed.

Lemma run_from_bounded (calls : list call) (st : state) (l : list message) :
  1 <= _max_messages st ->
  _messages st = lastn (Z.to_nat (_max_messages st)) l ->
  successful (run calls st) ->
  _messages (final st (run calls st))
  = lastn (Z.to_nat (_max_messages st)) (l ++ created (run calls st)) /\
  length (created (run calls st)) = length calls /\
  Forall (fun sr => Z.of_nat (length (_messages (fst sr))) <= _max_messages st)
         (run calls st).
Proof.
  revert st l. induction calls as [|[e username content type] calls IH];
    intros st l Hmax Hl Hok.
  - simpl. unfold final. simpl. rewrite app_nil_r. auto.
  - cbn [run call_env call_username call_content call_type length] in *.
    apply Forall_cons in Hok as [Hok1 Hok].
    destruct (send_message_lastn e username content type st l Hmax Hok1)
      as (m & Hd & Hmax' & _ & Hm). specialize (Hm Hl).
    set (sr := ChatCenter.send_message e username content type st) in *.
    destruct (IH (fst sr) (l ++ [m])) as (IH1 & IH2 & IH3);
      [by rewrite Hmax' | by rewrite Hmax' | done |].
    rewrite Hmax' in IH1, IH3.
    rewrite final_cons, (created_cons sr _ m Hd).
    split; [|split].
    + rewrite IH1. by rewrite <- app_assoc.
    + simpl. by rewrite IH2.
    + constructor; [|done]. rewrite Hm.
      pose proof (length_lastn (Z.to_nat (_max_messages st)) (l ++ [m])). lia.
Qed.

(** C1, as stated, fails: [max_messages] can be configured to any integer,
    and with -1 the list is not bounded by it. One accepted call makes the
    slice [l[1:]] of the one-element list, the empty list, whose length 0
    exceeds -1. *)
Lemma bound_fails_for_negative_maximum :
  let st := state_with_max (-1) in
  let calls := [Call example_env (Some "alice"%string) (Some "hi"%string) None] in
  successful (run calls st) /\
  _max_messages st < Z.of_nat (length calls) /\
  _max_messages st < Z.of_nat (length (_messages (final st (run calls st)))).
Proof.
  cbv zeta. split; [|split].
  - repeat constructor.
  - vm_compute. reflexivity.
  - vm_compute. reflexivity.
Qed.

(** With a maximum of 0 the slice [l[-0:]] is the whole list, so nothing is
    dropped: the three messages are all kept. *)
Example zero_maximum_keeps_all :
  List.map msg_content (_messages (final (state_with_max 0) (run abc_calls (state_with_max 0))))
  = ["a"; "b"; "c"]%string.
Proof. vm_compute. reflexivity. Qed.

(** C1, amended. For every configured [max_messages] of at least 1 and every
    sequence of accepted (code 0) [send_message] calls, from any state: after
    each call the message list has at most [max_messages] elements; and when
    the calls are more than [max_messages], [get_messages] afterwards returns
    exactly the last [max_messages] of the messages the calls created, in
    the order of the calls. *)
Theorem message_log_bounded (st : state) (calls : list call) :
  1 <= _max_messages st ->
  successful (run calls st) ->
  Forall (fun sr => Z.of_nat (length (_messages (fst sr))) <= _max_messages st)
         (run calls st) /\
  (_max_messages st < Z.of_nat (length calls) ->
   length (created (run calls st)) = length calls /\
   snd (ChatCenter.get_messages (final st (run calls st)))
   = Response 0 "操作成功"
       (Some (Messages (lastn (Z.to_nat (_max_messages st)) (created (run calls st)))))).
Proof.
  intros Hmax Hok. destruct calls as [|[e username content type] calls].
  - split; [constructor|]. simpl. lia.
  - cbn [run call_env call_username call_content call_type length] in *.
    apply Forall_cons in Hok as [Hok1 Hok].
    destruct (send_message_lastn e username content type st [] Hmax Hok1)
      as (m & Hd & Hmax' & Hm & _).
    set (sr := ChatCenter.send_message e username content type st) in *.
    destruct (run_from_bounded calls (fst sr) (_messages st ++ [m]))
      as (H1 & H2 & H3); [by rewrite Hmax' | by rewrite Hmax' | done |].
    rewrite Hmax' in H1, H3.
    assert (Hlen : length (created (sr :: run calls (fst sr))) = S (length calls)).
    { rewrite (created_cons sr _ m Hd). simpl. by rewrite H2. }
    split.
    + constructor; [|done]. rewrite Hm.
      pose proof (length_lastn (Z.to_nat (_max_messages st)) (_messages st ++ [m])).
      lia.
    + intros HN. split; [done|].
      unfold ChatCenter.get_messages. cbn [snd]. do 3 f_equal.
      rewrite final_cons, H1, <- app_assoc.
      change ([m] ++ created (run calls (fst sr)))
        with (m :: created (run calls (fst sr))).
      rewrite <- (created_cons sr _ m Hd).
      apply lastn_app_ge. rewrite Hlen. lia.
Qed.

Lemma message_log_bounded_witness :
  1 <= _max_messages (state_with_max 2) /\
  successful (run abc_calls (state_with_max 2)) /\
  _max_messages (state_with_max 2) < Z.of_nat (length abc_calls) /\
  snd (ChatCenter.get_messages
         (final (state_with_max 2) (run abc_calls (state_with_max 2))))
  = Response 0 "操作成功"
      (Some (Messages (lastn (Z.to_nat (_max_messages (state_with_max 2)))
                             (created (run abc_calls (state_with_max 2)))))).
Proof.
  assert (H1 : 1 <= _max_messages (state_with_max 2)) by (simpl; lia).
  assert (H2 : successful (run abc_calls (state_with_max 2)))
    by (repeat constructor).
  assert (H3 : _max_messages (state_with_max 2) < Z.of_nat (length abc_calls))
    by (simpl; lia).
  split; [exact H1 | split; [exact H2 | split; [exact H3 |]]].
  apply (proj2 (message_log_bounded (state_with_max 2) abc_calls H1 H2) H3).
Defined.

(** ** The two plugin classes *)

Lemma backing_file_saved (w : write_outcome) (st : state) :
  backing_file (ChatCenter._save_messages w st)
  = match w with
    | Written => Some (Json.dump (_messages st))
    | WriteFailed remains | CloseFailed remains => remains
    end.
Proof.
  unfold backing_file.
  destruct w as [|[t'|]|[t'|]]; simpl;
    first [apply lookup_insert_eq | apply lookup_delete_eq].
Qed.

Lemma backing_file_saved_enhanced (w : write_outcome) (st : state) :
  backing_file (ChatroomEnhanced._save_messages w st)
  = match w with
    | Written => Some (Json.dump (_messages st))
    | WriteFailed remains | CloseFailed remains => remains
    end.
Proof.
  unfold backing_file.
  destruct w as [|[t'|]|[t'|]]; simpl;
    first [apply lookup_insert_eq | apply lookup_delete_eq].
Qed.

Lemma _save_messages_equivalent (w : write_outcome) (st1 st2 : state) :
  same_chat st1 st2 ->
  same_chat (ChatCenter._save_messages w st1) (ChatroomEnhanced._save_messages w st2) /\
  backing_file (ChatCenter._save_messages w st1)
  = backing_file (ChatroomEnhanced._save_messages w st2).
Proof.
  intros (Hm & Hu & Hx & Ht). split.
  - unfold same_chat. destruct w; simpl; auto.
  - rewrite backing_file_saved, backing_file_saved_enhanced. by rewrite Hm.
Qed.

Lemma _update_user_online_equivalent (now : Q) (username : option string)
    (st1 st2 : state) :
  same_chat st1 st2 ->
  same_chat (ChatCenter._update_user_online now username st1)
            (ChatroomEnhanced._update_user_online now username st2) /\
  backing_file (ChatCenter._update_user_online now username st1) = backing_file st1 /\
  backing_file (ChatroomEnhanced._update_user_online now username st2) = backing_file st2.
Proof.
  intros (Hm & Hu & Hx & Ht).
  unfold ChatCenter._update_user_online, ChatroomEnhanced._update_user_online,
    same_chat, backing_file.
  destruct (py_not username); simpl; rewrite ?Hu; auto.
Qed.

(** C5, as stated, fails: the classes differ in more than probing, logging
    and metadata. When the data directory cannot be created, [init_plugin]
    of [ChatCenter] is left by the exception, while [init_plugin] of
    [ChatroomEnhanced], whose body is inside a [try], returns; the two
    instances held the same chat. (The loaders differ as well, on a
    backing file whose JSON document has no length: see
    [ChatroomEnhanced._load_messages].) *)
Lemma classes_differ_at_start_up :
  same_chat example_state enhanced_state /\
  (exists st, ChatCenter.init_plugin read_only_host None example_state = Raised st) /\
  (exists st, ChatroomEnhanced.init_plugin read_only_host None enhanced_state
              = Returned st).
Proof.
  split; [repeat split|]. split; eexists; reflexivity.
Qed.

(** C5, amended. On the five operations the two classes implement the same
    Chat Store: from states that hold the same chat, every operation with
    the same input and the same answers of the environment gives the same
    response envelope and again states that hold the same chat (message
    list, presence map and bounds); and the backing files, each at its own
    path, have the same content after an operation when they had before it.
    (Besides probing, logging and the name of the data file, the classes
    differ in how start-up handles failures.) *)
Theorem classes_equivalent (e : env) (r : request) (st1 st2 : state) :
  same_chat st1 st2 ->
  snd (ChatCenter.handle e r st1) = snd (ChatroomEnhanced.handle e r st2) /\
  same_chat (fst (ChatCenter.handle e r st1)) (fst (ChatroomEnhanced.handle e r st2)) /\
  (backing_file st1 = backing_file st2 ->
   backing_file (fst (ChatCenter.handle e r st1))
   = backing_file (fst (ChatroomEnhanced.handle e r st2))).
Proof.
  intros Hsame. split; [|split].
  - destruct Hsame as (Hm & Hu & Hx & Ht). destruct r as [|u c ty| |u|]; simpl.
    + unfold ChatCenter.get_messages, ChatroomEnhanced.get_messages. simpl.
      by rewrite Hm.
    + unfold ChatCenter.send_message, ChatroomEnhanced.send_message.
      destruct (py_not u || py_not c); reflexivity.
    + unfold ChatCenter.get_online_users, ChatroomEnhanced.get_online_users,
        ChatCenter._clean_offline_users, ChatroomEnhanced._clean_offline_users.
      simpl. by rewrite Hu, Ht.
    + unfold ChatCenter.user_heartbeat, ChatroomEnhanced.user_heartbeat.
      destruct (py_not u); reflexivity.
    + reflexivity.
  - destruct r as [|u c ty| |u|]; simpl.
    + done.
    + unfold ChatCenter.send_message, ChatroomEnhanced.send_message.
      destruct (py_not u || py_not c); [done|]. cbn [fst].
      apply _save_messages_equivalent.
      destruct (_update_user_online_equivalent (time_first e) u st1 st2 Hsame)
        as ((Hm & Hu & Hx & Ht) & _).
      unfold same_chat. simpl. rewrite Hm, Hx.
      destruct (_ >? _); simpl; rewrite ?Hm, ?Hx; auto.
    + destruct Hsame as (Hm & Hu & Hx & Ht).
      unfold ChatCenter.get_online_users, ChatroomEnhanced.get_online_users,
        ChatCenter._clean_offline_users, ChatroomEnhanced._clean_offline_users,
        same_chat. simpl. by rewrite Hu, Ht.
    + unfold ChatCenter.user_heartbeat, ChatroomEnhanced.user_heartbeat.
      destruct (py_not u) eqn:E; [done|]. cbn [fst].
      apply _update_user_online_equivalent, Hsame.
    + unfold ChatCenter.clear_messages, ChatroomEnhanced.clear_messages. cbn [fst].
      apply _save_messages_equivalent.
      destruct Hsame as (Hm & Hu & Hx & Ht). unfold same_chat. simpl. auto.
  - intros Hf. destruct r as [|u c ty| |u|]; simpl.
    + done.
    + unfold ChatCenter.send_message, ChatroomEnhanced.send_message.
      destruct (py_not u || py_not c); [done|]. cbn [fst].
      apply _save_messages_equivalent.
      destruct (_update_user_online_equivalent (time_first e) u st1 st2 Hsame)
        as ((Hm & Hu & Hx & Ht) & _).
      unfold same_chat. simpl. rewrite Hm, Hx.
      destruct (_ >? _); simpl; rewrite ?Hm, ?Hx; auto.
    + done.
    + unfold ChatCenter.user_heartbeat, ChatroomEnhanced.user_heartbeat.
      destruct (py_not u) eqn:E; [done|]. cbn [fst].
      destruct (_update_user_online_equivalent (time_first e) u st1 st2 Hsame)
        as (_ & -> & ->). done.
    + unfold ChatCenter.clear_messages, ChatroomEnhanced.clear_messages. cbn [fst].
      apply _save_messages_equivalent.
      destruct Hsame as (Hm & Hu & Hx & Ht). unfold same_chat. simpl. auto.
Qed.

Lemma classes_equivalent_witness :
  same_chat example_state enhanced_state /\
  snd (ChatCenter.handle example_env
         (PostMessage (Some "alice"%string) (Some "hi"%string) None) example_state)
  = snd (ChatroomEnhanced.handle example_env
           (PostMessage (Some "alice"%string) (Some "hi"%string) None) enhanced_state).
Proof.
  assert (H : same_chat example_state enhanced_state) by (repeat split).
  split; [exact H|].
  apply (proj1 (classes_equivalent example_env
                  (PostMessage (Some "alice"%string) (Some "hi"%string) None)
                  example_state enhanced_state H)).
Defined.

(** What the classes differ in: the log and the name of the data file. *)
Example classes_differ_in_log :
  log (fst (ChatCenter.handle example_env ClearMessages example_state))
  <> log (fst (ChatroomEnhanced.handle example_env ClearMessages enhanced_state)).
Proof. vm_compute. discriminate. Qed.

Example classes_differ_in_file_name :
  ChatCenter.data_file_name <> ChatroomEnhanced.data_file_name.
Proof. discriminate. Qed.

(** ** Round trip through the backing file *)

Module JsonFacts.
Import Json.
Local Open Scope char_scope.

(** Reading back one escaped character. *)
Lemma parse_chars_escape_char (c : ascii) (fuel : nat) (r : text) :
  parse_chars (S fuel) (escape_char c ++ r)
  = match parse_chars fuel r with
    | Some (str, rest) => Some (String c str, rest)
    | None => None
    end.
Proof.
  destruct c as [[] [] [] [] [] [] [] []]; reflexivity.
Qed.

Lemma length_escape_char (c : ascii) : (1 <= length (escape_char c))%nat.
Proof.
  destruct c as [[] [] [] [] [] [] [] []]; vm_compute; lia.
Qed.

Lemma parse_chars_escape (s : string) (fuel : nat) (rest : text) :
  (length (escape s) < fuel)%nat ->
  parse_chars fuel (escape s ++ "034" :: rest) = Some (s, rest).
Proof.
  revert fuel. induction s as [|c s IH]; intros fuel Hfuel.
  - destruct fuel as [|fuel]; [simpl in Hfuel; lia|]. reflexivity.
  - destruct fuel as [|fuel]; [lia|].
    cbn [escape]. rewrite <- app_assoc, parse_chars_escape_char.
    rewrite IH; [done|].
    cbn [escape] in Hfuel. rewrite length_app in Hfuel.
    pose proof (length_escape_char c). lia.
Qed.

(** Reading back an integer. *)
Lemma parse_digits_uint (u : Decimal.uint) (c : ascii) (r : text) :
  digit_of c = None ->
  parse_digits (list_ascii_of_string (NilEmpty.string_of_uint u) ++ c :: r)
  = (u, c :: r).
Proof.
  intros Hc. induction u; simpl; rewrite ?IHu, ?Hc; reflexivity.
Qed.

Lemma nzhead_not_D0 (d d' : Decimal.uint) : Decimal.nzhead d <> Decimal.D0 d'.
Proof. induction d; simpl; try discriminate. exact IHd. Qed.

Lemma unorm_D0_inv (d d' : Decimal.uint) :
  Decimal.unorm d = Decimal.D0 d' -> d' = Decimal.Nil.
Proof.
  unfold Decimal.unorm. pose proof (nzhead_not_D0 d) as H.
  destruct (Decimal.nzhead d); intros E; try discriminate E.
  - by injection E as <-.
  - by destruct (H d').
Qed.

Lemma to_uint_canonical (p : positive) : canonical (Pos.to_uint p).
Proof.
  pose proof (DecimalPos.Unsigned.to_of (Pos.to_uint p)) as H.
  rewrite DecimalPos.Unsigned.of_to in H. simpl in H.
  pose proof (DecimalPos.Unsigned.to_uint_nonnil p) as Hnil.
  pose proof (DecimalPos.Unsigned.to_uint_nonzero p) as Hzero.
  destruct (Pos.to_uint p) as [|d| | | | | | | | |]; simpl; try done.
  symmetry in H. apply unorm_D0_inv in H. subst d. done.
Qed.

Lemma parse_nat_uint (u : Decimal.uint) (c : ascii) (r : text) :
  canonical u -> digit_of c = None -> float_continues (c :: r) = false ->
  parse_nat (list_ascii_of_string (NilEmpty.string_of_uint u) ++ c :: r)
  = Some (u, c :: r).
Proof.
  intros Hu Hc Hf. unfold parse_nat. rewrite parse_digits_uint by done.
  rewrite Hf. destruct u as [|d| | | | | | | | |]; simpl in Hu; try done.
  destruct d; done.
Qed.

Lemma parse_int_dump (z : Z) (c : ascii) (r : text) :
  digit_of c = None -> float_continues (c :: r) = false ->
  parse_int (dump_int z ++ c :: r) = Some (z, c :: r).
Proof.
  intros Hc Hf. unfold dump_int. destruct z as [|p|p].
  - change (parse_int ("0" :: c :: r) = Some (0, c :: r)).
    unfold parse_int, parse_nat. cbn [parse_digits digit_of]. rewrite Hc, Hf.
    reflexivity.
  - pose proof (to_uint_canonical p) as Hp.
    pose proof (DecimalZ.of_to (Zpos p)) as Hz.
    cbn [Z.to_int NilZero.string_of_int NilZero.string_of_uint] in *.
    transitivity
      (match parse_nat (list_ascii_of_string
                          (NilEmpty.string_of_uint (Pos.to_uint p)) ++ c :: r) with
       | Some (u, r') => Some (Z.of_int (Decimal.Pos u), r')
       | None => None
       end).
    + destruct (Pos.to_uint p); try done; reflexivity.
    + rewrite parse_nat_uint by done.
      destruct (Pos.to_uint p); try done; by rewrite Hz.
  - pose proof (to_uint_canonical p) as Hp.
    pose proof (DecimalZ.of_to (Zneg p)) as Hz.
    cbn [Z.to_int NilZero.string_of_int NilZero.string_of_uint] in *.
    transitivity
      (match parse_nat (list_ascii_of_string
                          (NilEmpty.string_of_uint (Pos.to_uint p)) ++ c :: r) with
       | Some (u, r') => Some (Z.of_int (Decimal.Neg u), r')
       | None => None
       end).
    + destruct (Pos.to_uint p); try done; reflexivity.
    + rewrite parse_nat_uint by done.
      destruct (Pos.to_uint p); try done; by rewrite Hz.
Qed.

Lemma parse_scalar_int (z : Z) (r : text) :
  parse_scalar (dump_int z ++ r)
  = match parse_int (dump_int z ++ r) with
    | Some (z', rest) => Some (JInt z', rest)
    | None => None
    end.
Proof.
  unfold dump_int. destruct z as [|p|p]; try reflexivity.
  pose proof (to_uint_canonical p) as Hp.
  cbn [Z.to_int NilZero.string_of_int NilZero.string_of_uint].
  destruct (Pos.to_uint p); try done; reflexivity.
Qed.

Lemma skip_ws_int (z : Z) (r : text) :
  skip_ws (dump_int z ++ r) = dump_int z ++ r.
Proof.
  unfold dump_int. destruct z as [|p|p]; try reflexivity.
  pose proof (to_uint_canonical p) as Hp.
  cbn [Z.to_int NilZero.string_of_int NilZero.string_of_uint].
  destruct (Pos.to_uint p); try done; reflexivity.
Qed.

Lemma parse_scalar_dump (v : scalar) (c : ascii) (r : text) :
  separator c ->
  parse_scalar (dump_scalar v ++ c :: r) = Some (v, c :: r).
Proof.
  intros Hc. destruct v as [z|s]; cbn [dump_scalar].
  - rewrite parse_scalar_int, parse_int_dump; [done| |];
      destruct Hc as [-> | ->]; reflexivity.
  - unfold dump_string. cbn [app parse_scalar]. rewrite <- app_assoc.
    cbn [app]. rewrite parse_chars_escape; [done|].
    rewrite length_app. simpl. lia.
Qed.

Lemma skip_ws_scalar (v : scalar) (r : text) :
  skip_ws (dump_scalar v ++ r) = dump_scalar v ++ r.
Proof.
  destruct v as [z|s]; [apply skip_ws_int | reflexivity].
Qed.

Lemma dump_member_cons (k : string) (vt r : text) :
  dump_member k vt ++ r = "034" :: escape k ++ "034" :: ":" :: " " :: vt ++ r.
Proof.
  unfold dump_member, dump_string. cbn [app]. rewrite <- !app_assoc. reflexivity.
Qed.

Lemma parse_member (k : string) (v : scalar) (c : ascii) (r : text) (fuel : nat) :
  separator c ->
  parse_members (S fuel) (dump_member k (dump_scalar v) ++ c :: r)
  = match skip_ws (c :: r) with
    | "}" :: r4 => Some ([(k, v)], r4)
    | "," :: r4 =>
        match parse_members fuel (skip_ws r4) with
        | Some (ms, r5) => Some ((k, v) :: ms, r5)
        | None => None
        end
    | _ => None
    end.
Proof.
  intros Hc. rewrite dump_member_cons. cbn [parse_members].
  rewrite parse_chars_escape by (rewrite length_app; simpl; lia).
  cbn [skip_ws is_ws Ascii.eqb Bool.eqb orb].
  rewrite skip_ws_scalar, parse_scalar_dump by done. reflexivity.
Qed.

Lemma skip_ws_members (ms : list (string * scalar)) (r : text) :
  ms <> [] -> skip_ws (dump_members ms ++ r) = dump_members ms ++ r.
Proof.
  destruct ms as [|[k v] [|kv ms]]; [done| |]; intros _;
    cbn [dump_members]; rewrite dump_member_cons; reflexivity.
Qed.

Lemma parse_members_dump (ms : list (string * scalar)) (fuel : nat) (rest : text) :
  ms <> [] -> (length ms <= fuel)%nat ->
  parse_members fuel (dump_members ms ++ rest) = Some (ms, rest).
Proof.
  revert fuel. induction ms as [|[k v] ms IH]; intros fuel Hne Hfuel; [done|].
  destruct fuel as [|fuel]; [simpl in Hfuel; lia|].
  destruct ms as [|kv ms].
  - cbn [dump_members]. rewrite <- app_assoc.
    change (newline_indent 2 ++ ["}"]) with ("010" :: " " :: " " :: ["}"]).
    cbn [app]. rewrite parse_member by (by right). reflexivity.
  - change (dump_members ((k, v) :: kv :: ms))
      with (dump_member k (dump_scalar v)
            ++ "," :: newline_indent 4 ++ dump_members (kv :: ms)).
    rewrite <- app_assoc. cbn [app]. rewrite parse_member by (by left).
    change (skip_ws ("," :: (newline_indent 4 ++ dump_members (kv :: ms)) ++ rest))
      with ("," :: (newline_indent 4 ++ dump_members (kv :: ms)) ++ rest).
    cbv iota beta. rewrite <- app_assoc.
    change (skip_ws (newline_indent 4 ++ dump_members (kv :: ms) ++ rest))
      with (skip_ws (dump_members (kv :: ms) ++ rest)).
    rewrite skip_ws_members by done.
    rewrite IH; [done | done | simpl in *; lia].
Qed.

Lemma dump_message_members (m : message) :
  dump_message m = "{" :: newline_indent 4 ++ dump_members (members_of m).
Proof. reflexivity. Qed.

Lemma message_of_members_of (m : message) :
  message_of_members (members_of m) = Some m.
Proof. destruct m. reflexivity. Qed.

Lemma length_dump_members (ms : list (string * scalar)) :
  (length ms <= length (dump_members ms))%nat.
Proof.
  induction ms as [|[k v] [|kv ms] IH].
  - done.
  - cbn [dump_members]. rewrite dump_member_cons. simpl. lia.
  - change (dump_members ((k, v) :: kv :: ms))
      with (dump_member k (dump_scalar v)
            ++ "," :: newline_indent 4 ++ dump_members (kv :: ms)).
    rewrite dump_member_cons. cbn [length].
    rewrite !length_app. cbn [length]. rewrite !length_app.
    simpl in IH. simpl. lia.
Qed.

Lemma dump_members_head (ms : list (string * scalar)) (r : text) :
  ms <> [] -> exists s, dump_members ms ++ r = "034" :: s.
Proof.
  destruct ms as [|[k v] [|kv ms]]; [done| |]; intros _;
    cbn [dump_members]; rewrite dump_member_cons; eauto.
Qed.

Lemma parse_object_dump (m : message) (rest : text) :
  parse_object (dump_message m ++ rest) = Some (members_of m, rest).
Proof.
  rewrite dump_message_members. cbn [app parse_object]. rewrite <- app_assoc.
  change (skip_ws (newline_indent 4 ++ dump_members (members_of m) ++ rest))
    with (skip_ws (dump_members (members_of m) ++ rest)).
  rewrite skip_ws_members by done.
  transitivity (parse_members (length (dump_members (members_of m) ++ rest))
                              (dump_members (members_of m) ++ rest)).
  - destruct (dump_members_head (members_of m) rest) as [s ->]; [done|].
    reflexivity.
  - apply parse_members_dump; [done|].
    rewrite length_app. pose proof (length_dump_members (members_of m)). lia.
Qed.

Lemma skip_ws_items (ms : list message) (r : text) :
  ms <> [] -> skip_ws (dump_items ms ++ r) = dump_items ms ++ r.
Proof.
  destruct ms as [|m [|m' ms]]; [done| |]; intros _; reflexivity.
Qed.

Lemma dump_items_head (ms : list message) (r : text) :
  ms <> [] -> exists s, dump_items ms ++ r = "{" :: s.
Proof.
  destruct ms as [|m [|m' ms]]; [done| |]; intros _; cbn [dump_items];
    rewrite dump_message_members; cbn [app]; eauto.
Qed.

Lemma length_dump_items (ms : list message) :
  (length ms <= length (dump_items ms))%nat.
Proof.
  induction ms as [|m [|m' ms] IH].
  - done.
  - cbn [dump_items]. rewrite dump_message_members. simpl. lia.
  - change (dump_items (m :: m' :: ms))
      with (dump_message m ++ "," :: newline_indent 2 ++ dump_items (m' :: ms)).
    rewrite dump_message_members. cbn [length app].
    rewrite !length_app. cbn [length]. rewrite !length_app.
    simpl in IH. simpl. lia.
Qed.

Lemma parse_items_dump (ms : list message) (fuel : nat) (rest : text) :
  ms <> [] -> (length ms <= fuel)%nat ->
  parse_items fuel (dump_items ms ++ "010" :: "]" :: rest) = Some (ms, rest).
Proof.
  revert fuel. induction ms as [|m ms IH]; intros fuel Hne Hfuel; [done|].
  destruct fuel as [|fuel]; [simpl in Hfuel; lia|].
  destruct ms as [|m' ms].
  - cbn [dump_items parse_items].
    rewrite parse_object_dump, message_of_members_of. reflexivity.
  - change (dump_items (m :: m' :: ms))
      with (dump_message m ++ "," :: newline_indent 2 ++ dump_items (m' :: ms)).
    rewrite <- app_assoc. cbn [app parse_items].
    rewrite parse_object_dump, message_of_members_of.
    change (skip_ws ("," :: (newline_indent 2 ++ dump_items (m' :: ms))
                         ++ "010" :: "]" :: rest))
      with ("," :: (newline_indent 2 ++ dump_items (m' :: ms))
                ++ "010" :: "]" :: rest).
    cbv iota beta. rewrite <- app_assoc.
    change (skip_ws (newline_indent 2 ++ dump_items (m' :: ms)
                       ++ "010" :: "]" :: rest))
      with (skip_ws (dump_items (m' :: ms) ++ "010" :: "]" :: rest)).
    rewrite skip_ws_items by done.
    rewrite IH; [done | done | simpl in *; lia].
Qed.

(** Reading the text that [dump] writes gives the messages back. *)
Lemma load_dump (ms : list message) : load (dump ms) = Some ms.
Proof.
  destruct ms as [|m ms]; [reflexivity|].
  unfold dump, load.
  change (skip_ws ("[" :: newline_indent 2 ++ dump_items (m :: ms)
                       ++ newline_indent 0 ++ ["]"]))
    with ("[" :: newline_indent 2 ++ dump_items (m :: ms)
              ++ newline_indent 0 ++ ["]"]).
  cbv iota beta.
  change (skip_ws (newline_indent 2 ++ dump_items (m :: ms) ++ newline_indent 0 ++ ["]"]))
    with (skip_ws (dump_items (m :: ms) ++ "010" :: "]" :: [])).
  rewrite skip_ws_items by done.
  transitivity
    (match parse_items (length (dump_items (m :: ms) ++ "010" :: "]" :: []))
                       (dump_items (m :: ms) ++ "010" :: "]" :: []) with
     | Some (l, r) => if at_end r then Some l else None
     | None => None
     end).
  - destruct (dump_items_head (m :: ms) ("010" :: "]" :: [])) as [s ->]; [done|].
    reflexivity.
  - rewrite parse_items_dump; [done | done |].
    rewrite length_app. pose proof (length_dump_items (m :: ms)). lia.
Qed.

End JsonFacts.




(** A document in another layout and key order than the one [dump] writes
    is read as well. *)
Example load_other_layout :
  Json.load (list_ascii_of_string
    ("[{" +:+ quoted "type" +:+ ": " +:+ quoted "text" +:+ ", "
      +:+ quoted "time" +:+ ": " +:+ quoted "2024-01-01 00:00:00" +:+ ", "
      +:+ quoted "content" +:+ ":" +:+ quoted "hi" +:+ ","
      +:+ quoted "username" +:+ ": " +:+ quoted "alice" +:+ ", "
      +:+ quoted "id" +:+ ": 1700000000000}]"))
  = Some [example_message].
Proof. vm_compute. reflexivity. Qed.

(** * Further properties of the endpoints *)

Lemma set_online_users_id (us : gmap string Q) (st : state) :
  set_online_users us st = st <-> us = _online_users st.
Proof.
  destruct st. unfold set_online_users. simpl. split.
  - by intros [= ->].
  - by intros ->.
Qed.

(** X1. Every endpoint answers code 0 or code 1, and an answer other than
    code 0 comes without data and with the state exactly as it was: a
    rejected request has no effect on messages, presence, files or log. *)
Theorem handle_failure_no_effect (e : env) (r : request) (st : state) :
  (code (snd (ChatCenter.handle e r st)) = 0 \/
   code (snd (ChatCenter.handle e r st)) = 1) /\
  (code (snd (ChatCenter.handle e r st)) <> 0 ->
   fst (ChatCenter.handle e r st) = st /\
   data (snd (ChatCenter.handle e r st)) = None).
Proof.
  destruct r as [|u c ty| |u|]; simpl.
  - split; [by left | done].
  - unfold ChatCenter.send_message.
    destruct (py_not u || py_not c); simpl; split; auto; done.
  - split; [by left | done].
  - unfold ChatCenter.user_heartbeat.
    destruct (py_not u); simpl; split; auto; done.
  - split; [by left | done].
Qed.

Lemma handle_failure_no_effect_witness :
  code (snd (ChatCenter.handle example_env (Heartbeat None) stale_state)) <> 0 /\
  fst (ChatCenter.handle example_env (Heartbeat None) stale_state) = stale_state.
Proof.
  assert (H : code (snd (ChatCenter.handle example_env (Heartbeat None) stale_state)) <> 0)
    by (simpl; discriminate).
  split; [exact H|].
  apply (proj1 (proj2 (handle_failure_no_effect example_env (Heartbeat None) stale_state) H)).
Defined.

Lemma _save_messages_other_files (w : write_outcome) (st : state) (p : string) :
  p <> _chat_data_path st ->
  files (ChatCenter._save_messages w st) !! p = files st !! p.
Proof.
  intros Hp. destruct w as [|[t|]|[t|]]; simpl;
    rewrite ?lookup_insert_ne, ?lookup_delete_ne; done.
Qed.

Lemma handle_path (e : env) (r : request) (st : state) :
  _chat_data_path (fst (ChatCenter.handle e r st)) = _chat_data_path st.
Proof.
  destruct r as [|u c ty| |u|]; simpl; try done.
  - unfold ChatCenter.send_message, ChatCenter._update_user_online.
    destruct (py_not u || py_not c); [done|]. cbn [fst].
    rewrite (proj2 (proj2 (proj2 (proj2 (_save_messages_memory _ _))))).
    destruct (py_not u); simpl; by destruct (_ >? _).
  - unfold ChatCenter.user_heartbeat, ChatCenter._update_user_online.
    by destruct (py_not u).
  - unfold ChatCenter.clear_messages. cbn [fst].
    by rewrite (proj2 (proj2 (proj2 (proj2 (_save_messages_memory _ _))))).
Qed.

Lemma handle_other_files (e : env) (r : request) (st : state) (p : string) :
  p <> _chat_data_path st ->
  files (fst (ChatCenter.handle e r st)) !! p = files st !! p.
Proof.
  intros Hp. destruct r as [|u c ty| |u|]; simpl; try done.
  - unfold ChatCenter.send_message, ChatCenter._update_user_online.
    destruct (py_not u || py_not c); [done|]. cbn [fst].
    rewrite _save_messages_other_files.
    + destruct (py_not u); simpl; by destruct (_ >? _).
    + destruct (py_not u); simpl; by destruct (_ >? _).
  - unfold ChatCenter.user_heartbeat, ChatCenter._update_user_online.
    by destruct (py_not u).
  - unfold ChatCenter.clear_messages. cbn [fst].
    by rewrite _save_messages_other_files.
Qed.

(** X2. No endpoint changes the configuration of the instance (the path of
    the backing file and the two bounds), and no endpoint touches a file
    other than the backing file. *)
Theorem handle_frame (e : env) (r : request) (st : state) :
  _chat_data_path (fst (ChatCenter.handle e r st)) = _chat_data_path st /\
  _max_messages (fst (ChatCenter.handle e r st)) = _max_messages st /\
  _online_timeout (fst (ChatCenter.handle e r st)) = _online_timeout st /\
  (forall p, p <> _chat_data_path st ->
     files (fst (ChatCenter.handle e r st)) !! p = files st !! p).
Proof.
  split; [apply handle_path|].
  split; [|split; [|intros p Hp; by apply handle_other_files]].
  - destruct r as [|u c ty| |u|]; simpl; try done.
    + unfold ChatCenter.send_message, ChatCenter._update_user_online.
      destruct (py_not u || py_not c); [done|]. cbn [fst].
      rewrite (proj1 (proj2 (proj2 (_save_messages_memory _ _)))).
      destruct (py_not u); simpl; by destruct (_ >? _).
    + unfold ChatCenter.user_heartbeat, ChatCenter._update_user_online.
      by destruct (py_not u).
    + unfold ChatCenter.clear_messages. cbn [fst].
      by rewrite (proj1 (proj2 (proj2 (_save_messages_memory _ _)))).
  - destruct r as [|u c ty| |u|]; simpl; try done.
    + unfold ChatCenter.send_message, ChatCenter._update_user_online.
      destruct (py_not u || py_not c); [done|]. cbn [fst].
      rewrite (proj1 (proj2 (proj2 (proj2 (_save_messages_memory _ _))))).
      destruct (py_not u); simpl; by destruct (_ >? _).
    + unfold ChatCenter.user_heartbeat, ChatCenter._update_user_online.
      by destruct (py_not u).
    + unfold ChatCenter.clear_messages. cbn [fst].
      by rewrite (proj1 (proj2 (proj2 (proj2 (_save_messages_memory _ _))))).
Qed.

Lemma handle_frame_witness :
  ("/config/other.json"%string <> _chat_data_path stale_state) /\
  files (fst (ChatCenter.handle example_env ClearMessages stale_state))
    !! "/config/other.json"%string
  = files stale_state !! "/config/other.json"%string.
Proof.
  assert (H : "/config/other.json"%string <> _chat_data_path stale_state)
    by (simpl; discriminate).
  split; [exact H|].
  apply (proj2 (proj2 (proj2 (handle_frame example_env ClearMessages stale_state)))
               "/config/other.json"%string H).
Defined.

(** X3. Only an accepted [send_message] and [clear_messages] reach the
    backing file: every other request (listing messages, listing online
    users, a heartbeat, a rejected post) leaves the message list, all files
    and the log as they were. *)
Theorem handle_read_only (e : env) (r : request) (st : state) :
  saves r = false ->
  _messages (fst (ChatCenter.handle e r st)) = _messages st /\
  files (fst (ChatCenter.handle e r st)) = files st /\
  log (fst (ChatCenter.handle e r st)) = log st.
Proof.
  destruct r as [|u c ty| |u|]; simpl; intros Hs; try done.
  - unfold ChatCenter.send_message.
    apply negb_false_iff in Hs. rewrite Hs. done.
  - unfold ChatCenter.user_heartbeat, ChatCenter._update_user_online.
    destruct (py_not u); done.
Qed.

Lemma handle_read_only_witness :
  saves ListOnlineUsers = false /\
  files (fst (ChatCenter.handle example_env ListOnlineUsers stale_state))
  = files stale_state.
Proof.
  split; [reflexivity|].
  apply (proj1 (proj2 (handle_read_only example_env ListOnlineUsers stale_state eq_refl))).
Defined.




(** X5. Presence entries are removed by [get_online_users] only: after any
    other request every username that had an entry still has one, and the
    timestamp of an entry changes only for the username the request names,
    to the clock reading of the call. *)
Theorem presence_kept (e : env) (r : request) (st : state) (u : string) (la : Q) :
  r <> ListOnlineUsers ->
  _online_users st !! u = Some la ->
  _online_users (fst (ChatCenter.handle e r st)) !! u = Some la \/
  (_online_users (fst (ChatCenter.handle e r st)) !! u = Some (time_first e) /\
   ((exists c ty, r = PostMessage (Some u) c ty) \/ r = Heartbeat (Some u))).
Proof.
  intros Hr Hu. destruct r as [|v c ty| |v|]; simpl; try done.
  - by left.
  - destruct (py_not v || py_not c) eqn:E.
    + left. unfold ChatCenter.send_message. by rewrite E.
    + apply orb_false_iff in E as [Ev Ec].
      apply py_not_false in Ev as (v' & -> & Hv).
      apply py_not_false in Ec as (c' & -> & Hc).
      rewrite send_message_accepted by done. cbn [fst].
      rewrite (proj1 (proj2 (_save_messages_memory _ _))). simpl.
      destruct (decide (v' = u)) as [->|Hne].
      * right. rewrite lookup_insert_eq. split; [done|]. left; eauto.
      * left. by rewrite lookup_insert_ne.
  - unfold ChatCenter.user_heartbeat, ChatCenter._update_user_online.
    destruct (py_not v) eqn:E; [by left|]. simpl.
    apply py_not_false in E as (v' & -> & Hv). simpl.
    destruct (decide (v' = u)) as [->|Hne].
    + right. rewrite lookup_insert_eq. split; [done|]. by right.
    + left. by rewrite lookup_insert_ne.
  - unfold ChatCenter.clear_messages. cbn [fst].
    destruct (_save_messages_memory (write e) (set_messages [] st)) as (_ & -> & _).
    by left.
Qed.

Lemma presence_kept_witness :
  ClearMessages <> ListOnlineUsers /\
  _online_users online_state !! "alice"%string = Some 1700000000%Q /\
  (_online_users (fst (ChatCenter.handle example_env ClearMessages online_state))
     !! "alice"%string = Some 1700000000%Q \/
   (_online_users (fst (ChatCenter.handle example_env ClearMessages online_state))
      !! "alice"%string = Some (time_first example_env) /\
    ((exists c ty, ClearMessages = PostMessage (Some "alice"%string) c ty) \/
     ClearMessages = Heartbeat (Some "alice"%string)))).
Proof.
  assert (H1 : ClearMessages <> ListOnlineUsers) by discriminate.
  assert (H2 : _online_users online_state !! "alice"%string = Some 1700000000%Q)
    by (vm_compute; reflexivity).
  split; [exact H1 | split; [exact H2|]].
  apply (presence_kept example_env ClearMessages online_state "alice" 1700000000%Q H1 H2).
Defined.

(** X6. [get_online_users] changes nothing but the presence map, and it
    leaves the whole state as it was exactly when no presence entry has
    expired at the time of the call, by the test of the code: the float
    difference of the clock reading and the timestamp does not exceed
    [online_timeout]. *)
Theorem get_online_users_effect (e : env) (st : state) :
  _messages (fst (ChatCenter.get_online_users e st)) = _messages st /\
  files (fst (ChatCenter.get_online_users e st)) = files st /\
  log (fst (ChatCenter.get_online_users e st)) = log st /\
  (fst (ChatCenter.get_online_users e st) = st <->
   forall u la, _online_users st !! u = Some la ->
                Float.gt_int (Float.sub (time_first e) la) (_online_timeout st) = false).
Proof.
  do 3 (split; [reflexivity|]).
  unfold ChatCenter.get_online_users. cbn [fst].
  change (ChatCenter._clean_offline_users (time_first e) st)
    with (set_online_users
            (_online_users (ChatCenter._clean_offline_users (time_first e) st)) st).
  rewrite set_online_users_id. split.
  - intros Heq u la Hu.
    pose proof (_clean_offline_users_lookup (time_first e) st u) as H.
    rewrite Heq, Hu in H. fold (expired (time_first e) la (_online_timeout st)).
    by destruct (expired _ _ _).
  - intros Hall. apply map_eq. intros u.
    rewrite _clean_offline_users_lookup.
    destruct (_online_users st !! u) as [la|] eqn:Hu; [|done].
    apply Hall in Hu. unfold expired. by rewrite Hu.
Qed.

Lemma get_online_users_effect_witness :
  (forall u la, _online_users online_state !! u = Some la ->
                Float.gt_int (Float.sub (time_first example_env) la)
                             (_online_timeout online_state) = false) /\
  fst (ChatCenter.get_online_users example_env online_state) = online_state.
Proof.
  assert (H : forall u la, _online_users online_state !! u = Some la ->
                Float.gt_int (Float.sub (time_first example_env) la)
                             (_online_timeout online_state) = false).
  { intros u la Hu. unfold online_state in Hu. simpl in Hu.
    apply lookup_singleton_Some in Hu as [_ <-]. vm_compute. reflexivity. }
  split; [exact H|].
  apply (proj2 (proj2 (proj2 (proj2 (get_online_users_effect example_env online_state)))) H).
Defined.

(** X7. Eviction only grows with time and is permanent. Listing the online
    users at a time and then at a later time leaves the same presence map,
    and gives the same answer, as listing at the later time alone; and a
    username that a listing did not contain is in no listing after it,
    whatever the clock says then, until a heartbeat or post of that user. *)
Theorem eviction_monotone (e1 e2 : env) (st : state) :
  ((time_first e1 <= time_first e2)%Q ->
   _online_users (fst (ChatCenter.get_online_users e2
                         (fst (ChatCenter.get_online_users e1 st))))
   = _online_users (fst (ChatCenter.get_online_users e2 st)) /\
   snd (ChatCenter.get_online_users e2 (fst (ChatCenter.get_online_users e1 st)))
   = snd (ChatCenter.get_online_users e2 st)) /\
  (forall u,
     u ∉ usernames_of (snd (ChatCenter.get_online_users e1 st)) ->
     u ∉ usernames_of (snd (ChatCenter.get_online_users e2
                              (fst (ChatCenter.get_online_users e1 st))))).
Proof.
  assert (Hl : forall u,
    _online_users (fst (ChatCenter.get_online_users e2
                          (fst (ChatCenter.get_online_users e1 st)))) !! u
    = match _online_users st !! u with
      | Some la =>
          if expired (time_first e1) la (_online_timeout st) then None
          else if expired (time_first e2) la (_online_timeout st) then None
          else Some la
      | None => None
      end).
  { intros u. unfold ChatCenter.get_online_users. cbn [fst].
    rewrite !_clean_offline_users_lookup.
    destruct (_online_users st !! u) as [la|]; [|done].
    by destruct (expired (time_first e1) la (_online_timeout st)). }
  split.
  - intros Hle.
    assert (Heq : _online_users (fst (ChatCenter.get_online_users e2
                         (fst (ChatCenter.get_online_users e1 st))))
                  = _online_users (fst (ChatCenter.get_online_users e2 st))).
    { apply map_eq. intros u. rewrite Hl.
      unfold ChatCenter.get_online_users at 1. cbn [fst].
      rewrite _clean_offline_users_lookup.
      destruct (_online_users st !! u) as [la|]; [|done].
      destruct (expired (time_first e1) la (_online_timeout st)) eqn:E1; [|done].
      by rewrite (expired_mono _ _ _ _ Hle E1). }
    split; [exact Heq|].
    unfold ChatCenter.get_online_users in *. cbn [fst snd] in *. by rewrite Heq.
  - intros u Hu. unfold usernames_of, ChatCenter.get_online_users in *.
    cbn [fst snd data] in *. rewrite keys_elem in *.
    rewrite _clean_offline_users_lookup.
    intros [la Hla]. apply Hu.
    destruct (_online_users (ChatCenter._clean_offline_users (time_first e1) st) !! u)
      as [la'|] eqn:E; [eauto | done].
Qed.

Lemma eviction_monotone_witness :
  (time_first example_env <= time_first later_env)%Q /\
  snd (ChatCenter.get_online_users later_env
         (fst (ChatCenter.get_online_users example_env online_state)))
  = snd (ChatCenter.get_online_users later_env online_state).
Proof.
  assert (H : (time_first example_env <= time_first later_env)%Q)
    by (vm_compute; discriminate).
  split; [exact H|].
  apply (proj2 (proj1 (eviction_monotone example_env later_env online_state) H)).
Defined.

(** * Further properties of the message log *)

Lemma lastn_snoc {A} (n : nat) (l : list A) (x : A) :
  lastn (S n) (l ++ [x]) = lastn n l ++ [x].
Proof.
  unfold lastn. rewrite length_app. simpl.
  replace (length l + 1 - S n)%nat with (length l - n)%nat by lia.
  rewrite drop_app_le by lia. done.
Qed.

Lemma lastn_all {A} (n : nat) (l : list A) :
  (length l <= n)%nat -> lastn n l = l.
Proof.
  intros H. unfold lastn. replace (length l - n)%nat with 0%nat by lia. done.
Qed.

(** X8. With a bound of at least 1, one accepted [send_message] keeps the
    newest [max_messages - 1] messages of the list in their order, drops the
    older ones, and puts the new message last; the list then has
    [min (length before + 1) max_messages] elements. *)
Theorem send_message_evicts_oldest (e : env) (u c : string) (type : option string)
    (st : state) :
  u <> EmptyString -> c <> EmptyString -> 1 <= _max_messages st ->
  let st' := fst (ChatCenter.send_message e (Some u) (Some c) type st) in
  _messages st'
  = lastn (Z.to_nat (_max_messages st - 1)) (_messages st) ++ [new_message e u c type] /\
  Z.of_nat (length (_messages st'))
  = Z.min (Z.of_nat (length (_messages st)) + 1) (_max_messages st).
Proof.
  intros Hu Hc Hmax. cbv zeta. rewrite send_message_accepted by done. cbn [fst].
  rewrite (proj1 (_save_messages_memory _ _)). simpl.
  rewrite truncated_lastn by done.
  replace (Z.to_nat (_max_messages st)) with (S (Z.to_nat (_max_messages st - 1)))
    by lia.
  rewrite lastn_snoc. split; [done|].
  rewrite length_app. unfold lastn. rewrite length_drop. simpl. lia.
Qed.

Lemma send_message_evicts_oldest_witness :
  ("bob"%string <> EmptyString) /\ ("yo"%string <> EmptyString) /\
  1 <= _max_messages full_state /\
  _messages (fst (ChatCenter.send_message example_env (Some "bob"%string)
                    (Some "yo"%string) None full_state))
  = lastn (Z.to_nat (_max_messages full_state - 1)) (_messages full_state)
    ++ [new_message example_env "bob" "yo" None].
Proof.
  assert (H : 1 <= _max_messages full_state) by (simpl; lia).
  split; [discriminate | split; [discriminate | split; [exact H|]]].
  apply (proj1 (send_message_evicts_oldest example_env "bob" "yo" None full_state
                  ltac:(discriminate) ltac:(discriminate) H)).
Defined.

(** X9. With a bound of 0 or less nothing bounds the list as intended: after
    an accepted [send_message] the list is the old one with the new message
    appended, without its first [- max_messages] elements. So with 0 no
    message is ever dropped, and with a negative bound a call on a list
    shorter than [- max_messages] answers code 0 with the new message but
    leaves the list empty. *)
Theorem send_message_without_bound (e : env) (u c : string) (type : option string)
    (st : state) :
  u <> EmptyString -> c <> EmptyString -> _max_messages st <= 0 ->
  let st' := fst (ChatCenter.send_message e (Some u) (Some c) type st) in
  _messages st'
  = drop (Z.to_nat (- _max_messages st)) (_messages st ++ [new_message e u c type]) /\
  (_max_messages st = 0 -> _messages st' = _messages st ++ [new_message e u c type]) /\
  (Z.of_nat (length (_messages st)) < - _max_messages st -> _messages st' = []).
Proof.
  intros Hu Hc Hmax. cbv zeta. rewrite send_message_accepted by done. cbn [fst].
  rewrite (proj1 (_save_messages_memory _ _)). simpl.
  assert (Ht : truncated (_max_messages st) (_messages st ++ [new_message e u c type])
               = drop (Z.to_nat (- _max_messages st))
                      (_messages st ++ [new_message e u c type])).
  { unfold truncated. rewrite length_app. simpl.
    destruct (Z.gtb_spec (Z.of_nat (length (_messages st) + 1)) (_max_messages st));
      [|lia].
    unfold py_slice_from.
    destruct (Z.ltb_spec (- _max_messages st) 0); [lia | done]. }
  rewrite Ht. split; [done|]. split.
  - intros ->. done.
  - intros Hlen. apply drop_ge. rewrite length_app. simpl. lia.
Qed.

Lemma send_message_without_bound_witness :
  ("bob"%string <> EmptyString) /\ ("yo"%string <> EmptyString) /\
  _max_messages (state_with_max 0) <= 0 /\
  _messages (fst (ChatCenter.send_message example_env (Some "bob"%string)
                    (Some "yo"%string) None (state_with_max 0)))
  = _messages (state_with_max 0) ++ [new_message example_env "bob" "yo" None].
Proof.
  assert (H : _max_messages (state_with_max 0) <= 0) by (simpl; lia).
  split; [discriminate | split; [discriminate | split; [exact H|]]].
  apply (proj1 (proj2 (send_message_without_bound example_env "bob" "yo" None
                  (state_with_max 0) ltac:(discriminate) ltac:(discriminate) H))
               eq_refl).
Defined.

(** X12. Below the bound nothing is evicted: when the list and the accepted
    calls together do not exceed [max_messages], the list after the calls is
    the old list followed by the created messages, in the order of the
    calls. *)
Theorem run_below_bound (st : state) (calls : list call) :
  successful (run calls st) ->
  Z.of_nat (length (_messages st) + length calls) <= _max_messages st ->
  _messages (final st (run calls st)) = _messages st ++ created (run calls st).
Proof.
  intros Hok Hlen. destruct calls as [|c0 calls].
  - simpl. unfold final, created. simpl. by rewrite app_nil_r.
  - assert (Hmax : 1 <= _max_messages st) by (simpl in Hlen; lia).
    destruct (run_from_bounded (c0 :: calls) st (_messages st) Hmax) as (H1 & H2 & _).
    + symmetry. apply lastn_all. lia.
    + done.
    + rewrite H1. apply lastn_all. rewrite length_app, H2. lia.
Qed.

Lemma run_below_bound_witness :
  successful (run abc_calls example_state) /\
  Z.of_nat (length (_messages example_state) + length abc_calls)
  <= _max_messages example_state /\
  _messages (final example_state (run abc_calls example_state))
  = _messages example_state ++ created (run abc_calls example_state).
Proof.
  assert (H1 : successful (run abc_calls example_state)) by (repeat constructor).
  assert (H2 : Z.of_nat (length (_messages example_state) + length abc_calls)
               <= _max_messages example_state) by (simpl; lia).
  split; [exact H1 | split; [exact H2|]].
  apply (run_below_bound example_state abc_calls H1 H2).
Defined.

(** X11. A post counts as a heartbeat of its sender: after an accepted
    [send_message] of [u] at time [t0], the list of online users asked at
    time [now] contains [u] iff the float difference [now - t0] does not
    exceed [online_timeout]; asked at the very reading of the post, it does
    iff [online_timeout] is not negative. *)
Theorem sender_is_online (e1 e2 : env) (u c : string) (type : option string)
    (st : state) :
  u <> EmptyString -> c <> EmptyString ->
  let listed e :=
    u ∈ usernames_of (snd (ChatCenter.get_online_users e
           (fst (ChatCenter.send_message e1 (Some u) (Some c) type st)))) in
  (listed e2 <->
   Float.gt_int (Float.sub (time_first e2) (time_first e1)) (_online_timeout st)
   = false) /\
  (listed e1 <-> 0 <= _online_timeout st).
Proof.
  intros Hu Hc. cbv zeta.
  assert (H : forall e,
    u ∈ usernames_of (snd (ChatCenter.get_online_users e
           (fst (ChatCenter.send_message e1 (Some u) (Some c) type st)))) <->
    expired (time_first e) (time_first e1) (_online_timeout st) = false).
  { intros e. rewrite online_iff, send_message_accepted by done. cbn [fst].
    destruct (_save_messages_memory (write e1)
      (set_messages
         (truncated (_max_messages st) (_messages st ++ [new_message e1 u c type]))
         (set_online_users (<[u := time_first e1]> (_online_users st)) st)))
      as (_ & -> & _ & -> & _).
    simpl. rewrite lookup_insert_eq. split.
    - by intros (la & [= <-] & Hle).
    - eauto. }
  split; [apply H|].
  rewrite H, expired_same, negb_false_iff. apply Z.leb_le.
Qed.

Lemma sender_is_online_witness :
  ("alice"%string <> EmptyString) /\ ("hi"%string <> EmptyString) /\
  0 <= _online_timeout example_state /\
  "alice"%string ∈ usernames_of (snd (ChatCenter.get_online_users example_env
     (fst (ChatCenter.send_message example_env (Some "alice"%string)
             (Some "hi"%string) None example_state)))).
Proof.
  assert (H : 0 <= _online_timeout example_state) by (simpl; lia).
  split; [discriminate | split; [discriminate | split; [exact H|]]].
  apply (proj2 (proj2 (sender_is_online example_env example_env "alice" "hi" None
                         example_state ltac:(discriminate) ltac:(discriminate))) H).
Defined.

Lemma py_int_of_float_round (x : Q) :
  py_int_of_float x = if 0 <=? Qnum x then Qfloor x else Qceiling x.
Proof.
  destruct x as [n d]. unfold py_int_of_float, Qceiling, Qfloor. simpl.
  destruct (Z.leb_spec 0 n).
  - apply Z.quot_div_nonneg; lia.
  - rewrite <- (Z.opp_involutive n) at 1. rewrite Z.quot_opp_l by lia.
    rewrite Z.quot_div_nonneg by lia. reflexivity.
Qed.

Lemma py_int_of_float_le (x y : Q) :
  (x <= y)%Q -> py_int_of_float x <= py_int_of_float y.
Proof.
  intros Hxy. rewrite !py_int_of_float_round.
  destruct (Z.leb_spec 0 (Qnum x)) as [Hx|Hx], (Z.leb_spec 0 (Qnum y)) as [Hy|Hy].
  - by apply Qfloor_resp_le.
  - exfalso. unfold Qle in Hxy. nia.
  - transitivity 0.
    + change 0 with (Qceiling 0). apply Qceiling_resp_le.
      unfold Qle. simpl. lia.
    + change 0 with (Qfloor 0). apply Qfloor_resp_le.
      unfold Qle. simpl. lia.
  - by apply Qceiling_resp_le.
Qed.

(** The id of the message that a call creates, as a function of its second
    clock reading, grows with the reading. *)
Lemma message_id_le (t1 t2 : Q) :
  (t1 <= t2)%Q ->
  py_int_of_float (Float.mul t1 1000) <= py_int_of_float (Float.mul t2 1000).
Proof.
  intros Hle. apply py_int_of_float_le, FloatFacts.round_mono.
  apply Qmult_le_compat_r; [done | discriminate].
Qed.

(** X10. The id of a created message is the integer part of the float
    product of the clock reading and 1000. Ids are ordered as the clock
    readings of their calls, but not strictly: two posts with the same
    reading get the same id; and the id of a reading that is not negative
    is not negative. *)
Theorem message_id_order (e1 e2 : env) (u1 c1 ty1 u2 c2 ty2 : option string)
    (st1 st2 : state) (m1 m2 : message) :
  data (snd (ChatCenter.send_message e1 u1 c1 ty1 st1)) = Some (Created m1) ->
  data (snd (ChatCenter.send_message e2 u2 c2 ty2 st2)) = Some (Created m2) ->
  msg_id m1 = py_int_of_float (Float.round (time_second e1 * 1000)) /\
  ((time_second e1 <= time_second e2)%Q -> msg_id m1 <= msg_id m2) /\
  ((time_second e1 == time_second e2)%Q -> msg_id m1 = msg_id m2) /\
  ((0 <= time_second e1)%Q -> 0 <= msg_id m1).
Proof.
  assert (Hid : forall e u c ty st m,
    data (snd (ChatCenter.send_message e u c ty st)) = Some (Created m) ->
    msg_id m = py_int_of_float (Float.mul (time_second e) 1000)).
  { intros e u c ty st m. unfold ChatCenter.send_message.
    destruct (py_not u || py_not c); simpl; [discriminate|]. by intros [= <-]. }
  intros H1 H2. apply Hid in H1, H2. rewrite H1, H2.
  split; [reflexivity|]. split; [apply message_id_le|]. split.
  - intros Heq. apply Z.le_antisymm; apply message_id_le; rewrite Heq; apply Qle_refl.
  - intros Ht. change 0 with (py_int_of_float (Float.mul 0 1000)).
    by apply message_id_le.
Qed.

Lemma message_id_order_witness :
  data (snd (ChatCenter.send_message example_env (Some "alice"%string)
               (Some "a"%string) None example_state))
  = Some (Created (new_message example_env "alice" "a" None)) /\
  data (snd (ChatCenter.send_message (env_at (Float.round (1700000000001 # 1000)))
               (Some "bob"%string) (Some "b"%string) None example_state))
  = Some (Created (new_message (env_at (Float.round (1700000000001 # 1000)))
                               "bob" "b" None)) /\
  (time_second example_env
   <= time_second (env_at (Float.round (1700000000001 # 1000))))%Q /\
  msg_id (new_message example_env "alice" "a" None)
  <= msg_id (new_message (env_at (Float.round (1700000000001 # 1000))) "bob" "b" None) /\
  msg_id (new_message example_env "alice" "a" None) = 1700000000000 /\
  msg_id (new_message (env_at (Float.round (1700000000001 # 1000))) "bob" "b" None)
  = 1700000000001.
Proof.
  assert (H3 : (time_second example_env
                <= time_second (env_at (Float.round (1700000000001 # 1000))))%Q)
    by (vm_compute; discriminate).
  destruct (message_id_order example_env (env_at (Float.round (1700000000001 # 1000)))
              (Some "alice"%string) (Some "a"%string) None
              (Some "bob"%string) (Some "b"%string) None
              example_state example_state _ _ eq_refl eq_refl) as (H4 & H5 & _).
  split; [reflexivity | split; [reflexivity | split; [exact H3|]]].
  split; [exact (H5 H3)|]. split; vm_compute; reflexivity.
Defined.

(** The float product rounds: at the float 1700000000.001 the id is
    1700000000001, one more than the integer part of the exact product. *)
Example message_id_rounded :
  let t := Float.round (1700000000001 # 1000) in
  py_int_of_float (Float.mul t 1000) = 1700000000001 /\
  Qfloor (t * 1000) = 1700000000000.
Proof. vm_compute. split; reflexivity. Qed.

(** * Further properties of the backing file *)



Lemma at_end_other (c : ascii) (r : text) :
  Json.is_ws c = false -> Json.at_end (c :: r) = false.
Proof. intros H. unfold Json.at_end. simpl. by rewrite H. Qed.

(** What [load] makes of the text that [dump] writes, followed by more
    text: the messages, when only whitespace follows. *)
Lemma load_dump_followed (ms : list message) (rest : text) :
  Json.load (Json.dump ms ++ rest)
  = if Json.at_end rest then Some ms else None.
Proof.
  destruct ms as [|m ms]; [reflexivity|].
  unfold Json.dump, Json.load.
  change (Json.skip_ws (("["%char :: Json.newline_indent 2 ++ Json.dump_items (m :: ms)
                          ++ Json.newline_indent 0 ++ ["]"%char]) ++ rest))
    with (Json.skip_ws ("["%char :: (Json.newline_indent 2 ++ Json.dump_items (m :: ms)
                          ++ Json.newline_indent 0 ++ ["]"%char]) ++ rest)).
  change (Json.skip_ws ("["%char :: (Json.newline_indent 2 ++ Json.dump_items (m :: ms)
                          ++ Json.newline_indent 0 ++ ["]"%char]) ++ rest))
    with ("["%char :: (Json.newline_indent 2 ++ Json.dump_items (m :: ms)
                          ++ Json.newline_indent 0 ++ ["]"%char]) ++ rest).
  cbv iota beta. rewrite <- !app_assoc.
  change (Json.skip_ws (Json.newline_indent 2 ++ Json.dump_items (m :: ms)
                          ++ Json.newline_indent 0 ++ ["]"%char] ++ rest))
    with (Json.skip_ws (Json.dump_items (m :: ms) ++ "010"%char :: "]"%char :: rest)).
  rewrite JsonFacts.skip_ws_items by done.
  transitivity
    (match Json.parse_items
             (length (Json.dump_items (m :: ms) ++ "010"%char :: "]"%char :: rest))
             (Json.dump_items (m :: ms) ++ "010"%char :: "]"%char :: rest) with
     | Some (l, r) => if Json.at_end r then Some l else None
     | None => None
     end).
  - destruct (JsonFacts.dump_items_head (m :: ms) ("010"%char :: "]"%char :: rest))
      as [s ->]; [done|].
    reflexivity.
  - rewrite JsonFacts.parse_items_dump; [done | done |].
    rewrite length_app. pose proof (JsonFacts.length_dump_items (m :: ms)). lia.
Qed.



(** X14. A backing file in which the saved text is followed by anything
    that does not start with whitespace (a second document, stray
    characters) does not parse: the list is initialized to empty and the
    error is logged; the messages of the file are not recovered. *)
Theorem _load_messages_extra_data (st : state) (ms : list message) (c : ascii)
    (rest : text) :
  Json.is_ws c = false ->
  backing_file st = Some (Json.dump ms ++ c :: rest) ->
  _messages (ChatCenter._load_messages st) = [] /\
  log (ChatCenter._load_messages st)
  = log st ++ [LogError "加载聊天记录失败: {str(e)}"].
Proof.
  intros Hc Hf. unfold backing_file in Hf. unfold ChatCenter._load_messages.
  rewrite Hf, load_dump_followed, at_end_other by done. done.
Qed.

Lemma _load_messages_extra_data_witness :
  Json.is_ws "x"%char = false /\
  backing_file garbage_state = Some (Json.dump [example_message] ++ ["x"%char]) /\
  _messages (ChatCenter._load_messages garbage_state) = [].
Proof.
  assert (H1 : Json.is_ws "x"%char = false) by reflexivity.
  assert (H2 : backing_file garbage_state
               = Some (Json.dump [example_message] ++ ["x"%char]))
    by (vm_compute; reflexivity).
  split; [exact H1 | split; [exact H2|]].
  apply (proj1 (_load_messages_extra_data garbage_state [example_message] "x"%char
                  [] H1 H2)).
Defined.

(** X15. Different message lists are saved as different texts: the text
    written by [_save_messages] determines the list. *)
Theorem dump_injective (st1 st2 : state) :
  backing_file (ChatCenter._save_messages Written st1)
  = backing_file (ChatCenter._save_messages Written st2) ->
  _messages st1 = _messages st2.
Proof.
  rewrite !backing_file_saved. intros [= H].
  apply (f_equal Json.load) in H. rewrite !JsonFacts.load_dump in H.
  by injection H.
Qed.

Lemma dump_injective_witness :
  backing_file (ChatCenter._save_messages Written unsaved_state)
  = backing_file (ChatCenter._save_messages Written stale_state) /\
  unsaved_state <> stale_state /\
  _messages unsaved_state = [example_message] /\
  _messages unsaved_state = _messages stale_state.
Proof.
  assert (H : backing_file (ChatCenter._save_messages Written unsaved_state)
              = backing_file (ChatCenter._save_messages Written stale_state))
    by (vm_compute; reflexivity).
  split; [exact H|]. split; [vm_compute; discriminate|]. split; [reflexivity|].
  apply (dump_injective unsaved_state stale_state H).
Defined.

(** Two lists that differ are saved as texts that differ. *)
Example dump_differs :
  backing_file (ChatCenter._save_messages Written unsaved_state)
  <> backing_file (ChatCenter._save_messages Written full_state).
Proof. vm_compute. discriminate. Qed.

(** * Properties of start-up *)

Lemma _load_messages_frame (st : state) :
  _chat_data_path (ChatCenter._load_messages st) = _chat_data_path st /\
  _online_users (ChatCenter._load_messages st) = _online_users st /\
  _max_messages (ChatCenter._load_messages st) = _max_messages st /\
  _online_timeout (ChatCenter._load_messages st) = _online_timeout st /\
  files (ChatCenter._load_messages st) = files st /\
  _messages (ChatCenter._load_messages st)
  = match backing_file st with
    | Some t => default [] (Json.load t)
    | None => []
    end.
Proof.
  unfold ChatCenter._load_messages, backing_file.
  destruct (files st !! _chat_data_path st) as [t|]; [|done].
  destruct (Json.load t); done.
Qed.

Lemma _load_messages_frame_enhanced (st : state) :
  _chat_data_path (ChatroomEnhanced._load_messages st) = _chat_data_path st /\
  _online_users (ChatroomEnhanced._load_messages st) = _online_users st /\
  _max_messages (ChatroomEnhanced._load_messages st) = _max_messages st /\
  _online_timeout (ChatroomEnhanced._load_messages st) = _online_timeout st /\
  files (ChatroomEnhanced._load_messages st) = files st /\
  _messages (ChatroomEnhanced._load_messages st)
  = match backing_file st with
    | Some t => default [] (Json.load t)
    | None => []
    end.
Proof.
  unfold ChatroomEnhanced._load_messages, backing_file.
  destruct (files st !! _chat_data_path st) as [t|]; [|done].
  destruct (Json.load t); done.
Qed.

(** What [init_plugin] of [ChatCenter] leaves when the data directory can be
    created. *)
Lemma init_plugin_returned (h : host) (config : option (gmap string config_value))
    (st : state) :
  makedirs h = true ->
  exists st',
    ChatCenter.init_plugin h config st = Returned st' /\
    _chat_data_path st' = os_path_join (CONFIG_PATH h) ChatCenter.data_file_name /\
    _max_messages st' = configured "max_messages" config (_max_messages st) /\
    _online_timeout st' = configured "online_timeout" config (_online_timeout st) /\
    _online_users st' = _online_users st /\
    files st' = files st /\
    _messages st'
    = match files st !! os_path_join (CONFIG_PATH h) ChatCenter.data_file_name with
      | Some t => default [] (Json.load t)
      | None => []
      end.
Proof.
  intros Hmk. unfold ChatCenter.init_plugin. rewrite Hmk.
  eexists. split; [reflexivity|]. cbn [_chat_data_path _max_messages _online_timeout
    _online_users files _messages logger].
  match goal with
  | |- context [ChatCenter._load_messages ?s] =>
      destruct (_load_messages_frame s) as (-> & -> & -> & -> & -> & ->)
  end.
  unfold backing_file, configured.
  destruct config as [d|]; [|done].
  destruct (config_truthy (Some d)); [|done]. cbn [andb].
  destruct (truth (config_get "max_messages" d)),
           (int_value (config_get "max_messages" d)),
           (truth (config_get "online_timeout" d)),
           (int_value (config_get "online_timeout" d)); done.
Qed.

Lemma init_plugin_returned_enhanced (h : host)
    (config : option (gmap string config_value)) (st : state) :
  makedirs h = true ->
  exists st',
    ChatroomEnhanced.init_plugin h config st = Returned st' /\
    _chat_data_path st' = os_path_join (CONFIG_PATH h) ChatroomEnhanced.data_file_name /\
    _max_messages st' = configured "max_messages" config (_max_messages st) /\
    _online_timeout st' = configured "online_timeout" config (_online_timeout st) /\
    _online_users st' = _online_users st /\
    files st' = files st /\
    _messages st'
    = match files st !! os_path_join (CONFIG_PATH h) ChatroomEnhanced.data_file_name with
      | Some t => default [] (Json.load t)
      | None => []
      end.
Proof.
  intros Hmk. unfold ChatroomEnhanced.init_plugin. rewrite Hmk.
  eexists. split; [reflexivity|]. cbn [_chat_data_path _max_messages _online_timeout
    _online_users files _messages logger].
  match goal with
  | |- context [ChatroomEnhanced._load_messages ?s] =>
      destruct (_load_messages_frame_enhanced s) as (-> & -> & -> & -> & -> & ->)
  end.
  unfold backing_file, configured.
  destruct config as [d|]; [|done].
  destruct (config_truthy (Some d)); [|done]. cbn [andb].
  destruct (truth (config_get "max_messages" d)),
           (int_value (config_get "max_messages" d)),
           (truth (config_get "online_timeout" d)),
           (int_value (config_get "online_timeout" d)); done.
Qed.

(** X16. When the data directory cannot be created, [init_plugin] of
    [ChatCenter] is left by the exception with only the path set, while
    [init_plugin] of [ChatroomEnhanced] returns: it logs the failure and
    reads neither the configuration nor the messages, so bounds, message
    list and presence are those from before. When the directory can be
    created, [init_plugin] of [ChatCenter] returns. *)
Theorem init_plugin_directory (h : host) (config : option (gmap string config_value))
    (st : state) :
  (makedirs h = true -> exists st', ChatCenter.init_plugin h config st = Returned st') /\
  (makedirs h = false ->
   ChatCenter.init_plugin h config st
   = Raised (set_chat_data_path
               (os_path_join (CONFIG_PATH h) ChatCenter.data_file_name) st) /\
   exists st',
     ChatroomEnhanced.init_plugin h config st = Returned st' /\
     _messages st' = _messages st /\
     _online_users st' = _online_users st /\
     _max_messages st' = _max_messages st /\
     _online_timeout st' = _online_timeout st /\
     files st' = files st /\
     last (log st') = Some (LogError "{traceback.format_exc()}")).
Proof.
  split.
  - intros Hmk. destruct (init_plugin_returned h config st Hmk) as (st' & H & _).
    eauto.
  - intros Hmk. unfold ChatCenter.init_plugin, ChatroomEnhanced.init_plugin.
    rewrite Hmk. split; [done|]. eexists. split; [reflexivity|]. simpl.
    repeat split. apply last_snoc.
Qed.

Lemma init_plugin_directory_witness :
  makedirs read_only_host = false /\
  ChatCenter.init_plugin read_only_host None example_state
  = Raised (set_chat_data_path
              (os_path_join (CONFIG_PATH read_only_host) ChatCenter.data_file_name)
              example_state).
Proof.
  split; [reflexivity|].
  apply (proj1 (proj2 (init_plugin_directory read_only_host None example_state) eq_refl)).
Defined.



Lemma config_truthy_lookup (d : gmap string config_value) (key : string)
    (v : config_value) :
  d !! key = Some v -> config_truthy (Some d) = true.
Proof.
  intros H. unfold config_truthy. apply negb_true_iff, Nat.eqb_neq.
  intros Hs. apply map_size_empty_iff in Hs. subst d. by rewrite lookup_empty in H.
Qed.

(** X18. No range is checked, and zero is special only as an integer. When
    the config holds the integer [z] for [max_messages], the bound becomes
    [z] if [z] is not 0, negative values included, and stays what it was if
    [z] is 0; when it holds the decimal text of [z], as the text field of the
    form delivers it, the bound becomes [z], also for 0, unless the text has
    more digits than the interpreter's limit for [int], in which case the
    bound stays; when the key is missing the bound stays. *)
Theorem init_plugin_max_messages (h : host) (d : gmap string config_value)
    (st : state) (max_str_digits z : Z) :
  makedirs h = true ->
  let st' := state_of (ChatCenter.init_plugin h (Some d) st) in
  (d !! "max_messages"%string = Some (of_int z) ->
   _max_messages st' = if z =? 0 then _max_messages st else z) /\
  (d !! "max_messages"%string = Some (of_decimal_text max_str_digits z) ->
   _max_messages st'
   = if (max_str_digits <=? 0) || (Z.abs z <? 10 ^ max_str_digits)
     then z else _max_messages st) /\
  (d !! "max_messages"%string = None -> _max_messages st' = _max_messages st).
Proof.
  intros Hmk. cbv zeta.
  destruct (init_plugin_returned h (Some d) st Hmk) as (st' & Hr & _ & Hm & _).
  rewrite Hr. cbn [state_of]. rewrite Hm.
  unfold configured, config_get. split; [|split]; intros Hk; rewrite Hk.
  - rewrite (config_truthy_lookup _ _ _ Hk). simpl. by destruct (z =? 0).
  - rewrite (config_truthy_lookup _ _ _ Hk). unfold of_decimal_text.
    cbn [andb default truth int_value].
    by destruct ((max_str_digits <=? 0) || (Z.abs z <? 10 ^ max_str_digits)).
  - simpl. by rewrite andb_false_r.
Qed.

Lemma init_plugin_max_messages_witness :
  makedirs example_host = true /\
  ({["max_messages"%string := of_decimal_text 4300 0]} : gmap string config_value)
    !! "max_messages"%string = Some (of_decimal_text 4300 0) /\
  _max_messages (state_of (ChatCenter.init_plugin example_host
     (Some {["max_messages"%string := of_decimal_text 4300 0]}) example_state)) = 0.
Proof.
  assert (H : ({["max_messages"%string := of_decimal_text 4300 0]}
                 : gmap string config_value) !! "max_messages"%string
              = Some (of_decimal_text 4300 0)) by apply lookup_singleton_eq.
  split; [reflexivity | split; [exact H|]].
  apply (proj1 (proj2 (init_plugin_max_messages example_host
           {["max_messages"%string := of_decimal_text 4300 0]} example_state 4300 0
           eq_refl)) H).
Defined.



(** X20. The two classes start up alike on a backing file that the data
    model accounts for: from instances that hold the same chat and find the
    same text in their backing files, each under its own name, a text that
    is a list of messages or no JSON document (or no file), [init_plugin]
    with the same host and config leaves instances that hold the same chat
    again, whether or not the data directory can be created. *)
Theorem init_plugin_equivalent (h : host) (config : option (gmap string config_value))
    (st1 st2 : state) :
  same_chat st1 st2 ->
  files st1 !! os_path_join (CONFIG_PATH h) ChatCenter.data_file_name
  = files st2 !! os_path_join (CONFIG_PATH h) ChatroomEnhanced.data_file_name ->
  (forall t, files st1 !! os_path_join (CONFIG_PATH h) ChatCenter.data_file_name
             = Some t -> list_or_malformed t) ->
  same_chat (state_of (ChatCenter.init_plugin h config st1))
            (state_of (ChatroomEnhanced.init_plugin h config st2)).
Proof.
  intros (Hm & Hu & Hx & Ht) Hf _. destruct (makedirs h) eqn:Hmk.
  - destruct (init_plugin_returned h config st1 Hmk)
      as (s1 & -> & _ & A1 & A2 & A3 & _ & A4).
    destruct (init_plugin_returned_enhanced h config st2 Hmk)
      as (s2 & -> & _ & B1 & B2 & B3 & _ & B4).
    unfold same_chat. simpl.
    rewrite A1, A2, A3, A4, B1, B2, B3, B4, Hf, Hu, Hx, Ht. done.
  - unfold ChatCenter.init_plugin, ChatroomEnhanced.init_plugin. rewrite Hmk.
    unfold same_chat. simpl. done.
Qed.

Lemma init_plugin_equivalent_witness :
  same_chat stale_state enhanced_saved_state /\
  files stale_state
    !! os_path_join (CONFIG_PATH example_host) ChatCenter.data_file_name
  = files enhanced_saved_state
    !! os_path_join (CONFIG_PATH example_host) ChatroomEnhanced.data_file_name /\
  (forall t, files stale_state
               !! os_path_join (CONFIG_PATH example_host) ChatCenter.data_file_name
             = Some t -> list_or_malformed t) /\
  same_chat (state_of (ChatCenter.init_plugin example_host (Some bad_config) stale_state))
            (state_of (ChatroomEnhanced.init_plugin example_host (Some bad_config)
                         enhanced_saved_state)).
Proof.
  assert (H1 : same_chat stale_state enhanced_saved_state) by (repeat split).
  assert (H2 : files stale_state
    !! os_path_join (CONFIG_PATH example_host) ChatCenter.data_file_name
  = files enhanced_saved_state
    !! os_path_join (CONFIG_PATH example_host) ChatroomEnhanced.data_file_name)
    by (vm_compute; reflexivity).
  assert (H3 : forall t, files stale_state
               !! os_path_join (CONFIG_PATH example_host) ChatCenter.data_file_name
             = Some t -> list_or_malformed t).
  { intros t Ht.
    assert (Hs : files stale_state
               !! os_path_join (CONFIG_PATH example_host) ChatCenter.data_file_name
               = Some (Json.dump [example_message])) by (vm_compute; reflexivity).
    assert (Heq : t = Json.dump [example_message]) by congruence.
    left. rewrite Heq, JsonFacts.load_dump. eauto. }
  split; [exact H1 | split; [exact H2 | split; [exact H3|]]].
  apply (init_plugin_equivalent example_host (Some bad_config) stale_state
           enhanced_saved_state H1 H2 H3).
Defined.

(** X21. The form and [init_plugin] agree. The text fields of the form are
    bound to exactly the keys of the data that [get_form] fills it with,
    [max_messages] and [online_timeout]; and [init_plugin] of any instance
    with that data as config takes over the two bounds, except a bound of 0,
    for which the instance keeps the bound it had. *)
Theorem get_form_reapplied (h : host) (st st0 : state) :
  makedirs h = true ->
  flat_map models (fst (ChatCenter.get_form st))
  = ["max_messages"; "online_timeout"]%string /\
  (forall key, key ∈ flat_map models (fst (ChatCenter.get_form st)) <->
               is_Some (snd (ChatCenter.get_form st) !! key)) /\
  _max_messages (state_of (ChatCenter.init_plugin h
                             (Some (snd (ChatCenter.get_form st))) st0))
  = (if _max_messages st =? 0 then _max_messages st0 else _max_messages st) /\
  _online_timeout (state_of (ChatCenter.init_plugin h
                               (Some (snd (ChatCenter.get_form st))) st0))
  = (if _online_timeout st =? 0 then _online_timeout st0 else _online_timeout st).
Proof.
  intros Hmk. split; [reflexivity|]. split.
  - intros key. cbn [fst snd ChatCenter.get_form].
    change (flat_map models config_form)
      with ["max_messages"%string; "online_timeout"%string].
    rewrite !elem_of_cons, elem_of_nil.
    destruct (decide (key = "max_messages"%string)) as [->|H1].
    { split; [|by left]. intros _. rewrite lookup_insert_eq. eauto. }
    destruct (decide (key = "online_timeout"%string)) as [->|H2].
    { split; [|by right; left]. intros _.
      rewrite lookup_insert_ne, lookup_singleton_eq by done. eauto. }
    split; [intros [?|[?|[]]]; done|].
    rewrite lookup_insert_ne, lookup_singleton_ne by done. by intros [? ?].
  - destruct (init_plugin_returned h (Some (snd (ChatCenter.get_form st))) st0 Hmk)
      as (st' & Hr & _ & Hmax & Hto & _).
    rewrite Hr. cbn [state_of]. rewrite Hmax, Hto.
    unfold configured, config_get. cbn [snd ChatCenter.get_form].
    rewrite (config_truthy_lookup _ "max_messages" (of_int (_max_messages st)))
      by apply lookup_insert_eq.
    rewrite lookup_insert_eq, lookup_insert_ne, lookup_singleton_eq by done.
    simpl. split.
    + by destruct (_max_messages st =? 0).
    + by destruct (_online_timeout st =? 0).
Qed.

Lemma get_form_reapplied_witness :
  makedirs example_host = true /\
  _max_messages (state_of (ChatCenter.init_plugin example_host
                             (Some (snd (ChatCenter.get_form full_state))) example_state))
  = (if _max_messages full_state =? 0 then _max_messages example_state
     else _max_messages full_state).
Proof.
  split; [reflexivity|].
  apply (proj1 (proj2 (proj2 (get_form_reapplied example_host full_state example_state
                                eq_refl)))).
Defined.

Lemma append_inj_r (a b c : string) : a +:+ b = a +:+ c -> b = c.
Proof.
  induction a as [|x a IH]; simpl; [done|]. intros [= H]. by apply IH.
Qed.

(** X22. The two plugins never share a backing file: under the same
    configuration directory [init_plugin] gives the two classes different
    paths, so the endpoints of [ChatCenter], which touch no file but their
    own backing file, leave the file of [ChatroomEnhanced] as it is. *)
Theorem plugins_do_not_share_file (h : host)
    (config1 config2 : option (gmap string config_value)) (st1 st2 : state)
    (e : env) (r : request) :
  let s1 := state_of (ChatCenter.init_plugin h config1 st1) in
  let s2 := state_of (ChatroomEnhanced.init_plugin h config2 st2) in
  _chat_data_path s1 <> _chat_data_path s2 /\
  files (fst (ChatCenter.handle e r s1)) !! _chat_data_path s2
  = files s1 !! _chat_data_path s2.
Proof.
  cbv zeta.
  assert (H1 : _chat_data_path (state_of (ChatCenter.init_plugin h config1 st1))
               = os_path_join (CONFIG_PATH h) ChatCenter.data_file_name).
  { destruct (makedirs h) eqn:Hmk.
    - destruct (init_plugin_returned h config1 st1 Hmk) as (s & -> & Hp & _). done.
    - unfold ChatCenter.init_plugin. by rewrite Hmk. }
  assert (H2 : _chat_data_path (state_of (ChatroomEnhanced.init_plugin h config2 st2))
               = os_path_join (CONFIG_PATH h) ChatroomEnhanced.data_file_name).
  { destruct (makedirs h) eqn:Hmk.
    - destruct (init_plugin_returned_enhanced h config2 st2 Hmk) as (s & -> & Hp & _).
      done.
    - unfold ChatroomEnhanced.init_plugin. by rewrite Hmk. }
  assert (Hne : _chat_data_path (state_of (ChatCenter.init_plugin h config1 st1))
                <> _chat_data_path (state_of (ChatroomEnhanced.init_plugin h config2 st2))).
  { rewrite H1, H2. unfold os_path_join.
    change (starts_with_sep ChatCenter.data_file_name) with false.
    change (starts_with_sep ChatroomEnhanced.data_file_name) with false.
    cbv iota.
    destruct (match CONFIG_PATH h with EmptyString => true | _ => false end
              || ends_with_sep (CONFIG_PATH h)); intros H.
    - apply append_inj_r in H. discriminate H.
    - apply append_inj_r in H. discriminate H. }
  split; [exact Hne|].
  apply handle_other_files. congruence.
Qed.

(** X23. [ChatroomEnhanced] logs every save and nothing else on the
    endpoints: a request that does not save adds nothing to the log; one
    that saves adds one info entry when the write succeeds, the error
    followed by the traceback when opening or writing the file fails, and
    the info entry, the error and the traceback when closing the file
    fails, since the success is logged before the file is closed. *)
Theorem enhanced_handle_log (e : env) (r : request) (st : state) :
  log (fst (ChatroomEnhanced.handle e r st))
  = log st ++
    (if saves r then
       match write e with
       | Written =>
           [LogInfo "ChatroomEnhanced 保存聊天记录成功，共 {len(self._messages)} 条消息"]
       | WriteFailed _ =>
           [LogError "ChatroomEnhanced 保存聊天记录失败: {str(e)}";
            LogError "{traceback.format_exc()}"]
       | CloseFailed _ =>
           [LogInfo "ChatroomEnhanced 保存聊天记录成功，共 {len(self._messages)} 条消息";
            LogError "ChatroomEnhanced 保存聊天记录失败: {str(e)}";
            LogError "{traceback.format_exc()}"]
       end
     else []).
Proof.
  destruct r as [|u c ty| |u|]; simpl.
  - by rewrite app_nil_r.
  - unfold ChatroomEnhanced.send_message.
    destruct (py_not u || py_not c) eqn:E; simpl; [by rewrite app_nil_r|].
    unfold ChatroomEnhanced._update_user_online.
    destruct (write e); simpl; rewrite <- ?app_assoc;
      destruct (py_not u); simpl; destruct (_ >? _); reflexivity.
  - by rewrite app_nil_r.
  - unfold ChatroomEnhanced.user_heartbeat, ChatroomEnhanced._update_user_online.
    destruct (py_not u); simpl; by rewrite app_nil_r.
  - unfold ChatroomEnhanced.clear_messages. simpl.
    destruct (write e); simpl; by rewrite <- ?app_assoc.
Qed.

(** A clearing whose file cannot be closed: the log ends with the success,
    the error and the traceback, and the file is left empty. *)
Example enhanced_close_failure :
  List.map (fun entry => match entry with LogInfo _ => "info" | LogError _ => "error" end)
           (log (fst (ChatroomEnhanced.handle full_disk_env ClearMessages
                        enhanced_saved_state)))
  = ["info"; "error"; "error"]%string /\
  backing_file (fst (ChatroomEnhanced.handle full_disk_env ClearMessages
                       enhanced_saved_state)) = Some [].
Proof. vm_compute. split; reflexivity. Qed.

(** X24. A backing file whose text is no JSON document is not kept:
    [_load_messages] starts from the empty list, and the first accepted
    [send_message] whose write succeeds replaces the file by the text of the
    new message alone (for a bound of at least 0), so what the file held is
    lost. *)
Theorem unparseable_file_overwritten (e : env) (u c : string) (type : option string)
    (st : state) (t : text) :
  u <> EmptyString -> c <> EmptyString -> 0 <= _max_messages st ->
  write e = Written ->
  backing_file st = Some t -> Json.well_formed t = false ->
  let st1 := ChatCenter._load_messages st in
  let st2 := fst (ChatCenter.send_message e (Some u) (Some c) type st1) in
  _messages st1 = [] /\
  _messages st2 = [new_message e u c type] /\
  backing_file st2 = Some (Json.dump [new_message e u c type]).
Proof.
  intros Hu Hc Hmax Hw Hf Ht. cbv zeta.
  assert (H1 : _messages (ChatCenter._load_messages st) = []).
  { unfold backing_file in Hf. unfold ChatCenter._load_messages.
    by rewrite Hf, (WellFormedFacts.malformed_load t Ht). }
  assert (Hmax1 : _max_messages (ChatCenter._load_messages st) = _max_messages st)
    by apply _load_messages_frame.
  split; [exact H1|].
  rewrite send_message_accepted by done. cbn [fst]. rewrite Hw.
  rewrite backing_file_saved, (proj1 (_save_messages_memory _ _)). simpl.
  rewrite H1, Hmax1. simpl.
  assert (Htr : truncated (_max_messages st) [new_message e u c type]
                = [new_message e u c type]).
  { unfold truncated.
    destruct (Z.gtb_spec (Z.of_nat (length [new_message e u c type]))
                         (_max_messages st)) as [Hgt|]; [|done].
    simpl in Hgt. assert (H0 : _max_messages st = 0) by lia.
    rewrite H0. reflexivity. }
  by rewrite Htr.
Qed.

Lemma unparseable_file_overwritten_witness :
  ("bob"%string <> EmptyString) /\ ("yo"%string <> EmptyString) /\
  0 <= _max_messages garbage_state /\ write example_env = Written /\
  backing_file garbage_state = Some (Json.dump [example_message] ++ ["x"%char]) /\
  Json.well_formed (Json.dump [example_message] ++ ["x"%char]) = false /\
  backing_file (fst (ChatCenter.send_message example_env (Some "bob"%string)
                       (Some "yo"%string) None (ChatCenter._load_messages garbage_state)))
  = Some (Json.dump [new_message example_env "bob" "yo" None]).
Proof.
  assert (H3 : 0 <= _max_messages garbage_state) by (simpl; lia).
  assert (H5 : backing_file garbage_state
               = Some (Json.dump [example_message] ++ ["x"%char]))
    by (vm_compute; reflexivity).
  assert (H6 : Json.well_formed (Json.dump [example_message] ++ ["x"%char]) = false)
    by (vm_compute; reflexivity).
  split; [discriminate | split; [discriminate | split; [exact H3 |
    split; [reflexivity | split; [exact H5 | split; [exact H6|]]]]]].
  apply (proj2 (proj2 (unparseable_file_overwritten example_env "bob" "yo" None
           garbage_state _ ltac:(discriminate) ltac:(discriminate) H3 eq_refl H5 H6))).
Defined.
